(** * The Chronos forecaster adapter (sktime/forecasting/chronos.py)

    A shallow embedding of [ChronosForecaster]: its constructor, [_fit],
    [_predict] and the two module-level helpers [_same_index] and
    [_frame2numpy], followed by the properties of the adapter.

    Conventions of the embedding.
    - Python objects that are mutated or shared live in an explicit
      [world]: the adapter instance ([self]), the store of data frames
      (frames are passed by reference, [copy] allocates), the process-wide
      random state that [transformers.set_seed] resets, the state of the
      model store that [from_pretrained] reads, and the log of calls made
      to the pretrained pipeline.
    - Methods are computations in a state-and-exception monad [M] over
      that world; a raised exception keeps the state reached so far.
    - Time points are integers (an integer time index with unit step);
      an instance key of a panel is an integer label.
    - Cell values range over an abstract numeric type [V] with the
      operations numpy needs for a median and the rounding to single
      precision; nothing is assumed about them unless a theorem says so.
    - The pretrained pipeline, its loader and the random generators are
      external: they are operations of the class [External]. *)

From stdpp Require Import base gmap strings list sorting.
From Stdlib Require Import ZArith Lia.

(** ** Python values and exceptions *)

(** Values a configuration dictionary may hold; a float is kept as the
    fraction it denotes. *)
Inductive pyval : Type :=
| PyNone
| PyBool (b : bool)
| PyInt (n : Z)
| PyFloat (num : Z) (den : positive)
| PyStr (s : string)
| PyDtype (name : string).

Inductive exn : Type :=
| AssertionError
| ValueError
| IndexError
| KeyError
| AttributeError
| TypeError
| ReferenceError
| ExternalError (code : Z).

(** ** Numeric cells *)

Class Numeric (V : Type) : Type := {
  (** [a <= b] on numbers *)
  Vleb : V -> V -> bool;
  (** arithmetic mean of two numbers *)
  Vmean2 : V -> V -> V;
  Vnan : V;
  Vis_nan : V -> bool;
  (** rounding to single precision: [np.float32], [torch.Tensor] *)
  float32 : V -> V
}.

(** The laws of order and mean that numbers obey. *)
Class NumericOrder (V : Type) `{!Numeric V} : Prop := {
  Vleb_total : forall a b : V, Vleb a b \/ Vleb b a;
  Vleb_trans : forall a b c : V, Vleb a b -> Vleb b c -> Vleb a c;
  Vmean2_between :
    forall a b : V, Vleb a b -> Vleb a (Vmean2 a b) /\ Vleb (Vmean2 a b) b
}.

(** ** Pieces of Python, numpy and pandas used by the adapter *)

(** [max(xs)] of the Python builtins: raises on an empty sequence. *)
Definition py_max (xs : list Z) : exn + Z :=
  match xs with
  | [] => inl ValueError
  | x :: xs' => inr (foldr Z.max x xs')
  end.

(** [a[start:]] for a sequence: a negative start counts from the end and
    is clipped at the beginning, a start past the end gives nothing. *)
Definition py_slice_from {A : Type} (start : Z) (a : list A) : list A :=
  let n := Z.of_nat (length a) in
  let s := if (start <? 0)%Z then Z.max 0 (n + start) else Z.min n start in
  drop (Z.to_nat s) a.

(** [np.unique] of a one-dimensional integer array: the sorted distinct
    elements. *)
Definition np_unique (xs : list Z) : list Z :=
  merge_sort Z.le (remove_dups xs).

(** [a.repeat(n)]: each element [n] times in a row. *)
Definition np_repeat {A : Type} (n : nat) (a : list A) : list A :=
  flat_map (replicate n) a.

(** [lst * n] on a Python list: [n] copies end to end. *)
Definition py_list_mul {A : Type} (lst : list A) (n : nat) : list A :=
  concat (replicate n lst).

(** Column [j] of a two-dimensional array given by its rows: [a[:, j]]. *)
Definition column {A : Type} (j : nat) (rows : list (list A)) : list A :=
  omap (fun r => r !! j) rows.

(** A two-dimensional array is kept as the list of its rows; the arrays
    below are rectangular (every data frame and every tensor is), and
    the number of columns is read off the first row. *)
Definition ncols {A : Type} (rows : list (list A)) : nat :=
  match rows with
  | [] => 0
  | r :: _ => length r
  end.

(** Cut a list into [k] consecutive pieces of [n] elements. *)
Fixpoint chunks {A : Type} (k n : nat) (l : list A) : list (list A) :=
  match k with
  | O => []
  | S k' => take n l :: chunks k' n (drop n l)
  end.

(** [a.reshape((-1, length, c))] for an array [a] of [c] columns given
    by its rows: the leading dimension is inferred, which needs a
    non-zero [length * c] dividing the size of [a]. *)
Definition np_reshape3 {A : Type} (rows : list (list A)) (len c : nat)
  : exn + list (list (list A)) :=
  if decide (len * c = 0) then inl ValueError
  else if decide ((length rows * c) `mod` (len * c) = 0)
       then inr (chunks (length rows `div` len) len rows)
       else inl ValueError.

(** [np.stack(arrays, axis=1)] of one-dimensional arrays: the arrays
    become the columns of the result; there must be at least one and all
    of one length. *)
Definition np_stack_axis1 {A : Type} (arrays : list (list A))
  : exn + list (list A) :=
  match arrays with
  | [] => inl ValueError
  | a0 :: rest =>
      if forallb (fun a => bool_decide (length a = length a0)) rest
      then inr (map (fun j => column j arrays) (seq 0 (length a0)))
      else inl ValueError
  end.

Section Median.
Context {V : Type} `{Numeric V}.

(** [np.median] of a one-dimensional array: the middle value of a
    sorted copy, the mean of the two middle values when the length is
    even; not-a-number for an empty array or when one is present. *)
Definition np_median_1d (a : list V) : V :=
  let n := length a in
  let part := merge_sort (fun x y => Vleb x y) a in
  if existsb Vis_nan a then Vnan
  else match n with
       | O => Vnan
       | _ => if Nat.even n
              then match part !! (n `div` 2 - 1), part !! (n `div` 2) with
                   | Some lo, Some hi => Vmean2 lo hi
                   | _, _ => Vnan
                   end
              else default Vnan (part !! (n `div` 2))
       end.

(** [np.median(a, axis=0)] of a two-dimensional array: one median per
    column, taken over the rows. *)
Definition np_median_axis0 (a : list (list V)) : list V :=
  map (fun j => np_median_1d (column j a)) (seq 0 (ncols a)).

End Median.

(** ** Data frames and forecasting horizons *)

(** The row labels of a frame: a flat index of time points, or a
    two-level index of (instance key, time point) pairs. *)
Inductive pd_index : Type :=
| Index (labels : list Z)
| MultiIndex (labels : list (Z * Z)).

Definition index_length (ix : pd_index) : nat :=
  match ix with
  | Index ts => length ts
  | MultiIndex rows => length rows
  end.

(** [index.get_level_values(-1)]: the time points. *)
Definition get_level_values_last (ix : pd_index) : list Z :=
  match ix with
  | Index ts => ts
  | MultiIndex rows => map snd rows
  end.

(** Keep the labels whose mask entry is true. *)
Fixpoint mask_filter {A : Type} (mask : list bool) (l : list A) : list A :=
  match mask, l with
  | b :: mask', x :: l' =>
      if b then x :: mask_filter mask' l' else mask_filter mask' l'
  | _, _ => []
  end.

Definition index_mask (mask : list bool) (ix : pd_index) : pd_index :=
  match ix with
  | Index ts => Index (mask_filter mask ts)
  | MultiIndex rows => MultiIndex (mask_filter mask rows)
  end.

Section Frames.
Context {V : Type}.

Record DataFrame : Type := {
  df_index : pd_index;
  df_index_names : list (option string);
  df_columns : list string;
  (** the cells, row by row; as many rows as labels, as many cells in
      a row as columns *)
  df_values : list (list V)
}.

(** [pd.DataFrame(data, index=index, columns=columns)] for a
    two-dimensional [data] of [width] columns (an array keeps its
    second dimension also when it has no rows): the shapes must
    agree. *)
Definition pd_DataFrame (data : list (list V)) (width : nat)
    (ix : pd_index) (names : list (option string)) (cols : list string)
  : exn + DataFrame :=
  if decide (length data = index_length ix
             /\ width = length cols
             /\ Forall (fun r => length r = width) data)
  then inr {| df_index := ix; df_index_names := names;
              df_columns := cols; df_values := data |}
  else inl ValueError.

(** [df.index.names = names] *)
Definition set_index_names (names : list (option string)) (df : DataFrame)
  : DataFrame :=
  {| df_index := df_index df; df_index_names := names;
     df_columns := df_columns df; df_values := df_values df |}.

(** [df.loc[mask]] for a boolean mask over the rows. *)
Definition loc_mask (df : DataFrame) (mask : list bool) : DataFrame :=
  {| df_index := index_mask mask (df_index df);
     df_index_names := df_index_names df;
     df_columns := df_columns df;
     df_values := mask_filter mask (df_values df) |}.
End Frames.
Arguments DataFrame : clear implicits.

(** A forecasting horizon: time points, either offsets from the cutoff
    or absolute. *)
Record ForecastingHorizon : Type := {
  fh_values : list Z;
  is_relative : bool
}.

(** Modelled from the spec: [ForecastingHorizon.to_relative] of the
    framework base package is not part of the sources; the horizon is a
    set of future time points or step offsets relative to the end of the
    historical series, so an absolute point becomes its distance from
    the cutoff. *)
Definition to_relative (fh : ForecastingHorizon) (cutoff : Z) : list Z :=
  if is_relative fh then fh_values fh
  else map (fun t => (t - cutoff)%Z) (fh_values fh).

(** Modelled from the spec: [ForecastingHorizon.to_absolute] of the
    framework base package is not part of the sources; a step offset is
    absolutized against the last observed time point. *)
Definition to_absolute (fh : ForecastingHorizon) (cutoff : Z) : list Z :=
  if is_relative fh then map (fun k => (cutoff + k)%Z) (fh_values fh)
  else fh_values fh.

(** Modelled from the spec: [ForecastingHorizon.get_expected_pred_idx]
    of the framework base package is not part of the sources; the
    adapter hands it the reshaped array, which carries no index, and
    uses the result as the time points present in the requested
    horizon. *)
Definition get_expected_pred_idx (fh : ForecastingHorizon) (cutoff : Z)
  : list Z :=
  to_absolute fh cutoff.

(** [ForecastingHorizon(range(1, n + 1))]: the first [n] steps ahead. *)
Definition fh_range (n : nat) : ForecastingHorizon :=
  {| fh_values := map (fun i => Z.of_nat (S i)) (seq 0 n);
     is_relative := true |}.

(** [pd.MultiIndex.from_arrays([keys, times])]: the arrays must have one
    length. *)
Definition MultiIndex_from_arrays (keys times : list Z) : exn + pd_index :=
  if decide (length keys = length times)
  then inr (MultiIndex (zip keys times))
  else inl ValueError.

(** ** The external collaborators *)

(** What the adapter takes from outside: the random generators behind
    [transformers.set_seed] and [np.random], and the pretrained pipeline
    with its loader.  [G] is the state of the process-wide generators
    of numpy and torch (the generator of Python's own [random] module,
    which [set_seed] seeds as well, is read by nothing here), [E] the
    state of the model store, [pipeline] a loaded pipeline.
    - [seed_state s] is the generator state that [set_seed(s)] installs
      for a seed that numpy accepts, whatever the state before.
    - [pipeline_predict] draws its samples from the generator state it
      is given and hands back the state it leaves. Its result is a
      tensor of shape (batch, samples, steps). *)
Class External (V G E pipeline : Type) : Type := {
  seed_state : Z -> G;
  np_random_randint : Z -> Z -> G -> Z * G;
  from_pretrained : string -> pyval -> pyval -> E -> (exn + pipeline) * E;
  context_length : pipeline -> Z;
  pipeline_predict :
    pipeline -> list V -> Z -> pyval -> pyval -> pyval -> pyval -> bool ->
    G -> (exn + list (list (list V))) * G
}.

Abbreviation loc := positive.

Section Adapter.
Context {V G E pipeline : Type}.
Context `{!Numeric V} `{!External V G E pipeline}.

(** ** The adapter instance and the world around it *)

(** The attributes of an instance.  [_y], [_cutoff] and [_fh] are kept
    by the framework base class: the series retained at fit time (a
    reference into the store of frames), the last observed time
    point, and the horizon the framework has seen last, which the
    property [self.fh] reads. *)
Record ChronosForecaster : Type := {
  seed : option Z;
  _seed : Z;
  config : option (gmap string pyval);
  _config : gmap string pyval;
  model_path : string;
  model_pipeline : option pipeline;
  context : pyval;
  _y : option loc;
  _cutoff : option Z;
  _fh : option ForecastingHorizon
}.

(** The calls made to the external pipeline and its loader. *)
Inductive event : Type :=
| from_pretrained_call (path : string) (torch_dtype device_map : pyval)
| predict_call (p : pipeline) (history : list V) (prediction_length : Z)
    (num_samples temperature top_k top_p : pyval)
    (limit_prediction_length : bool).

Record world : Type := {
  self : ChronosForecaster;
  heap : gmap loc (DataFrame V);
  rng : G;
  env : E;
  trace : list event
}.

Definition set_self (s : ChronosForecaster) (w : world) : world :=
  {| self := s; heap := heap w; rng := rng w; env := env w;
     trace := trace w |}.
Definition set_heap (h : gmap loc (DataFrame V)) (w : world) : world :=
  {| self := self w; heap := h; rng := rng w; env := env w;
     trace := trace w |}.
Definition set_rng (g : G) (w : world) : world :=
  {| self := self w; heap := heap w; rng := g; env := env w;
     trace := trace w |}.
Definition set_env (e : E) (w : world) : world :=
  {| self := self w; heap := heap w; rng := rng w; env := e;
     trace := trace w |}.
Definition log (ev : event) (w : world) : world :=
  {| self := self w; heap := heap w; rng := rng w; env := env w;
     trace := trace w ++ [ev] |}.

(** ** The monad of methods: state and exceptions *)

Definition M (A : Type) : Type := world -> (exn + A) * world.

#[export] Instance M_ret : MRet M := fun A a w => (inr a, w).
#[export] Instance M_bind : MBind M := fun A B k m w =>
  match m w with
  | (inl e, w') => (inl e, w')
  | (inr a, w') => k a w'
  end.

Definition raise {A : Type} (e : exn) : M A := fun w => (inl e, w).

(** A pure step that may raise. *)
Definition lift {A : Type} (r : exn + A) : M A := fun w => (r, w).

(** [self.attr] *)
Definition getattr {A : Type} (attr : ChronosForecaster -> A) : M A :=
  fun w => (inr (attr (self w)), w).

(** Assignment to the attributes of [self]. *)
Definition put_self (s : ChronosForecaster) : M unit :=
  fun w => (inr tt, set_self s w).

(** Use of an attribute that must not be [None]. *)
Definition not_none {A : Type} (e : exn) (o : option A) : M A :=
  match o with
  | Some a => mret a
  | None => raise e
  end.

(** [d[key]] on a dictionary. *)
Definition getitem (d : gmap string pyval) (key : string) : M pyval :=
  not_none KeyError (d !! key).

(** [for x in xs: results.append(body(x))] *)
Fixpoint for_each {A B : Type} (body : A -> M B) (xs : list A)
  : M (list B) :=
  match xs with
  | [] => mret []
  | x :: xs' =>
      r ← body x;
      rs ← for_each body xs';
      mret (r :: rs)
  end.

(** [frame.copy()]: a new frame with the same content. *)
Definition copy (l : loc) : M loc := fun w =>
  match heap w !! l with
  | Some df =>
      let l' := fresh (dom (heap w)) in
      (inr l', set_heap (<[l' := df]> (heap w)) w)
  | None => (inl ReferenceError, w)
  end.

(** Reading a frame through its reference. *)
Definition frame_at (l : loc) : M (DataFrame V) := fun w =>
  match heap w !! l with
  | Some df => (inr df, w)
  | None => (inl ReferenceError, w)
  end.

(** [transformers.set_seed(s)]: it seeds Python's [random], then
    numpy, then torch; [np.random.seed] takes a seed between 0 and
    2**32 - 1 and raises for any other, before it touches its
    generator and before torch is seeded. *)
Definition set_seed (s : Z) : M unit := fun w =>
  if decide (0 <= s < 2 ^ 32)%Z
  then (inr tt, set_rng (seed_state s) w)
  else (inl ValueError, w).

(** [np.random.randint(lo, hi)] *)
Definition randint (lo hi : Z) : M Z := fun w =>
  let '(n, g) := np_random_randint lo hi (rng w) in
  (inr n, set_rng g w).

(** [ChronosPipeline.from_pretrained(path, torch_dtype=.., device_map=..)] *)
Definition ChronosPipeline_from_pretrained
    (path : string) (torch_dtype device_map : pyval) : M pipeline :=
  fun w =>
    let w1 := log (from_pretrained_call path torch_dtype device_map) w in
    let '(r, e) := from_pretrained path torch_dtype device_map (env w1) in
    (r, set_env e w1).

(** [pipeline.predict(history, prediction_length, num_samples=.., ..)] *)
Definition ChronosPipeline_predict
    (p : pipeline) (history : list V) (prediction_length : Z)
    (num_samples temperature top_k top_p : pyval)
    (limit_prediction_length : bool) : M (list (list (list V))) :=
  fun w =>
    let w1 := log (predict_call p history prediction_length num_samples
                     temperature top_k top_p limit_prediction_length) w in
    let '(r, g) := pipeline_predict p history prediction_length num_samples
                     temperature top_k top_p limit_prediction_length
                     (rng w1) in
    (r, set_rng g w1).

(** ** The adapter *)

Definition _default_config : gmap string pyval :=
  <["num_samples" := PyNone]>
  (<["temperature" := PyNone]>
  (<["top_k" := PyNone]>
  (<["top_p" := PyNone]>
  (<["limit_prediction_length" := PyBool false]>
  (<["torch_dtype" := PyDtype "bfloat16"]>
  (<["device_map" := PyStr "cpu"]> ∅)))))).

(** [d.update(other)]: the entries of [other] win. *)
Definition dict_update (d other : gmap string pyval) : gmap string pyval :=
  other ∪ d.

Definition __init__ (model_path : string)
    (config : option (gmap string pyval)) (seed : option Z) : M unit :=
  _seed ← (match seed with
           | None => randint 0 (2 ^ 31)
           | Some s => mret s
           end : M Z);
  let _config := dict_update _default_config (default ∅ config) in
  put_self {| seed := seed; _seed := _seed;
              config := config; _config := _config;
              model_path := model_path; model_pipeline := None;
              context := PyNone; _y := None; _cutoff := None;
              _fh := None |}.

Definition _fit (y : loc) (X : option loc)
    (fh : option ForecastingHorizon) : M unit :=
  p ← getattr model_pipeline;
  match p with
  | None =>
      path ← getattr model_path;
      cfg ← getattr _config;
      torch_dtype ← getitem cfg "torch_dtype";
      cfg ← getattr _config;
      device_map ← getitem cfg "device_map";
      p ← ChronosPipeline_from_pretrained path torch_dtype device_map;
      s ← getattr id;
      put_self {| seed := seed s; _seed := _seed s;
                  config := config s; _config := _config s;
                  model_path := model_path s;
                  model_pipeline := Some p;
                  context := context s; _y := _y s;
                  _cutoff := _cutoff s; _fh := _fh s |}
  | Some _ => mret tt
  end.

Definition _same_index (data : DataFrame V) : exn + (list Z * nat) :=
  match df_index data with
  | Index _ => inl AttributeError
  | MultiIndex rows =>
      (* one entry per instance key, keys in sorted order: the time
         points of the rows of that key *)
      let data :=
        map (fun k => map snd (filter (fun r => r.1 = k) rows))
            (np_unique (map fst rows)) in
      match data with
      | [] => inl ValueError
      | first :: _ =>
          if forallb (fun x => bool_decide (x = first)) data
          then inr (first, length first)
          else inl AssertionError
      end
  end.

Definition _frame2numpy (data : DataFrame V)
  : exn + list (list (list V)) :=
  match _same_index data with
  | inl e => inl e
  | inr (idx, len) =>
      np_reshape3 (map (map float32) (df_values data)) len
                  (length (df_columns data))
  end.

(** The body of the loop of [_predict] for one group [_y_i2d] of the
    reshaped input, that is [_y[i, :, :]]. *)
Definition forecast_group (prediction_length : Z) (_y_i2d : list (list V))
  : M (list V) :=
  let _y_i := column 0 _y_i2d in
  p ← (getattr model_pipeline ≫= not_none AttributeError);
  let _y_i := py_slice_from (- context_length p) _y_i in
  cfg ← getattr _config;
  num_samples ← getitem cfg "num_samples";
  cfg ← getattr _config;
  temperature ← getitem cfg "temperature";
  cfg ← getattr _config;
  top_k ← getitem cfg "top_k";
  cfg ← getattr _config;
  top_p ← getitem cfg "top_p";
  prediction_results ←
    ChronosPipeline_predict p (map float32 _y_i) prediction_length
      num_samples temperature top_k top_p false;
  first ← not_none IndexError (prediction_results !! 0);
  mret (np_median_axis0 first).

(** Modelled from the spec: the property [fh] of the framework base
    class is not part of the sources; it hands back the horizon that
    the framework keeps on the instance, and raises when none has
    been seen yet. *)
Definition fh_property : M ForecastingHorizon :=
  getattr _fh ≫= not_none ValueError.

(** The index of the table of forecasts before it is restricted to
    the horizon; [shape0] and [shape1] are the two dimensions of the
    stacked forecasts.  For a panel the frequency of the stored
    horizon is read ([self.fh.freq]); with integer time points it
    has no further part. *)
Definition forecast_index (_y_df : DataFrame V) (shape0 shape1 : nat)
  : M pd_index :=
  match df_index _y_df with
  | MultiIndex rows =>
      let ins := np_repeat shape0 (np_unique (map fst rows)) in
      stored_fh ← fh_property;
      cutoff ← (getattr _cutoff ≫= not_none TypeError);
      let idx := py_list_mul (to_absolute (fh_range shape0) cutoff) shape1 in
      lift (MultiIndex_from_arrays ins idx)
  | Index _ =>
      cutoff ← (getattr _cutoff ≫= not_none TypeError);
      mret (Index (to_absolute (fh_range shape0) cutoff))
  end.

Definition _predict (fh : option ForecastingHorizon) (y : option loc)
    (X : option loc) : M (DataFrame V) :=
  s ← getattr _seed;
  set_seed s;;
  prediction_length ←
    (match fh with
     | Some fh =>
         cutoff ← (getattr _cutoff ≫= not_none TypeError);
         lift (py_max (to_relative fh cutoff))
     | None => mret 1%Z
     end : M Z);
  stored ← (getattr _y ≫= not_none AttributeError);
  _y ← copy stored;
  _y ← (match y with
        | Some y => copy y
        | None => mret _y
        end : M loc);
  _y_df ← frame_at _y;
  let index_names := df_index_names _y_df in
  _y ← lift (match df_index _y_df with
             | MultiIndex _ => _frame2numpy _y_df
             | Index _ =>
                 (* _y.values.reshape(1, -1, 1) *)
                 inr [map (fun v => [v]) (concat (df_values _y_df))]
             end);
  results ← for_each (forecast_group prediction_length) _y;
  pred ← lift (np_stack_axis1 results);
  let shape0 := length pred in
  let shape1 := length results in
  index ← forecast_index _y_df shape0 shape1;
  pred_out ← (match fh with
              | Some fh =>
                  cutoff ← (getattr _cutoff ≫= not_none TypeError);
                  mret (get_expected_pred_idx fh cutoff)
              | None => raise AttributeError
              end : M (list Z));
  (* pred.reshape(-1, 1): one column *)
  pred ← lift (pd_DataFrame (map (fun v => [v]) (concat pred)) 1 index
                 (df_index_names _y_df) (df_columns _y_df));
  let dateindex :=
    map (fun x => bool_decide (x ∈ pred_out))
        (get_level_values_last (df_index pred)) in
  let pred := set_index_names index_names pred in
  mret (loc_mask pred dateindex).

(** [ChronosForecaster.get_test_params]: the two presets, as the
    arguments of the constructor. *)
Definition get_test_params
  : list (string * option (gmap string pyval) * option Z) :=
  [ ("amazon/chronos-t5-tiny", None, None);
    ("amazon/chronos-t5-tiny",
     Some (<["num_samples" := PyInt 20]> ∅), Some 42%Z) ].
End Adapter.
Arguments ChronosForecaster : clear implicits.
Arguments event : clear implicits.
Arguments world : clear implicits.
Arguments M : clear implicits.

(** Modelled from the spec: the [fit] of the framework base class is not
    part of the sources; it retains a reference to the historical series
    for use at predict time, with the last observed time point as the
    cutoff, keeps the horizon when one is passed, and runs [_fit]. *)
Definition fit {V G E pipeline : Type}
    `{!Numeric V} `{!External V G E pipeline}
    (y : loc) (X : option loc) (fh : option ForecastingHorizon)
  : M V G E pipeline unit :=
  df ← frame_at y;
  s ← getattr id;
  put_self {| seed := seed s; _seed := _seed s;
              config := config s; _config := _config s;
              model_path := model_path s;
              model_pipeline := model_pipeline s;
              context := context s; _y := Some y;
              _cutoff := last (get_level_values_last (df_index df));
              _fh := match fh with Some h => Some h | None => _fh s end |};;
  _fit y X fh.

(** ** A concrete world, to run the adapter on

    Integer cells (no rounding, no not-a-number) and a toy pipeline: the
    generator state is a counter, a loaded pipeline is its context
    length, and a forecast is made of three sampled trajectories that
    continue the last value of the history. *)
Module Toy.
#[export] Instance Z_numeric : Numeric Z := {|
  Vleb := Z.leb;
  Vmean2 a b := ((a + b) / 2)%Z;
  Vnan := 0%Z;
  Vis_nan _ := false;
  float32 := id
|}.

#[export] Instance Z_order : NumericOrder Z.
Proof.
  split; simpl.
  - intros a b. destruct (Z.leb_spec a b), (Z.leb_spec b a); simpl; lia.
  - intros a b c Hab Hbc.
    apply Is_true_true, Z.leb_le in Hab. apply Is_true_true, Z.leb_le in Hbc.
    apply Is_true_true, Z.leb_le. lia.
  - intros a b Hab. apply Is_true_true, Z.leb_le in Hab.
    split; apply Is_true_true, Z.leb_le.
    + apply Z.div_le_lower_bound; lia.
    + apply Z.div_le_upper_bound; lia.
Qed.

Definition toy_predict (p : Z) (history : list Z) (prediction_length : Z)
    (num_samples temperature top_k top_p : pyval) (limit : bool) (g : Z)
  : (exn + list (list (list Z))) * Z :=
  let base := default 0%Z (last history) in
  let steps := seq 1 (Z.to_nat prediction_length) in
  let sample (k : Z) :=
    map (fun j => (base + 10 * Z.of_nat j + k * (1 + g `mod` 2))%Z) steps in
  (inr [[sample 2%Z; sample 0%Z; sample 1%Z]], (g + 1)%Z).

#[export] Instance toy_external : External Z Z unit Z := {|
  seed_state s := s;
  np_random_randint lo hi g := ((lo + g `mod` (hi - lo))%Z, (g + 1)%Z);
  from_pretrained path torch_dtype device_map e :=
    (if decide (path = "") then inl (ExternalError 404) else inr 512%Z, e);
  context_length p := p;
  pipeline_predict := toy_predict
|}.

Definition blank : ChronosForecaster Z :=
  {| seed := None; _seed := 0; config := None; _config := ∅;
     model_path := ""; model_pipeline := None; context := PyNone;
     _y := None; _cutoff := None; _fh := None |}.

(** Data: the airline-like flat series and a panel of two instances. *)
Definition y_flat : DataFrame Z :=
  {| df_index := Index [0; 1; 2; 3]%Z;
     df_index_names := [None];
     df_columns := ["passengers"];
     df_values := [[112]; [118]; [132]; [129]]%Z |}.

Definition y_panel : DataFrame Z :=
  {| df_index :=
       MultiIndex [(0, 0); (0, 1); (0, 2); (1, 0); (1, 1); (1, 2)]%Z;
     df_index_names := [Some "instance"; Some "time"];
     df_columns := ["value"];
     df_values := [[100]; [200]; [300]; [1000]; [2000]; [3000]]%Z |}.

Definition y_ragged : DataFrame Z :=
  {| df_index := MultiIndex [(0, 0); (0, 1); (0, 2); (1, 0); (1, 1)]%Z;
     df_index_names := [Some "instance"; Some "time"];
     df_columns := ["value"];
     df_values := [[100]; [200]; [300]; [1000]; [2000]]%Z |}.

Definition world0 : world Z Z unit Z :=
  {| self := blank;
     heap := <[1%positive := y_flat]>
             (<[2%positive := y_panel]> (<[3%positive := y_ragged]> ∅));
     rng := 7%Z; env := tt; trace := [] |}.

Definition steps (ks : list Z) : ForecastingHorizon :=
  {| fh_values := ks; is_relative := true |}.

(** The world after constructing an adapter with seed 42 and fitting
    it on the frame at [y], with the next two steps as the horizon
    the framework keeps. *)
Definition fitted (y : loc) : world Z Z unit Z :=
  (( __init__ "amazon/chronos-t5-tiny" None (Some 42%Z);;
     fit y None (Some (steps [1; 2]%Z))) world0).2.
End Toy.

(** ** A second concrete world, with a pipeline that can raise

    A loaded pipeline is the longest forecast it makes: a call for
    more steps raises, any other call answers as the toy pipeline
    does.  The loader does not know the empty model identifier.  The
    store also holds a panel of a single instance and a flat frame of
    two value columns. *)
Module Capped.
Import Toy.

Definition capped_predict (p : nat) (history : list Z)
    (prediction_length : Z) (num_samples temperature top_k top_p : pyval)
    (limit : bool) (g : Z)
  : (exn + list (list (list Z))) * Z :=
  if decide (Z.of_nat p < prediction_length)%Z
  then (inl ValueError, g)
  else toy_predict 0 history prediction_length num_samples temperature
         top_k top_p limit g.

#[export] Instance capped_external : External Z Z unit nat := {|
  seed_state s := s;
  np_random_randint lo hi g := ((lo + g `mod` (hi - lo))%Z, (g + 1)%Z);
  from_pretrained path torch_dtype device_map e :=
    (if decide (path = "") then inl (ExternalError 404) else inr 64, e);
  context_length p := 512%Z;
  pipeline_predict := capped_predict
|}.

Definition y_single : DataFrame Z :=
  {| df_index := MultiIndex [(5, 0); (5, 1); (5, 2)]%Z;
     df_index_names := [Some "instance"; Some "time"];
     df_columns := ["value"];
     df_values := [[10]; [20]; [30]]%Z |}.

Definition y_wide : DataFrame Z :=
  {| df_index := Index [0; 1]%Z;
     df_index_names := [None];
     df_columns := ["low"; "high"];
     df_values := [[1; 2]; [3; 4]]%Z |}.

Definition world0 : world Z Z unit nat :=
  {| self := {| seed := None; _seed := 0; config := None; _config := ∅;
                model_path := ""; model_pipeline := None;
                context := PyNone; _y := None; _cutoff := None;
                _fh := None |};
     heap := <[1%positive := y_flat]>
             (<[2%positive := y_panel]>
             (<[4%positive := y_single]> (<[5%positive := y_wide]> ∅)));
     rng := 7%Z; env := tt; trace := [] |}.

(** The world after constructing an adapter with seed 42 and fitting
    it on the frame at [y], with the next two steps as the horizon
    the framework keeps. *)
Definition fitted (y : loc) : world Z Z unit nat :=
  (( __init__ "amazon/chronos-t5-tiny" None (Some 42%Z);;
     fit y None (Some (steps [1; 2]%Z))) world0).2.

(** The world after constructing an adapter with a model identifier
    that the loader does not know, and a fit on the frame at [y] that
    failed for it: a retained series and no pipeline. *)
Definition unloaded (y : loc) : world Z Z unit nat :=
  (( __init__ "" None (Some 42%Z);;
     fit y None (Some (steps [1; 2]%Z))) world0).2.
End Capped.

(** ** Vocabulary of the statements *)

(** The [n] most recent steps of a series. *)
Definition most_recent {A : Type} (n : nat) (l : list A) : list A :=
  drop (length l - n) l.

(** [m] is a largest element of [xs]. *)
Definition is_max (m : Z) (xs : list Z) : Prop :=
  m ∈ xs /\ forall x, x ∈ xs -> (x <= m)%Z.

(** [m] is a median of the numbers [a]: at least half of them are at
    most [m] and at least half of them are at least [m]. *)
Definition is_median {V : Type} `{!Numeric V} (m : V) (a : list V) : Prop :=
  length a <= 2 * length (filter (fun x => Vleb x m) a) /\
  length a <= 2 * length (filter (fun x => Vleb m x) a).

(** The labels of a panel in which every instance of [ks] has the time
    points [ts]: instance by instance, each with all its time points. *)
Definition cross_index (ks ts : list Z) : list (Z * Z) :=
  flat_map (fun k => map (pair k) ts) ks.

(** Sequencing of pure steps that may raise. *)
Definition and_then {A B : Type} (r : exn + A) (k : A -> exn + B) : exn + B :=
  match r with
  | inl e => inl e
  | inr a => k a
  end.

Definition require {A : Type} (e : exn) (o : option A) : exn + A :=
  match o with
  | Some a => inr a
  | None => inl e
  end.

Section Vocabulary.
Context {V G E pipeline : Type}.
Context `{!Numeric V} `{!External V G E pipeline}.

(** The three-dimensional layout (group, time step, value column)
    that [_predict] gives its input before the loop. *)
Definition reshaped (df : DataFrame V) : exn + list (list (list V)) :=
  match df_index df with
  | MultiIndex _ => _frame2numpy df
  | Index _ => inr [map (fun v => [v]) (concat (df_values df))]
  end.

(** The frame a call of predict works on: the series retained at fit
    time, or the replacement the caller supplies.  Both references
    must be live, as they are for any object a Python caller holds. *)
Definition input_frame (w : world V G E pipeline) (y : option loc)
  : option (DataFrame V) :=
  stored ← _y (self w);
  df0 ← heap w !! stored;
  match y with
  | Some l => heap w !! l
  | None => Some df0
  end.

(** The time points of the rows of one instance of a panel. *)
Definition times_of (k : Z) (rows : list (Z * Z)) : list Z :=
  map snd (filter (fun r => r.1 = k) rows).

(** A call of the pipeline's predict, as opposed to a call of the
    loader. *)
Definition is_predict_call (ev : event V pipeline) : Prop :=
  match ev with
  | predict_call _ _ _ _ _ _ _ _ => True
  | from_pretrained_call _ _ _ => False
  end.

(** What one call of predict leaves alone: the attributes of the
    instance, the model store, every frame that existed before; the
    log only grows, by calls that satisfy [φ]. *)
Definition frame_rel (φ : event V pipeline -> Prop)
    (w w' : world V G E pipeline) : Prop :=
  self w' = self w /\ env w' = env w /\ heap w ⊆ heap w' /\
  exists evs, trace w' = trace w ++ evs /\ Forall φ evs.

(** A call of the pipeline's predict for [n] steps. *)
Definition predicts_steps (n : Z) (ev : event V pipeline) : Prop :=
  match ev with
  | predict_call _ _ m _ _ _ _ _ => m = n
  | from_pretrained_call _ _ _ => False
  end.

(** The four sampling parameters read from the merged configuration,
    in the order the call of the pipeline reads them. *)
Definition sampling (s : ChronosForecaster pipeline)
  : exn + (pyval * pyval * pyval * pyval) :=
  match _config s !! "num_samples", _config s !! "temperature",
        _config s !! "top_k", _config s !! "top_p" with
  | Some ns, Some t, Some k, Some tp => inr (ns, t, k, tp)
  | _, _, _, _ => inl KeyError
  end.

(** The history tensor built from one group of the reshaped input. *)
Definition history_of (p : pipeline) (g : list (list V)) : list V :=
  map float32 (py_slice_from (- context_length p) (column 0 g)).

(** The point forecast made of what the pipeline returned. *)
Definition forecast_of (r : exn + list (list (list V))) : exn + list V :=
  match r with
  | inl e => inl e
  | inr batches =>
      match batches !! 0 with
      | Some samples => inr (np_median_axis0 samples)
      | None => inl IndexError
      end
  end.

(** The loop of [_predict] as a function of the generator state it
    starts from: the forecasts (or the first failure), the generator
    state it ends in, and the calls it makes. *)
Fixpoint sample_groups (p : pipeline) (ns t k tp : pyval) (n : Z)
    (gs : list (list (list V))) (g : G)
  : (exn + list (list V)) * G * list (event V pipeline) :=
  match gs with
  | [] => (inr [], g, [])
  | x :: gs' =>
      let ev := predict_call p (history_of p x) n ns t k tp false in
      let r := pipeline_predict p (history_of p x) n ns t k tp false g in
      match forecast_of r.1 with
      | inl e => (inl e, r.2, [ev])
      | inr v =>
          let '(rs, g', evs) := sample_groups p ns t k tp n gs' r.2 in
          (match rs with
           | inl e => inl e
           | inr vs => inr (v :: vs)
           end, g', ev :: evs)
      end
  end.

(** Whether the loop can make its call: the loaded pipeline and the
    sampling parameters, or the exception their absence raises. *)
Definition readiness (s : ChronosForecaster pipeline)
  : exn + (pipeline * (pyval * pyval * pyval * pyval)) :=
  match model_pipeline s with
  | None => inl AttributeError
  | Some p => and_then (sampling s) (fun sp => inr (p, sp))
  end.

Definition loop_model (s : ChronosForecaster pipeline) (n : Z)
    (gs : list (list (list V))) (g : G)
  : (exn + list (list V)) * G * list (event V pipeline) :=
  match readiness s with
  | inl e => (match gs with [] => inr [] | _ :: _ => inl e end, g, [])
  | inr (p, (ns, t, k, tp)) => sample_groups p ns t k tp n gs g
  end.

(** The prediction length [_predict] computes from the horizon. *)
Definition prediction_length_of (s : ChronosForecaster pipeline)
    (fh : option ForecastingHorizon) : exn + Z :=
  match fh with
  | Some h =>
      and_then (require TypeError (_cutoff s))
               (fun c => py_max (to_relative h c))
  | None => inr 1%Z
  end.

(** The index [forecast_index] builds, as a function of the stored
    horizon and the cutoff. *)
Definition index_of (stored : option ForecastingHorizon)
    (cutoff : option Z) (_y_df : DataFrame V)
    (shape0 shape1 : nat) : exn + pd_index :=
  match df_index _y_df with
  | MultiIndex rows =>
      and_then (require ValueError stored) (fun _ =>
      and_then (require TypeError cutoff) (fun c =>
        MultiIndex_from_arrays
          (np_repeat shape0 (np_unique (map fst rows)))
          (py_list_mul (to_absolute (fh_range shape0) c) shape1)))
  | Index _ =>
      and_then (require TypeError cutoff) (fun c =>
        inr (Index (to_absolute (fh_range shape0) c)))
  end.

(** The table [_predict] builds from the forecasts of the groups, as
    a function of the stored horizon and the cutoff. *)
Definition table_of (stored : option ForecastingHorizon)
    (cutoff : option Z) (fh : option ForecastingHorizon)
    (_y_df : DataFrame V) (results : list (list V))
  : exn + DataFrame V :=
  and_then (np_stack_axis1 results) (fun pred =>
  and_then (index_of stored cutoff _y_df (length pred) (length results))
    (fun index =>
  and_then (match fh with
            | Some h =>
                and_then (require TypeError cutoff)
                         (fun c => inr (get_expected_pred_idx h c))
            | None => inl AttributeError
            end) (fun pred_out =>
  and_then (pd_DataFrame (map (fun v => [v]) (concat pred)) 1 index
              (df_index_names _y_df) (df_columns _y_df)) (fun pred =>
  inr (loc_mask (set_index_names (df_index_names _y_df) pred)
         (map (fun x => bool_decide (x ∈ pred_out))
              (get_level_values_last (df_index pred)))))))).

(** The world after the generator moved to [g] and [evs] were logged. *)
Definition advance (g : G) (evs : list (event V pipeline))
    (w : world V G E pipeline) : world V G E pipeline :=
  {| self := self w; heap := heap w; rng := g; env := env w;
     trace := trace w ++ evs |}.

(** A call of a method of the adapter with its arguments, and the
    world a sequence of calls leaves; an exception a call raises is
    caught by the caller, who goes on with the next call. *)
Inductive method_call : Type :=
| call_fit (y : loc) (X : option loc) (fh : option ForecastingHorizon)
| call_predict (fh : option ForecastingHorizon) (y X : option loc).

Definition run_call (c : method_call) (w : world V G E pipeline)
  : world V G E pipeline :=
  match c with
  | call_fit y X fh => (_fit y X fh w).2
  | call_predict fh y X => (_predict fh y X w).2
  end.

Definition run_calls (cs : list method_call) (w : world V G E pipeline)
  : world V G E pipeline :=
  foldl (fun w c => run_call c w) w cs.

(** The keys of the configuration that the adapter documents. *)
Definition documented_keys : list string :=
  ["num_samples"; "temperature"; "top_k"; "top_p";
   "limit_prediction_length"; "torch_dtype"; "device_map"].


(** Every run of [m] takes a world to an [R]-related one. *)
Definition preserves {A : Type} (R : relation (world V G E pipeline))
    (m : M V G E pipeline A) : Prop :=
  forall w, R w (m w).2.
End Vocabulary.

(** ** Facts about the Python and numpy pieces *)

Lemma py_max_cons (x : Z) (xs : list Z) :
  is_max (foldr Z.max x xs) (x :: xs).
Proof.
  induction xs as [|a xs [Hin Hub]]; simpl.
  - split; [left|]. intros y Hy. apply list_elem_of_singleton in Hy. lia.
  - split.
    + destruct (Z.max_spec a (foldr Z.max x xs)) as [[_ ->]|[_ ->]].
      * apply elem_of_cons in Hin as [->|Hin]; [left|right; right; done].
      * right; left.
    + intros y Hy.
      apply elem_of_cons in Hy as [->|Hy].
      * specialize (Hub x (ltac:(left))). lia.
      * apply elem_of_cons in Hy as [->|Hy]; [lia|].
        specialize (Hub y (ltac:(right; done))). lia.
Qed.


Lemma py_max_nonempty (xs : list Z) :
  xs ≠ [] -> exists m, py_max xs = inr m.
Proof. destruct xs; [done|]. eauto. Qed.

Lemma py_slice_from_recent {A : Type} (c : Z) (a : list A) :
  (0 < c)%Z ->
  py_slice_from (- c) a
  = most_recent (Z.to_nat (Z.min (Z.of_nat (length a)) c)) a.
Proof.
  intros Hc. unfold py_slice_from, most_recent.
  destruct (Z.ltb_spec (- c) 0) as [_|?]; [|lia].
  f_equal. lia.
Qed.

Lemma py_slice_from_zero {A : Type} (a : list A) :
  py_slice_from (- 0) a = a.
Proof. unfold py_slice_from. simpl. by rewrite Z.min_r by lia. Qed.

Lemma mask_filter_map {A : Type} (f : A -> bool) (l : list A) :
  mask_filter (map f l) l = filter (fun x => f x) l.
Proof.
  induction l as [|x l IH]; simpl; [done|].
  rewrite IH, filter_cons. by destruct (f x).
Qed.

Lemma mask_filter_fmap {A B : Type} (g : A -> B) (mask : list bool)
    (l : list A) :
  mask_filter mask (map g l) = map g (mask_filter mask l).
Proof.
  revert l. induction mask as [|b mask IH]; intros [|x l]; simpl; try done.
  destruct b; simpl; by rewrite IH.
Qed.

Lemma column_singleton {A : Type} (j : nat) (a : list A) :
  column j [a] = match a !! j with Some x => [x] | None => [] end.
Proof. unfold column. simpl. by destruct (a !! j). Qed.

(** Stacking a single array along axis 1 gives one row per element. *)
Lemma np_stack_axis1_single {A : Type} (a : list A) :
  np_stack_axis1 [a] = inr (map (fun v => [v]) a).
Proof.
  unfold np_stack_axis1. cbn -[column]. f_equal.
  apply list_eq. intros i.
  rewrite !list_lookup_fmap.
  destruct (decide (i < length a)) as [Hi|Hi].
  - rewrite lookup_seq_lt by done. cbn -[column].
    rewrite column_singleton.
    destruct (lookup_lt_is_Some_2 a i Hi) as [x Hx]. by rewrite Hx.
  - rewrite lookup_seq_ge by lia.
    by rewrite (lookup_ge_None_2 a i) by lia.
Qed.

Lemma concat_singletons {A : Type} (a : list A) :
  concat (map (fun v => [v]) a) = a.
Proof. induction a as [|x a IH]; simpl; [done|]. by rewrite IH. Qed.

Lemma length_np_median_axis0 {V : Type} `{!Numeric V} (a : list (list V)) :
  length (np_median_axis0 a) = ncols a.
Proof. unfold np_median_axis0. by rewrite length_map, length_seq. Qed.

Lemma lookup_np_median_axis0 {V : Type} `{!Numeric V} (a : list (list V))
    (j : nat) :
  j < ncols a ->
  np_median_axis0 a !! j = Some (np_median_1d (column j a)).
Proof.
  intros Hj. unfold np_median_axis0.
  rewrite list_lookup_fmap, lookup_seq_lt by done. done.
Qed.

Lemma py_max_is_max (xs : list Z) (m : Z) :
  is_max m xs -> py_max xs = inr m.
Proof.
  intros [Hin Hub].
  destruct xs as [|x xs]; [by apply elem_of_nil in Hin|].
  simpl. f_equal.
  destruct (py_max_cons x xs) as [Hin' Hub'].
  specialize (Hub _ Hin'). specialize (Hub' _ Hin). lia.
Qed.

Lemma column_0_singletons {A : Type} (l : list A) :
  column 0 (map (fun v => [v]) l) = l.
Proof.
  unfold column. induction l as [|x l IH]; [done|].
  cbn. f_equal. exact IH.
Qed.

(** The time points of the first [n] steps after the cutoff. *)
Lemma to_absolute_fh_range (n : nat) (c : Z) :
  to_absolute (fh_range n) c
  = map (fun j => (c + Z.of_nat (S j))%Z) (seq 0 n).
Proof. unfold to_absolute, fh_range. simpl. by rewrite map_map. Qed.

Lemma elem_of_to_absolute_fh_range (n : nat) (c a : Z) :
  a ∈ to_absolute (fh_range n) c <-> (c < a <= c + Z.of_nat n)%Z.
Proof.
  rewrite to_absolute_fh_range, list_elem_of_fmap. split.
  - intros (j & -> & Hj). apply elem_of_seq in Hj. lia.
  - intros Ha. exists (Z.to_nat (a - c - 1)). split; [lia|].
    apply elem_of_seq. lia.
Qed.

Lemma StronglySorted_to_absolute_fh_range (n : nat) (c : Z) :
  StronglySorted Z.lt (to_absolute (fh_range n) c).
Proof.
  rewrite to_absolute_fh_range. generalize 0.
  induction n as [|n IH]; intros s; simpl; [constructor|].
  constructor; [apply IH|].
  apply Forall_forall. intros a Ha.
  apply list_elem_of_fmap in Ha as (j & -> & Hj).
  apply elem_of_seq in Hj. lia.
Qed.

Lemma filter_ext_elem_of {A : Type} (P1 P2 : A -> Prop)
    `{!forall x, Decision (P1 x), !forall x, Decision (P2 x)} (l : list A) :
  (forall x, x ∈ l -> P1 x <-> P2 x) -> filter P1 l = filter P2 l.
Proof.
  induction l as [|a l IH]; intros Hiff; [done|].
  rewrite !filter_cons.
  rewrite IH by (intros x Hx; apply Hiff; by right).
  apply decide_ext, Hiff. left.
Qed.

(** Restricting an increasing list of time points to the members of an
    increasing list drawn from it gives that list. *)
Lemma filter_elem_of_sorted (times pts : list Z) :
  StronglySorted Z.lt times -> StronglySorted Z.lt pts ->
  (forall a, a ∈ pts -> a ∈ times) ->
  filter (fun x => x ∈ pts) times = pts.
Proof.
  intros Ht. revert pts.
  induction Ht as [|x ts Hts IH Hx]; intros pts Hp Hsub.
  - destruct pts as [|a pts]; [done|].
    exfalso. eapply elem_of_nil, Hsub. left.
  - rewrite Forall_forall in Hx.
    destruct (decide (x ∈ pts)) as [Hin|Hnin].
    + rewrite filter_cons_True by done.
      destruct Hp as [|a pts' Hp' Ha]; [by apply elem_of_nil in Hin|].
      rewrite Forall_forall in Ha.
      assert (a = x) as ->.
      { apply elem_of_cons in Hin as [->|Hin]; [done|].
        specialize (Ha _ Hin).
        specialize (Hsub a (ltac:(left))).
        apply elem_of_cons in Hsub as [->|Hsub]; [done|].
        specialize (Hx _ Hsub). lia. }
      f_equal. trans (filter (fun y => y ∈ pts') ts); [|apply IH; [done|]].
      * apply filter_ext_elem_of. intros y Hy.
        specialize (Hx _ Hy). rewrite elem_of_cons.
        split; [intros [->|?]; [lia|done]|by right].
      * intros b Hb. specialize (Ha _ Hb).
        specialize (Hsub b (ltac:(by right))).
        apply elem_of_cons in Hsub as [->|?]; [lia|done].
    + rewrite filter_cons_False by done.
      apply IH; [done|]. intros b Hb.
      specialize (Hsub b Hb).
      apply elem_of_cons in Hsub as [->|?]; [done|done].
Qed.

Lemma to_relative_to_absolute (h : ForecastingHorizon) (c : Z) :
  to_relative h c = map (fun a => (a - c)%Z) (to_absolute h c).
Proof.
  unfold to_relative, to_absolute. destruct (is_relative h); [|done].
  rewrite map_map. rewrite <- (map_id (fh_values h)) at 1.
  apply map_ext. intros a. lia.
Qed.

Lemma StronglySorted_to_absolute (h : ForecastingHorizon) (c : Z) :
  StronglySorted Z.lt (fh_values h) ->
  StronglySorted Z.lt (to_absolute h c).
Proof.
  intros Hs. unfold to_absolute. destruct (is_relative h); [|done].
  induction Hs as [|x xs Hxs IH Hx]; simpl; constructor; [done|].
  rewrite Forall_forall in Hx. apply Forall_forall. intros a Ha.
  apply list_elem_of_fmap in Ha as (b & -> & Hb). specialize (Hx _ Hb). lia.
Qed.

Lemma column_nonempty {A : Type} (j : nat) (rows : list (list A)) :
  j < ncols rows -> column j rows ≠ [].
Proof.
  destruct rows as [|r rows]; simpl; [lia|].
  intros Hj. destruct (lookup_lt_is_Some_2 r j Hj) as [x Hx].
  unfold column. cbn. by rewrite Hx.
Qed.

Lemma filter_all {A : Type} (P : A -> Prop) `{!forall x, Decision (P x)}
    (l : list A) :
  Forall P l -> filter P l = l.
Proof.
  induction 1 as [|x l Hx _ IH]; [done|].
  by rewrite filter_cons_True, IH.
Qed.

Section MedianFacts.
Context {V : Type} `{!Numeric V} `{!NumericOrder V}.

Local Abbreviation R := (fun x y : V => Is_true (Vleb x y)).

#[local] Instance Vleb_Total : Total R.
Proof. intros a b. apply Vleb_total. Qed.

#[local] Instance Vleb_Transitive : Transitive R.
Proof. intros a b c. apply Vleb_trans. Qed.

Lemma Vleb_refl (a : V) : Vleb a a.
Proof. by destruct (Vleb_total a a). Qed.

Lemma sorted_lookup_le (s : list V) (i j : nat) (x y : V) :
  StronglySorted R s -> s !! i = Some x -> s !! j = Some y -> i <= j ->
  Vleb x y.
Proof.
  intros Hs Hi Hj Hij.
  destruct (decide (i = j)) as [->|Hne].
  { rewrite Hi in Hj. injection Hj as ->. apply Vleb_refl. }
  rewrite <- (take_drop (S i) s) in Hs.
  apply (StronglySorted_app_1_elem_of R _ _ x y Hs).
  - apply list_elem_of_lookup. exists i.
    rewrite lookup_take_lt by lia. done.
  - apply list_elem_of_lookup. exists (j - S i).
    rewrite lookup_drop. by replace (S i + (j - S i)) with j by lia.
Qed.

Lemma count_le_prefix (s : list V) (i : nat) (x m : V) :
  StronglySorted R s -> s !! i = Some x -> Vleb x m ->
  S i <= length (filter (fun y => Vleb y m) s).
Proof.
  intros Hs Hi Hxm.
  rewrite <- (take_drop (S i) s), filter_app, length_app.
  assert (Hall : filter (fun y => Vleb y m) (take (S i) s) = take (S i) s).
  { apply filter_all, Forall_forall. intros y Hy.
    apply list_elem_of_lookup in Hy as [j Hj].
    apply lookup_take_Some in Hj as [Hj Hlt].
    apply (Vleb_trans y x m); [|done].
    apply (sorted_lookup_le s j i); [done..|lia]. }
  rewrite Hall, length_take.
  apply lookup_lt_Some in Hi. lia.
Qed.

Lemma count_ge_suffix (s : list V) (i : nat) (x m : V) :
  StronglySorted R s -> s !! i = Some x -> Vleb m x ->
  length s - i <= length (filter (fun y => Vleb m y) s).
Proof.
  intros Hs Hi Hmx.
  rewrite <- (take_drop i s) at 2. rewrite filter_app, length_app.
  assert (Hall : filter (fun y => Vleb m y) (drop i s) = drop i s).
  { apply filter_all, Forall_forall. intros y Hy.
    apply list_elem_of_lookup in Hy as [j Hj].
    rewrite lookup_drop in Hj.
    apply (Vleb_trans m x y); [done|].
    apply (sorted_lookup_le s i (i + j)); [done..|lia]. }
  rewrite Hall, length_drop. lia.
Qed.

(** The value [np.median] computes for numbers is a median: at least
    half of them are at most it, at least half are at least it. *)
Lemma np_median_1d_is_median (a : list V) :
  a ≠ [] -> existsb Vis_nan a = false ->
  is_median (np_median_1d a) a.
Proof.
  intros Hne Hnan. unfold np_median_1d. rewrite Hnan.
  set (s := merge_sort R a).
  assert (Hs : StronglySorted R s) by apply (StronglySorted_merge_sort R).
  assert (Hp : s ≡ₚ a) by apply merge_sort_Permutation.
  assert (Hlen : length s = length a) by apply Permutation_length, Hp.
  assert (Hcount : forall m,
    length a <= 2 * length (filter (fun x => Vleb x m) s) ->
    length a <= 2 * length (filter (fun x => Vleb m x) s) ->
    is_median m a).
  { intros m H1 H2. unfold is_median.
    rewrite <- (Permutation_length
                  (filter_Permutation (fun x => Vleb x m) _ _ Hp)).
    rewrite <- (Permutation_length
                  (filter_Permutation (fun x => Vleb m x) _ _ Hp)).
    done. }
  destruct (length a) as [|n'] eqn:Hn.
  { by destruct a. }
  set (n := S n') in *.
  destruct (Nat.even n) eqn:Heven.
  - apply Nat.even_spec in Heven as [q Hq].
    assert (Hq1 : n `div` 2 = q).
    { rewrite Hq. by rewrite Nat.mul_comm, Nat.div_mul. }
    rewrite Hq1.
    destruct (lookup_lt_is_Some_2 s (q - 1)) as [lo Hlo]; [lia|].
    destruct (lookup_lt_is_Some_2 s q) as [hi Hhi]; [lia|].
    rewrite Hlo, Hhi.
    assert (Hlh : Vleb lo hi).
    { apply (sorted_lookup_le s (q - 1) q); [done..|lia]. }
    destruct (Vmean2_between lo hi Hlh) as [Hl Hh].
    apply Hcount.
    + pose proof (count_le_prefix s (q - 1) lo _ Hs Hlo Hl). lia.
    + pose proof (count_ge_suffix s q hi _ Hs Hhi Hh). lia.
  - assert (Hodd : Nat.odd n = true).
    { by rewrite <- Nat.negb_even, Heven. }
    apply Nat.odd_spec in Hodd as [q Hq].
    assert (Hq1 : n `div` 2 = q).
    { rewrite Hq. rewrite Nat.add_comm, Nat.mul_comm.
      rewrite Nat.div_add by lia. done. }
    rewrite Hq1.
    destruct (lookup_lt_is_Some_2 s q) as [m Hm]; [lia|].
    rewrite Hm. cbn [default from_option]. unfold id.
    apply Hcount.
    + pose proof (count_le_prefix s q m m Hs Hm (Vleb_refl m)). lia.
    + pose proof (count_ge_suffix s q m m Hs Hm (Vleb_refl m)). lia.
Qed.

End MedianFacts.

Lemma length_mask_filter {A B : Type} (mask : list bool) (l1 : list A)
    (l2 : list B) :
  length l1 = length l2 ->
  length (mask_filter mask l1) = length (mask_filter mask l2).
Proof.
  revert l1 l2. induction mask as [|b mask IH]; intros [|x l1] [|y l2];
    simpl; try done.
  intros [= Hl]. destruct b; simpl; by rewrite (IH l1 l2).
Qed.

Lemma elem_of_mask_filter {A : Type} (mask : list bool) (l : list A) x :
  x ∈ mask_filter mask l -> x ∈ l.
Proof.
  revert l. induction mask as [|b mask IH]; intros [|y l]; simpl;
    try (intros Hx; by apply elem_of_nil in Hx).
  destruct b.
  - rewrite !elem_of_cons. intros [->|Hx]; [by left|right; by apply IH].
  - intros Hx. right. by apply IH.
Qed.

Lemma mask_filter_fmap_mask {A B : Type} (f : B -> bool) (g : A -> B)
    (l : list A) :
  mask_filter (map f (map g l)) l = filter (fun x => f (g x)) l.
Proof. rewrite map_map. apply (mask_filter_map (fun x => f (g x))). Qed.

Lemma StronglySorted_filter {A : Type} (R : relation A) (P : A -> Prop)
    `{!forall x, Decision (P x)} (l : list A) :
  StronglySorted R l -> StronglySorted R (filter P l).
Proof.
  induction 1 as [|x l Hl IH Hx]; [constructor|].
  rewrite filter_cons. destruct (decide (P x)); [|done].
  constructor; [done|].
  rewrite Forall_forall in Hx. apply Forall_forall. intros y Hy.
  apply list_elem_of_filter in Hy as [_ Hy]. by apply Hx.
Qed.

Lemma length_np_repeat {A : Type} (n : nat) (a : list A) :
  length (np_repeat n a) = length a * n.
Proof.
  unfold np_repeat. induction a as [|x a IH]; [done|].
  simpl. rewrite length_app, length_replicate, IH. lia.
Qed.

Lemma length_py_list_mul {A : Type} (l : list A) (n : nat) :
  length (py_list_mul l n) = n * length l.
Proof.
  unfold py_list_mul. induction n as [|n IH]; [done|].
  simpl. rewrite length_app, IH. lia.
Qed.

Lemma zip_replicate_l {A B : Type} (x : A) (l : list B) :
  zip (replicate (length l) x) l = map (pair x) l.
Proof. induction l as [|y l IH]; [done|]. simpl. by rewrite IH. Qed.

(** Keys repeated over the steps, zipped with the steps tiled over the
    keys, give the cross product. *)
Lemma zip_repeat_tile (ks ts : list Z) :
  zip (np_repeat (length ts) ks) (py_list_mul ts (length ks))
  = cross_index ks ts.
Proof.
  unfold np_repeat, py_list_mul, cross_index.
  induction ks as [|k ks IH]; [done|].
  simpl. rewrite zip_with_app by by rewrite length_replicate.
  by rewrite IH, zip_replicate_l.
Qed.

Lemma filter_cross_index (P : Z -> Prop) `{!forall x, Decision (P x)}
    (ks ts : list Z) :
  filter (fun r : Z * Z => P r.2) (cross_index ks ts)
  = cross_index ks (filter P ts).
Proof.
  unfold cross_index. induction ks as [|k ks IH]; [done|].
  simpl. rewrite filter_app, IH. f_equal.
  clear IH. induction ts as [|a ts IH]; [done|].
  simpl. rewrite !filter_cons. simpl.
  destruct (decide (P a)); simpl; by rewrite IH.
Qed.

Lemma length_cross_index (ks ts : list Z) :
  length (cross_index ks ts) = length ks * length ts.
Proof.
  unfold cross_index. induction ks as [|k ks IH]; [done|].
  simpl. rewrite length_app, length_map, IH. lia.
Qed.

Lemma cross_index_nil_r (ks : list Z) : cross_index ks [] = [].
Proof. unfold cross_index. induction ks as [|k ks IH]; [done|]. done. Qed.

Lemma py_list_mul_nil {A : Type} (n : nat) : py_list_mul (@nil A) n = [].
Proof. unfold py_list_mul. induction n as [|n IH]; [done|]. done. Qed.

Lemma np_repeat_0 {A : Type} (a : list A) : np_repeat 0 a = [].
Proof. unfold np_repeat. induction a as [|x a IH]; [done|]. done. Qed.

(** The two arrays that the panel branch hands to
    [MultiIndex.from_arrays] have one length only when they pair up to
    the cross product of the keys and the steps. *)
Lemma zip_repeat_tile_any (ks ts : list Z) (n : nat) :
  length (np_repeat (length ts) ks) = length (py_list_mul ts n) ->
  zip (np_repeat (length ts) ks) (py_list_mul ts n) = cross_index ks ts.
Proof.
  rewrite length_np_repeat, length_py_list_mul. intros Hlen.
  destruct ts as [|a ts].
  - by rewrite py_list_mul_nil, cross_index_nil_r, np_repeat_0.
  - assert (n = length ks) as -> by (simpl in Hlen; nia).
    apply zip_repeat_tile.
Qed.

Lemma length_chunks {A : Type} (k n : nat) (l : list A) :
  length (chunks k n l) = k.
Proof.
  revert l. induction k as [|k IH]; intros l; [done|].
  simpl. by rewrite IH.
Qed.

Lemma lookup_chunks {A : Type} (k n : nat) (l : list A) (i : nat) :
  i < k -> chunks k n l !! i = Some (take n (drop (i * n) l)).
Proof.
  revert l i. induction k as [|k IH]; intros l i Hi; [lia|].
  destruct i as [|i]; simpl; [done|].
  rewrite IH by lia. by rewrite drop_drop.
Qed.

Lemma elem_of_cross_index (ks ts : list Z) (k a : Z) :
  (k, a) ∈ cross_index ks ts <-> k ∈ ks /\ a ∈ ts.
Proof.
  unfold cross_index. induction ks as [|k' ks IH]; simpl.
  { rewrite !elem_of_nil. tauto. }
  rewrite elem_of_app, IH, list_elem_of_fmap, elem_of_cons. split.
  - intros [(a' & [= -> ->] & Ha)|[Hk Ha]]; [by split; [left|]|].
    by split; [right|].
  - intros [[->|Hk] Ha]; [left; by exists a|by right].
Qed.

Lemma filter_none {A : Type} (P : A -> Prop) `{!forall x, Decision (P x)}
    (l : list A) :
  (forall x, x ∈ l -> ¬ P x) -> filter P l = [].
Proof.
  induction l as [|x l IH]; intros Hl; [done|].
  rewrite filter_cons_False by (apply Hl; left).
  apply IH. intros y Hy. apply Hl. by right.
Qed.

Lemma elem_of_keys_cross_index (ks ts : list Z) (k : Z) :
  ts ≠ [] -> k ∈ map fst (cross_index ks ts) <-> k ∈ ks.
Proof.
  intros Hts. rewrite list_elem_of_fmap. split.
  - intros ([k' a] & -> & Hr). by apply elem_of_cross_index in Hr as [? _].
  - intros Hk. destruct ts as [|a ts]; [done|].
    exists (k, a). split; [done|]. apply elem_of_cross_index.
    split; [done|left].
Qed.

(** In a cross-product panel of distinct instances, the time points of
    every instance are the common ones. *)
Lemma times_of_cross_index (ks ts : list Z) (k : Z) :
  NoDup ks -> k ∈ ks -> times_of k (cross_index ks ts) = ts.
Proof.
  unfold times_of, cross_index.
  induction 1 as [|k' ks Hk' Hnd IH]; intros Hk.
  { by apply elem_of_nil in Hk. }
  simpl. rewrite filter_app, map_app.
  destruct (decide (k = k')) as [->|Hne].
  - rewrite filter_all.
    2:{ apply Forall_forall. intros r Hr.
        by apply list_elem_of_fmap in Hr as (a & -> & _). }
    rewrite map_map. simpl. rewrite map_id.
    assert (Hrest :
      filter (fun r : Z * Z => r.1 = k')
             (flat_map (fun k => map (pair k) ts) ks) = []).
    { apply filter_none. intros [k a] Hr Heq. simpl in Heq. subst k.
      apply (elem_of_cross_index ks ts k' a) in Hr as [Hin _]. done. }
    rewrite Hrest. by rewrite app_nil_r.
  - assert (Hfirst :
      filter (fun r : Z * Z => r.1 = k) (map (pair k') ts) = []).
    { apply filter_none. intros r Hr Heq.
      apply list_elem_of_fmap in Hr as (a & -> & _). simpl in Heq.
      congruence. }
    rewrite Hfirst. simpl. apply IH.
    apply elem_of_cons in Hk as [?|?]; done.
Qed.

Lemma length_np_unique_NoDup (ks keys : list Z) :
  NoDup ks -> (forall k, k ∈ keys <-> k ∈ ks) ->
  length (np_unique keys) = length ks.
Proof.
  intros Hnd Hkeys. unfold np_unique.
  rewrite merge_sort_Permutation.
  apply Permutation_length, NoDup_Permutation;
    [apply NoDup_remove_dups|done|].
  intros k. by rewrite elem_of_remove_dups.
Qed.

(** The labels of the [i]-th instance of a cross-product panel. *)
Lemma take_drop_cross_index (ks ts : list Z) (i : nat) (k : Z) :
  ks !! i = Some k ->
  take (length ts) (drop (i * length ts) (cross_index ks ts))
  = map (pair k) ts.
Proof.
  unfold cross_index. revert i.
  induction ks as [|k' ks IH]; intros i Hi; [done|].
  cbn [flat_map]. destruct i as [|i].
  - injection Hi as ->. rewrite Nat.mul_0_l, drop_0.
    by rewrite take_app_length' by by rewrite length_map.
  - replace (S i * length ts) with (length ts + i * length ts) by lia.
    rewrite drop_app_add' by by rewrite length_map.
    by apply IH.
Qed.

Lemma column_fmap {A B : Type} (f : A -> B) (j : nat) (rows : list (list A)) :
  column j (map (map f) rows) = map f (column j rows).
Proof.
  unfold column. induction rows as [|r rows IH]; [done|].
  cbn. rewrite list_lookup_fmap. destruct (r !! j); cbn; by rewrite IH.
Qed.

Lemma mask_filter_all {A : Type} (mask : list bool) (l : list A) :
  Forall (fun b => b = true) mask -> length mask = length l ->
  mask_filter mask l = l.
Proof.
  revert l. induction mask as [|b mask IH]; intros [|x l] Hall Hlen;
    try done.
  apply Forall_cons in Hall as [-> Hall]. cbn.
  f_equal. apply IH; [done|]. by injection Hlen.
Qed.

Lemma lookup_concat_uniform {A : Type} (ls : list (list A)) (K s g : nat) :
  Forall (fun r => length r = K) ls -> g < K ->
  concat ls !! (s * K + g) = ls !! s ≫= (fun r => r !! g).
Proof.
  intros Hall Hg. revert s.
  induction Hall as [|r ls Hr Hall IH]; intros s; [done|].
  cbn [concat]. destruct s as [|s].
  - cbn. by rewrite lookup_app_l by lia.
  - rewrite lookup_app_r by (rewrite Hr; nia).
    replace (S s * K + g - length r) with (s * K + g) by (rewrite Hr; nia).
    apply IH.
Qed.

Lemma lookup_column {A : Type} (rows : list (list A)) (T s g : nat) :
  Forall (fun a => length a = T) rows -> s < T ->
  column s rows !! g = rows !! g ≫= (fun a => a !! s).
Proof.
  intros Hall Hs. revert g. unfold column.
  induction Hall as [|a rows Ha Hall IH]; intros g; [done|].
  cbn [omap list_omap].
  destruct (lookup_lt_is_Some_2 a s ltac:(lia)) as [v Hv].
  rewrite Hv. destruct g as [|g]; cbn; [by rewrite Hv|apply IH].
Qed.

Lemma length_column {A : Type} (rows : list (list A)) (T s : nat) :
  Forall (fun a => length a = T) rows -> s < T ->
  length (column s rows) = length rows.
Proof.
  intros Hall Hs. unfold column.
  induction Hall as [|a rows Ha Hall IH]; [done|].
  cbn [omap list_omap].
  destruct (lookup_lt_is_Some_2 a s ltac:(lia)) as [v Hv].
  rewrite Hv. cbn. by rewrite IH.
Qed.

Lemma lookup_cross_index (ks ts : list Z) (i j : nat) (k t : Z) :
  ks !! i = Some k -> ts !! j = Some t ->
  cross_index ks ts !! (i * length ts + j) = Some (k, t).
Proof.
  intros Hk Ht.
  assert (Hj : j < length ts) by by eapply lookup_lt_Some.
  pose proof (take_drop_cross_index ks ts i k Hk) as Htd.
  apply (f_equal (fun l => l !! j)) in Htd.
  rewrite lookup_take_lt, lookup_drop in Htd by done.
  rewrite Htd, list_lookup_fmap, Ht. done.
Qed.

Lemma np_stack_axis1_inr {A : Type} (arrays pred : list (list A)) :
  np_stack_axis1 arrays = inr pred ->
  arrays ≠ [] /\
  Forall (fun a => length a = ncols arrays) arrays /\
  pred = map (fun j => column j arrays) (seq 0 (ncols arrays)).
Proof.
  unfold np_stack_axis1. destruct arrays as [|a0 rest]; [done|].
  destruct (forallb _ _) eqn:Hall; [|done].
  intros [= <-]. split; [done|]. split; [|done].
  cbn [ncols]. constructor; [done|].
  apply Is_true_true_2, forallb_True in Hall.
  eapply Forall_impl; [exact Hall|].
  intros a Ha. by apply bool_decide_unpack in Ha.
Qed.

Lemma length_concat_uniform {A : Type} (ls : list (list A)) (K : nat) :
  Forall (fun r => length r = K) ls ->
  length (concat ls) = length ls * K.
Proof.
  induction 1 as [|r ls Hr Hall IH]; [done|].
  cbn. rewrite length_app, IH, Hr. lia.
Qed.

(** ** Properties of the adapter *)

Section Properties.
Context {V G E pipeline : Type}.
Context `{!Numeric V} `{!External V G E pipeline}.
Implicit Types (w : world V G E pipeline).
Local Abbreviation M := (M V G E pipeline).

Lemma run_bind {A B : Type} (m : M A) (k : A -> M B) w :
  (m ≫= k) w
  = match m w with
    | (inl e, w') => (inl e, w')
    | (inr a, w') => k a w'
    end.
Proof. reflexivity. Qed.

#[export] Instance frame_rel_preorder φ :
  PreOrder (frame_rel (V:=V) (G:=G) (E:=E) (pipeline:=pipeline) φ).
Proof.
  split.
  - intros w. repeat split; try done. exists []. by rewrite app_nil_r.
  - intros w1 w2 w3 (Hs1 & He1 & Hh1 & evs1 & Ht1 & Hf1)
                    (Hs2 & He2 & Hh2 & evs2 & Ht2 & Hf2).
    split; [congruence|]. split; [congruence|].
    split; [by etransitivity|].
    exists (evs1 ++ evs2). split.
    + by rewrite Ht2, Ht1, app_assoc.
    + by apply Forall_app.
Qed.

Section Preserves.
Context (R : relation (world V G E pipeline)) `{!PreOrder R}.

Lemma preserves_bind {A B : Type} (m : M A) (k : A -> M B) :
  preserves R m -> (forall a, preserves R (k a)) -> preserves R (m ≫= k).
Proof.
  intros Hm Hk w. rewrite run_bind. specialize (Hm w).
  destruct (m w) as [[e|a] w']; simpl in *; [done|].
  etransitivity; [exact Hm|apply Hk].
Qed.

Lemma preserves_ret {A : Type} (a : A) : preserves R (mret a : M A).
Proof. intros w. simpl. reflexivity. Qed.

Lemma preserves_raise {A : Type} (e : exn) :
  preserves R (raise e : M A).
Proof. intros w. simpl. reflexivity. Qed.

Lemma preserves_lift {A : Type} (r : exn + A) :
  preserves R (lift r : M A).
Proof. intros w. simpl. reflexivity. Qed.

Lemma preserves_getattr {A : Type} (f : ChronosForecaster pipeline -> A) :
  preserves R (getattr f).
Proof. intros w. simpl. reflexivity. Qed.

Lemma preserves_not_none {A : Type} (e : exn) (o : option A) :
  preserves R (not_none e o : M A).
Proof. destruct o; [apply preserves_ret|apply preserves_raise]. Qed.

Lemma preserves_getitem d key : preserves R (getitem d key : M pyval).
Proof. apply preserves_not_none. Qed.

Lemma preserves_frame_at l : preserves R (frame_at l : M _).
Proof.
  intros w. unfold frame_at. destruct (heap w !! l); simpl; reflexivity.
Qed.

Lemma preserves_for_each {A B : Type} (body : A -> M B) (xs : list A) :
  (forall x, preserves R (body x)) -> preserves R (for_each body xs).
Proof.
  intros Hbody. induction xs as [|x xs IH]; simpl.
  - apply preserves_ret.
  - apply preserves_bind; [apply Hbody|]. intros r.
    apply preserves_bind; [apply IH|]. intros rs. apply preserves_ret.
Qed.

End Preserves.

(** *** Stepping through a method *)

Lemma run_getattr {A : Type} (f : ChronosForecaster pipeline -> A) w :
  getattr f w = (inr (f (self w)), w).
Proof. done. Qed.

Lemma run_ret {A : Type} (a : A) w : (mret a : M A) w = (inr a, w).
Proof. done. Qed.

Lemma run_lift {A : Type} (r : exn + A) w : (lift r : M A) w = (r, w).
Proof. done. Qed.

Lemma run_not_none {A : Type} e (o : option A) w :
  (not_none e o : M A) w = (require e o, w).
Proof. by destruct o. Qed.

Lemma run_set_seed s w :
  (0 <= s < 2 ^ 32)%Z ->
  set_seed s w = (inr tt, set_rng (seed_state s) w).
Proof. intros Hs. unfold set_seed. by rewrite decide_True. Qed.

Lemma run_set_seed_refused s w :
  ¬ (0 <= s < 2 ^ 32)%Z -> set_seed s w = (inl ValueError, w).
Proof. intros Hs. unfold set_seed. by rewrite decide_False. Qed.

Lemma run_copy l df w :
  heap w !! l = Some df ->
  copy l w = (inr (fresh (dom (heap w))),
              set_heap (<[fresh (dom (heap w)) := df]> (heap w)) w).
Proof. intros Hl. unfold copy. by rewrite Hl. Qed.

Lemma run_frame_at l df w :
  heap w !! l = Some df -> frame_at l w = (inr df, w).
Proof. intros Hl. unfold frame_at. by rewrite Hl. Qed.

(** One step of a method: the first action of a bind is run by one of
    the equations above. *)
Ltac mstep :=
  rewrite run_bind;
  first [ rewrite run_getattr | rewrite run_not_none | rewrite run_ret
        | rewrite run_lift | rewrite run_set_seed by assumption ];
  cbv beta iota.

(** With a seed that numpy refuses, a call of predict raises at its
    first statement and leaves the world as it was. *)
Lemma _predict_refused_seed w fh y X :
  ¬ (0 <= _seed (self w) < 2 ^ 32)%Z ->
  _predict fh y X w = (inl ValueError, w).
Proof.
  intros Hs. unfold _predict. mstep.
  by rewrite run_bind, run_set_seed_refused.
Qed.

(** A call of predict that returns a table had a seed that numpy
    accepts. *)
Lemma returned_with_seed w fh y X tbl :
  (_predict fh y X w).1 = inr tbl -> (0 <= _seed (self w) < 2 ^ 32)%Z.
Proof.
  intros Hr.
  destruct (decide (0 <= _seed (self w) < 2 ^ 32)%Z) as [|Hs]; [done|].
  by rewrite _predict_refused_seed in Hr.
Qed.

Lemma advance_nil w : advance (rng w) [] w = w.
Proof. destruct w. unfold advance. simpl. by rewrite app_nil_r. Qed.

Lemma advance_advance g1 evs1 g2 evs2 w :
  advance g2 evs2 (advance g1 evs1 w) = advance g2 (evs1 ++ evs2) w.
Proof. unfold advance. simpl. by rewrite app_assoc. Qed.

Lemma forecast_group_run n x w p ns t k tp :
  readiness (self w) = inr (p, (ns, t, k, tp)) ->
  forecast_group n x w
  = (forecast_of (pipeline_predict p (history_of p x) n ns t k tp false
                    (rng w)).1,
     advance (pipeline_predict p (history_of p x) n ns t k tp false
                (rng w)).2
             [predict_call p (history_of p x) n ns t k tp false] w).
Proof.
  unfold readiness, sampling.
  destruct (model_pipeline (self w)) as [p'|] eqn:Hp; [|done].
  destruct (_config (self w) !! "num_samples") as [ns'|] eqn:H1; [|done].
  destruct (_config (self w) !! "temperature") as [t'|] eqn:H2; [|done].
  destruct (_config (self w) !! "top_k") as [k'|] eqn:H3; [|done].
  destruct (_config (self w) !! "top_p") as [tp'|] eqn:H4; [|done].
  intros [= -> -> -> -> ->].
  unfold forecast_group, getitem.
  rewrite run_bind, run_bind, run_getattr, Hp. cbv beta iota.
  rewrite run_not_none. cbn [require].
  mstep. rewrite H1. mstep. cbn [require].
  mstep. rewrite H2. mstep. cbn [require].
  mstep. rewrite H3. mstep. cbn [require].
  mstep. rewrite H4. mstep. cbn [require].
  rewrite run_bind. unfold ChronosPipeline_predict.
  fold (history_of p x).
  destruct (pipeline_predict p (history_of p x) n ns t k tp false _)
    as [[e|batches] g] eqn:Hr; cbn; [done|].
  rewrite run_bind.
  destruct batches as [|b bs]; cbn; done.
Qed.

Lemma forecast_group_unready n x w e :
  readiness (self w) = inl e -> forecast_group n x w = (inl e, w).
Proof.
  unfold readiness, sampling, forecast_group, getitem.
  rewrite run_bind, run_bind, run_getattr. cbv beta iota.
  rewrite run_not_none.
  destruct (model_pipeline (self w)) as [p|]; cbn [require];
    [|by intros [= ->]].
  mstep.
  destruct (_config (self w) !! "num_samples"); mstep; cbn [require];
    [|by intros [= ->]].
  mstep.
  destruct (_config (self w) !! "temperature"); mstep; cbn [require];
    [|by intros [= ->]].
  mstep.
  destruct (_config (self w) !! "top_k"); mstep; cbn [require];
    [|by intros [= ->]].
  mstep.
  destruct (_config (self w) !! "top_p"); mstep; cbn [require];
    [|by intros [= ->]].
  done.
Qed.

(** The loop of [_predict] runs as [loop_model] says. *)
Lemma for_each_forecast_group n gs w :
  for_each (forecast_group n) gs w
  = ((loop_model (self w) n gs (rng w)).1.1,
     advance (loop_model (self w) n gs (rng w)).1.2
             (loop_model (self w) n gs (rng w)).2 w).
Proof.
  unfold loop_model.
  destruct (readiness (self w)) as [e|[p [[[ns t] k] tp]]] eqn:Hr.
  - destruct gs as [|x gs]; cbn [fst snd].
    + by rewrite advance_nil.
    + cbn [for_each]. rewrite run_bind, (forecast_group_unready _ _ _ e Hr).
      by rewrite advance_nil.
  - revert w Hr. induction gs as [|x gs IH]; intros w Hr.
    + simpl. by rewrite advance_nil.
    + cbn [for_each sample_groups]. rewrite run_bind.
      rewrite (forecast_group_run n x w p ns t k tp Hr).
      destruct (forecast_of _) as [e|v] eqn:Hf; [done|].
      rewrite run_bind, IH by done. cbn [advance self rng].
      destruct (sample_groups p ns t k tp n gs _) as [[rs g'] evs].
      cbn [fst snd].
      destruct rs as [e|vs]; cbn; by rewrite advance_advance.
Qed.

Lemma run_forecast_index df a b w :
  (forecast_index df a b : M pd_index) w
  = (index_of (_fh (self w)) (_cutoff (self w)) df a b, w).
Proof.
  unfold forecast_index, index_of, fh_property.
  destruct (df_index df) as [ts|rows].
  - rewrite run_bind, run_bind, run_getattr. cbv beta iota.
    rewrite run_not_none.
    destruct (_cutoff (self w)); cbn [require and_then]; done.
  - rewrite run_bind, run_bind, run_getattr. cbv beta iota.
    rewrite run_not_none.
    destruct (_fh (self w)); cbn [require and_then]; [|done].
    rewrite run_bind, run_bind, run_getattr. cbv beta iota.
    rewrite run_not_none.
    destruct (_cutoff (self w)); cbn [require and_then]; done.
Qed.

Lemma input_frame_Some w y df :
  input_frame w y = Some df ->
  exists stored df0,
    _y (self w) = Some stored /\ heap w !! stored = Some df0 /\
    match y with
    | Some l => heap w !! l = Some df
    | None => df = df0
    end.
Proof.
  unfold input_frame.
  destruct (_y (self w)) as [stored|]; simpl; [|done].
  destruct (heap w !! stored) as [df0|] eqn:H0; simpl; [|done].
  intros Hy. exists stored, df0. repeat split; try done.
  destruct y; [done|congruence].
Qed.

(** A call of predict on a live input, step by step: the generator is
    reseeded, the prediction length is computed, the input is copied
    (the store of frames grows to some [h']), reshaped, the loop runs,
    and the table is built. *)
Lemma _predict_run w fh y X df :
  (0 <= _seed (self w) < 2 ^ 32)%Z ->
  input_frame w y = Some df ->
  exists h', heap w ⊆ h' /\
    _predict fh y X w
    = let w0 := set_rng (seed_state (_seed (self w))) w in
      match prediction_length_of (self w) fh with
      | inl e => (inl e, w0)
      | inr n =>
          let w1 := set_heap h' w0 in
          match reshaped df with
          | inl e => (inl e, w1)
          | inr gs =>
              let m := loop_model (self w) n gs (rng w0) in
              (and_then m.1.1 (table_of (_fh (self w)) (_cutoff (self w)) fh df),
               advance m.1.2 m.2 w1)
          end
      end.
Proof.
  intros Hseed Hin.
  destruct (input_frame_Some w y df Hin) as (stored & df0 & Hs & H0 & Hy).
  set (l1 := fresh (dom (heap w))).
  assert (Hl1 : heap w !! l1 = None).
  { apply (not_elem_of_dom (D:=gset positive)), is_fresh. }
  set (h1 := <[l1 := df0]> (heap w)).
  set (l2 := fresh (dom h1)).
  assert (Hl2 : h1 !! l2 = None).
  { apply (not_elem_of_dom (D:=gset positive)), is_fresh. }
  exists (match y with Some _ => <[l2 := df]> h1 | None => h1 end).
  split.
  { destruct y.
    - etransitivity; [apply (insert_subseteq _ l1 df0 Hl1)|].
      by apply insert_subseteq.
    - by apply insert_subseteq. }
  unfold _predict. mstep. mstep.
  set (w0 := set_rng (seed_state (_seed (self w))) w).
  rewrite run_bind.
  assert (Hpl :
    (match fh with
     | Some fh0 =>
         (getattr _cutoff ≫= not_none TypeError)
         ≫= (fun cutoff => lift (py_max (to_relative fh0 cutoff)))
     | None => mret 1%Z
     end : M Z) w0 = (prediction_length_of (self w) fh, w0)).
  { destruct fh as [h|]; [|done].
    rewrite run_bind, run_bind, run_getattr. cbv beta iota.
    rewrite run_not_none. unfold prediction_length_of.
    change (self w0) with (self w).
    destruct (_cutoff (self w)); cbn [require and_then]; done. }
  rewrite Hpl. clear Hpl.
  destruct (prediction_length_of (self w) fh) as [e|n]; [done|].
  rewrite run_bind, run_bind, run_getattr. cbv beta iota.
  rewrite run_not_none. change (self w0) with (self w). rewrite Hs.
  cbn [require].
  rewrite run_bind, (run_copy stored df0) by done.
  change (heap w0) with (heap w). fold l1. fold h1.
  set (w1 := set_heap h1 w0).
  rewrite run_bind.
  assert (Hcopy :
    exists l,
      (match y with Some y0 => copy y0 | None => mret l1 end : M loc) w1
      = (inr l, set_heap (match y with
                          | Some _ => <[l2 := df]> h1
                          | None => h1
                          end) w0)
      /\ (match y with Some _ => <[l2 := df]> h1 | None => h1 end) !! l
         = Some df).
  { destruct y as [ly|].
    - exists l2. split; [|by rewrite lookup_insert_eq].
      rewrite (run_copy ly df); [done|].
      change (heap w1) with h1. unfold h1.
      rewrite lookup_insert_ne; [done|]. intros <-. congruence.
    - exists l1. subst df. split; [done|]. unfold h1.
      by rewrite lookup_insert_eq. }
  destruct Hcopy as (l & -> & Hl).
  set (h' := match y with Some _ => <[l2 := df]> h1 | None => h1 end) in *.
  rewrite run_bind, (run_frame_at l df) by done.
  mstep. fold (reshaped df).
  destruct (reshaped df) as [e|gs]; [done|].
  rewrite run_bind, for_each_forecast_group.
  change (self (set_heap h' w0)) with (self w).
  change (rng (set_heap h' w0)) with (rng w0).
  destruct (loop_model (self w) n gs (rng w0)) as [[[e|results] g] evs];
    cbn [fst snd and_then]; [done|].
  unfold table_of.
  mstep.
  destruct (np_stack_axis1 results) as [e|pred]; cbn [and_then]; [done|].
  rewrite run_bind, run_forecast_index.
  change (self (advance g evs (set_heap h' w0))) with (self w).
  destruct (index_of _ _ _ _ _) as [e|index]; cbn [and_then]; [done|].
  rewrite run_bind.
  destruct fh as [h|]; [|done].
  rewrite run_bind, run_bind, run_getattr. cbv beta iota.
  rewrite run_not_none.
  change (self (advance g evs (set_heap h' w0))) with (self w).
  destruct (_cutoff (self w)) as [c|]; cbn [require and_then]; [|done].
  rewrite run_ret. mstep.
  destruct (pd_DataFrame _ _ _ _ _) as [e|tbl]; cbn [and_then]; done.
Qed.

(** *** What predict leaves alone *)

Section Frame.
Context (φ : event V pipeline -> Prop).

Lemma frame_rel_refl_rng g w : frame_rel φ w (set_rng g w).
Proof. repeat split; try done. exists []. by rewrite app_nil_r. Qed.

Lemma frame_copy l : preserves (frame_rel φ) (copy l : M loc).
Proof.
  intros w. unfold copy.
  destruct (heap w !! l) as [df|] eqn:Hl; simpl; [|reflexivity].
  repeat split; try done.
  - apply insert_subseteq, (not_elem_of_dom (D:=gset positive)), is_fresh.
  - exists []. by rewrite app_nil_r.
Qed.

Lemma frame_set_seed s : preserves (frame_rel φ) (set_seed s : M unit).
Proof.
  intros w. unfold set_seed.
  destruct (decide _); [apply frame_rel_refl_rng|reflexivity].
Qed.

Lemma frame_ChronosPipeline_predict p hist n ns t k tp lim :
  φ (predict_call p hist n ns t k tp lim) ->
  preserves (frame_rel φ)
    (ChronosPipeline_predict p hist n ns t k tp lim).
Proof.
  intros Hφ w. unfold ChronosPipeline_predict.
  destruct (pipeline_predict _ _ _ _ _ _ _ _ _) as [r g]; simpl.
  repeat split; try done.
  eexists [_]. split; [done|]. by repeat constructor.
Qed.

Lemma frame_forecast_group n g :
  (forall p hist ns t k tp, φ (predict_call p hist n ns t k tp false)) ->
  preserves (frame_rel φ) (forecast_group n g).
Proof.
  intros Hφ. unfold forecast_group.
  repeat first
    [ apply (preserves_bind (frame_rel φ)); [|intros ?]
    | apply (preserves_ret (frame_rel φ))
    | apply (preserves_getattr (frame_rel φ))
    | apply (preserves_not_none (frame_rel φ))
    | apply (preserves_getitem (frame_rel φ))
    | apply frame_ChronosPipeline_predict, Hφ ].
Qed.

Lemma frame_forecast_index df a b :
  preserves (frame_rel φ) (forecast_index df a b : M pd_index).
Proof.
  unfold forecast_index.
  destruct (df_index df);
    repeat first
      [ apply (preserves_bind (frame_rel φ)); [|intros ?]
      | apply (preserves_ret (frame_rel φ))
      | apply (preserves_lift (frame_rel φ))
      | apply (preserves_getattr (frame_rel φ))
      | apply (preserves_not_none (frame_rel φ)) ].
Qed.

End Frame.

(** The prediction length, as the first steps of [_predict] compute
    it. *)
Lemma run_prediction_length fh w :
  (match fh with
   | Some fh0 =>
       (getattr _cutoff ≫= not_none TypeError)
       ≫= (fun cutoff => lift (py_max (to_relative fh0 cutoff)))
   | None => mret 1%Z
   end : M Z) w = (prediction_length_of (self w) fh, w).
Proof.
  destruct fh as [h|]; [|done].
  rewrite run_bind, run_bind, run_getattr. cbv beta iota.
  rewrite run_not_none. unfold prediction_length_of.
  destruct (_cutoff (self w)); cbn [require and_then]; done.
Qed.

(** Whatever the world, a call of predict changes neither the
    instance nor the model store nor an existing frame, and every call
    it logs is a call of the pipeline's predict for the prediction
    length computed from the horizon. *)
Lemma frame__predict fh y X w :
  frame_rel (fun ev => exists n,
               prediction_length_of (self w) fh = inr n /\
               predicts_steps n ev)
            w (_predict fh y X w).2.
Proof.
  destruct (decide (0 <= _seed (self w) < 2 ^ 32)%Z) as [Hseed|Hseed].
  2:{ rewrite _predict_refused_seed by done. reflexivity. }
  unfold _predict. mstep. mstep.
  set (w0 := set_rng (seed_state (_seed (self w))) w).
  rewrite run_bind, run_prediction_length.
  change (self w0) with (self w).
  destruct (prediction_length_of (self w) fh) as [e|n] eqn:Hn.
  { apply frame_rel_refl_rng. }
  set (φ := fun ev : event V pipeline =>
              exists n0 : Z, inr n = inr n0 /\ predicts_steps n0 ev).
  transitivity w0; [apply frame_rel_refl_rng|].
  revert w0. apply (preserves_bind (frame_rel φ)).
  { apply (preserves_bind (frame_rel φ)); [|intros ?].
    - apply (preserves_getattr (frame_rel φ)).
    - apply (preserves_not_none (frame_rel φ)). }
  intros stored.
  repeat first
    [ apply (preserves_bind (frame_rel φ)); [|intros ?]
    | apply (preserves_ret (frame_rel φ))
    | apply (preserves_raise (frame_rel φ))
    | apply (preserves_lift (frame_rel φ))
    | apply (preserves_getattr (frame_rel φ))
    | apply (preserves_not_none (frame_rel φ))
    | apply (preserves_frame_at (frame_rel φ))
    | apply frame_copy
    | apply (preserves_for_each (frame_rel φ)); intros ?;
      apply frame_forecast_group; intros; by exists n
    | apply frame_forecast_index
    | destruct fh | destruct y ].
Qed.

(** *** The prediction length and the frame of predict *)



(** C10: a call of predict leaves every frame of the store as it was,
    in particular the series retained at fit time and a replacement
    series the caller supplies, and the adapter goes on referring to
    the same retained series: predict works on copies. *)
Theorem predict_leaves_series_unchanged w fh y X l df :
  heap w !! l = Some df ->
  heap (_predict fh y X w).2 !! l = Some df /\
  _y (self (_predict fh y X w).2) = _y (self w).
Proof.
  intros Hl.
  destruct (frame__predict fh y X w) as (Hs & _ & Hh & _).
  split; [|by rewrite Hs].
  by eapply lookup_weaken.
Qed.

(** *** The constructor and fit *)

Lemma run___init__ mp cfg sd w :
  __init__ mp cfg sd w
  = let sg := match sd with
              | Some s => (s, rng w)
              | None => np_random_randint 0 (2 ^ 31) (rng w)
              end in
    (inr tt,
     set_self {| seed := sd; _seed := sg.1;
                 config := cfg;
                 _config := dict_update _default_config (default ∅ cfg);
                 model_path := mp; model_pipeline := None;
                 context := PyNone; _y := None; _cutoff := None;
                 _fh := None |}
              (set_rng sg.2 w)).
Proof.
  unfold __init__. rewrite run_bind.
  destruct sd as [s|].
  - rewrite run_ret. cbv beta iota. unfold put_self.
    destruct w; reflexivity.
  - unfold randint.
    destruct (np_random_randint 0 (2 ^ 31) (rng w)) as [n g]; reflexivity.
Qed.

Lemma run__fit_loaded y X fh w p :
  model_pipeline (self w) = Some p -> _fit y X fh w = (inr tt, w).
Proof. intros Hp. unfold _fit. mstep. by rewrite Hp. Qed.

Lemma run__fit_load y X fh w d m :
  model_pipeline (self w) = None ->
  _config (self w) !! "torch_dtype" = Some d ->
  _config (self w) !! "device_map" = Some m ->
  _fit y X fh w
  = let ev := from_pretrained_call (model_path (self w)) d m in
    let out := from_pretrained (model_path (self w)) d m (env w) in
    match out.1 with
    | inl e => (inl e, set_env out.2 (log ev w))
    | inr p =>
        (inr tt,
         set_self {| seed := seed (self w); _seed := _seed (self w);
                     config := config (self w);
                     _config := _config (self w);
                     model_path := model_path (self w);
                     model_pipeline := Some p;
                     context := context (self w); _y := _y (self w);
                     _cutoff := _cutoff (self w); _fh := _fh (self w) |}
                  (set_env out.2 (log ev w)))
    end.
Proof.
  intros Hp Hd Hm. unfold _fit, getitem. mstep. rewrite Hp.
  mstep. mstep. mstep. rewrite Hd. cbn [require].
  mstep. mstep. rewrite Hm. cbn [require].
  rewrite run_bind. unfold ChronosPipeline_from_pretrained.
  cbn [env log].
  destruct (from_pretrained (model_path (self w)) d m (env w))
    as [[e|p] en]; cbn [fst snd]; [done|].
  mstep. done.
Qed.

(** Fit touches nothing of the instance but the pipeline reference,
    and nothing of the world but the model store and the log. *)
Lemma frame__fit y X fh w :
  let w' := (_fit y X fh w).2 in
  _seed (self w') = _seed (self w) /\
  _config (self w') = _config (self w) /\
  model_path (self w') = model_path (self w) /\
  _y (self w') = _y (self w) /\
  _cutoff (self w') = _cutoff (self w) /\
  heap w' = heap w /\ rng w' = rng w.
Proof.
  destruct (model_pipeline (self w)) as [p|] eqn:Hp.
  { by rewrite (run__fit_loaded y X fh w p Hp). }
  destruct (_config (self w) !! "torch_dtype") as [d|] eqn:Hd.
  - destruct (_config (self w) !! "device_map") as [m|] eqn:Hm.
    + rewrite (run__fit_load y X fh w d m Hp Hd Hm). cbv zeta.
      by destruct (from_pretrained _ _ _ _).1.
    + unfold _fit, getitem. mstep. rewrite Hp.
      mstep. mstep. mstep. rewrite Hd. cbn [require].
      mstep. mstep. rewrite Hm. done.
  - unfold _fit, getitem. mstep. rewrite Hp.
    mstep. mstep. mstep. rewrite Hd. done.
Qed.

Lemma run_calls_cons c cs w :
  run_calls (c :: cs) w = run_calls cs (run_call c w).
Proof. done. Qed.

(** Once a pipeline is loaded, no sequence of calls of fit and predict
    loads again or replaces it. *)
Lemma loaded_stays_loaded cs w p :
  model_pipeline (self w) = Some p ->
  model_pipeline (self (run_calls cs w)) = Some p /\
  exists evs, trace (run_calls cs w) = trace w ++ evs /\
              Forall is_predict_call evs.
Proof.
  revert w. induction cs as [|c cs IH]; intros w Hp.
  - split; [done|]. exists []. by rewrite app_nil_r.
  - rewrite run_calls_cons.
    destruct c as [y X fh|fh y X]; cbn [run_call].
    + rewrite (run__fit_loaded y X fh w p Hp). by apply IH.
    + destruct (frame__predict fh y X w) as (Hs & _ & _ & evs & Ht & Hall).
      destruct (IH (_predict fh y X w).2) as (Hp' & evs' & Ht' & Hall').
      { by rewrite Hs. }
      split; [done|]. exists (evs ++ evs'). split.
      * by rewrite Ht', Ht, app_assoc.
      * apply Forall_app. split; [|done].
        eapply Forall_impl; [exact Hall|].
        intros [|] (n & _ & Hev); done.
Qed.

(** C8: the first call of fit that finds no pipeline loaded calls the
    loader once, with the stored model identifier, precision and
    device placement, and keeps the pipeline it returns; a call of fit
    that finds a pipeline loaded changes nothing, and no later
    sequence of calls loads again or replaces the pipeline. *)
Theorem fit_loads_pipeline_once w y X fh :
  (model_pipeline (self w) = None ->
   forall d m,
     _config (self w) !! "torch_dtype" = Some d ->
     _config (self w) !! "device_map" = Some m ->
     trace (_fit y X fh w).2
     = trace w ++ [from_pretrained_call (model_path (self w)) d m] /\
     forall p,
       (from_pretrained (model_path (self w)) d m (env w)).1 = inr p ->
       (_fit y X fh w).1 = inr tt /\
       model_pipeline (self (_fit y X fh w).2) = Some p) /\
  (forall p,
     model_pipeline (self w) = Some p ->
     _fit y X fh w = (inr tt, w) /\
     forall cs,
       model_pipeline (self (run_calls cs w)) = Some p /\
       exists evs, trace (run_calls cs w) = trace w ++ evs /\
                   Forall is_predict_call evs).
Proof.
  split.
  - intros Hp d m Hd Hm.
    rewrite (run__fit_load y X fh w d m Hp Hd Hm). cbv zeta.
    destruct (from_pretrained (model_path (self w)) d m (env w)).1
      as [e|p0]; cbn [fst snd].
    + split; [done|]. intros p [=].
    + split; [done|]. by intros p [= ->].
  - intros p Hp. split; [by apply (run__fit_loaded y X fh w p)|].
    intros cs. by apply loaded_stays_loaded.
Qed.

Lemma seed_kept_by_calls cs w :
  _seed (self (run_calls cs w)) = _seed (self w).
Proof.
  revert w. induction cs as [|c cs IH]; intros w; [done|].
  rewrite run_calls_cons, IH.
  destruct c as [y X fh|fh y X]; cbn [run_call].
  - apply (frame__fit y X fh w).
  - destruct (frame__predict fh y X w) as (Hs & _). by rewrite Hs.
Qed.

(** C9: after initialization, the effective configuration maps every
    key the caller supplies to the caller's value and every other
    documented key to its default; the stored seed is the caller's
    seed when one is given, otherwise the integer drawn from the
    pseudo-random generator, and no later call of fit or predict
    changes it. *)
Theorem init_merges_config_and_keeps_seed mp cfg sd w :
  let w1 := (__init__ mp cfg sd w).2 in
  (forall key v,
     default ∅ cfg !! key = Some v -> _config (self w1) !! key = Some v) /\
  (forall key,
     default ∅ cfg !! key = None ->
     _config (self w1) !! key = _default_config !! key /\
     (key ∈ documented_keys <-> is_Some (_config (self w1) !! key))) /\
  (forall s, sd = Some s -> _seed (self w1) = s) /\
  (sd = None ->
   _seed (self w1) = (np_random_randint 0 (2 ^ 31) (rng w)).1) /\
  (forall cs, _seed (self (run_calls cs w1)) = _seed (self w1)).
Proof.
  rewrite run___init__. cbv zeta. cbn [snd self set_self _config _seed].
  unfold dict_update.
  split; [|split; [|split; [|split]]].
  - intros key v Hk. by apply lookup_union_Some_l.
  - intros key Hk. rewrite lookup_union_r by done. split; [done|].
    unfold documented_keys, _default_config.
    rewrite !elem_of_cons, elem_of_nil.
    split.
    + intros [->|[->|[->|[->|[->|[->|[->|[]]]]]]]]; by eexists.
    + intros [v Hv].
      repeat (apply lookup_insert_Some in Hv as [[<- _]|[_ Hv]];
              [tauto|]).
      by apply lookup_empty_Some in Hv.
  - by intros s ->.
  - by intros ->.
  - intros cs. apply seed_kept_by_calls.
Qed.

(** *** Reproducibility *)

Lemma input_frame_mono w w' y df :
  self w' = self w -> heap w ⊆ heap w' ->
  input_frame w y = Some df -> input_frame w' y = Some df.
Proof.
  intros Hs Hh Hin.
  destruct (input_frame_Some w y df Hin) as (stored & df0 & Hst & H0 & Hy).
  unfold input_frame. rewrite Hs, Hst. simpl.
  rewrite (lookup_weaken _ _ _ _ H0 Hh). simpl.
  destruct y as [l|]; [|congruence].
  by eapply lookup_weaken.
Qed.

(** C7: two calls of predict on an adapter with the same attributes
    (the stored seed among them), the same horizon and the same input
    series return the same table or raise the same exception, whatever
    the state of the random generators, of the store of frames and of
    the log at either call; in particular a call repeated right after
    the first returns what the first returned. The pipeline is
    deterministic under a seeded generator by the type of
    [pipeline_predict]. *)
Theorem predict_is_reproducible w1 w2 fh y X df :
  self w1 = self w2 ->
  input_frame w1 y = Some df ->
  input_frame w2 y = Some df ->
  (_predict fh y X w1).1 = (_predict fh y X w2).1 /\
  (_predict fh y X (_predict fh y X w1).2).1 = (_predict fh y X w1).1.
Proof.
  assert (Hgen : forall wa wb,
            self wa = self wb ->
            input_frame wa y = Some df -> input_frame wb y = Some df ->
            (_predict fh y X wa).1 = (_predict fh y X wb).1).
  { intros wa wb Hs Ha Hb.
    destruct (decide (0 <= _seed (self wb) < 2 ^ 32)%Z) as [Hseed|Hseed].
    2:{ rewrite (_predict_refused_seed wa) by (by rewrite Hs).
        by rewrite (_predict_refused_seed wb). }
    destruct (_predict_run wa fh y X df) as (ha & _ & ->);
      [by rewrite Hs|done|].
    destruct (_predict_run wb fh y X df Hseed Hb) as (hb & _ & ->).
    cbv zeta. rewrite Hs. cbn [rng set_rng].
    destruct (prediction_length_of (self wb) fh) as [e|n]; [done|].
    destruct (reshaped df) as [e|gs]; done. }
  intros Hs H1 H2. split; [by apply Hgen|].
  destruct (frame__predict fh y X w1) as (Hs' & _ & Hh & _).
  apply Hgen; [done| |done].
  by apply (input_frame_mono w1).
Qed.

(** *** The calls of the loop and the forecasts it collects *)

Lemma sample_groups_events p ns t k tp n gs g i ev :
  (sample_groups p ns t k tp n gs g).2 !! i = Some ev ->
  exists x, gs !! i = Some x /\
            ev = predict_call p (history_of p x) n ns t k tp false.
Proof.
  revert g i. induction gs as [|x gs IH]; intros g i; [done|].
  cbn [sample_groups].
  destruct (forecast_of _) as [e|v].
  - cbn [snd]. destruct i as [|i]; [|done].
    intros [= <-]. by exists x.
  - specialize
      (IH (pipeline_predict p (history_of p x) n ns t k tp false g).2).
    destruct (sample_groups p ns t k tp n gs _) as [[rs g'] evs].
    cbn [snd] in *. destruct i as [|i].
    + intros [= <-]. by exists x.
    + intros Hev. by apply IH in Hev.
Qed.

Lemma sample_groups_inr p ns t k tp n gs g rs :
  (sample_groups p ns t k tp n gs g).1.1 = inr rs ->
  length (sample_groups p ns t k tp n gs g).2 = length gs /\
  length rs = length gs /\
  forall i x,
    gs !! i = Some x ->
    exists gi batches samples,
      (pipeline_predict p (history_of p x) n ns t k tp false gi).1
      = inr batches /\
      batches !! 0 = Some samples /\
      rs !! i = Some (np_median_axis0 samples).
Proof.
  revert g rs. induction gs as [|x gs IH]; intros g rs.
  - cbn. intros [= <-]. repeat split; try done.
  - cbn [sample_groups].
    destruct (forecast_of _) as [e|v] eqn:Hf; [done|].
    specialize
      (IH (pipeline_predict p (history_of p x) n ns t k tp false g).2).
    destruct (sample_groups p ns t k tp n gs _) as [[[e|vs] g'] evs];
      cbn [fst snd] in *; [done|].
    intros [= <-].
    destruct (IH vs eq_refl) as (Hl1 & Hl2 & Hall).
    split; [cbn [length]; by rewrite Hl1|].
    split; [cbn [length]; by rewrite Hl2|].
    intros [|i] x'.
    + intros [= <-]. unfold forecast_of in Hf.
      destruct (pipeline_predict p (history_of p x) n ns t k tp false g).1
        as [e|batches] eqn:Hr; [done|].
      destruct (batches !! 0) as [samples|] eqn:Hb; [|done].
      injection Hf as <-. by exists g, batches, samples.
    + intros Hx. by apply Hall.
Qed.

Lemma readiness_inr (s : ChronosForecaster pipeline) p ns t k tp :
  model_pipeline s = Some p ->
  _config s !! "num_samples" = Some ns ->
  _config s !! "temperature" = Some t ->
  _config s !! "top_k" = Some k ->
  _config s !! "top_p" = Some tp ->
  readiness s = inr (p, (ns, t, k, tp)).
Proof.
  intros Hp H1 H2 H3 H4. unfold readiness, sampling.
  by rewrite Hp, H1, H2, H3, H4.
Qed.


(** C6: when the loop of predict completes, it has collected one point
    forecast per group, and the point forecast of a group is the
    per-step median of the sampled trajectories the pipeline returned
    for the history of that group: its entry for step [j] is numpy's
    median of the [j]-th values of the samples, which for numbers (an
    order that is total and transitive, a mean that lies between, no
    not-a-number among the values) is a median of them. *)
Theorem point_forecast_is_per_step_median n gs w results w' :
  for_each (forecast_group n) gs w = (inr results, w') ->
  length results = length gs /\
  forall i x,
    gs !! i = Some x ->
    exists p ns t k tp gi batches samples values,
      readiness (self w) = inr (p, (ns, t, k, tp)) /\
      (pipeline_predict p (history_of p x) n ns t k tp false gi).1
      = inr batches /\
      batches !! 0 = Some samples /\
      results !! i = Some values /\
      length values = ncols samples /\
      forall j,
        j < ncols samples ->
        values !! j = Some (np_median_1d (column j samples)) /\
        (NumericOrder V ->
         existsb Vis_nan (column j samples) = false ->
         is_median (np_median_1d (column j samples)) (column j samples)).
Proof.
  rewrite for_each_forecast_group. unfold loop_model.
  destruct (readiness (self w)) as [e|[p [[[ns t] k] tp]]] eqn:Hr.
  - destruct gs as [|x gs]; cbn [fst snd]; [|done].
    intros [= <- _]. split; [done|]. intros i x [=].
  - intros [= Hrs _].
    destruct (sample_groups_inr _ _ _ _ _ _ _ _ _ Hrs) as (_ & Hlen & Hall).
    split; [done|]. intros i x Hx.
    destruct (Hall i x Hx) as (gi & batches & samples & Hb & Hs & Hi).
    exists p, ns, t, k, tp, gi, batches, samples, (np_median_axis0 samples).
    do 4 (split; [done|]).
    split; [apply length_np_median_axis0|].
    intros j Hj. split; [by apply lookup_np_median_axis0|].
    intros Horder Hnan. apply np_median_1d_is_median; [|done].
    by apply column_nonempty.
Qed.

(** *** A malformed panel *)

Lemma elem_of_np_unique x xs : x ∈ np_unique xs <-> x ∈ xs.
Proof.
  unfold np_unique. by rewrite merge_sort_Permutation, elem_of_remove_dups.
Qed.

Lemma _same_index_mismatch (df : DataFrame V) rows k1 k2 :
  df_index df = MultiIndex rows ->
  k1 ∈ map fst rows -> k2 ∈ map fst rows ->
  times_of k1 rows ≠ times_of k2 rows ->
  _same_index df = inl AssertionError.
Proof.
  intros Hix Hk1 Hk2 Hne. unfold _same_index. rewrite Hix.
  change (map (fun k => map snd (filter (fun r => r.1 = k) rows))
              (np_unique (map fst rows)))
    with (map (fun k => times_of k rows) (np_unique (map fst rows))).
  apply elem_of_np_unique in Hk1. apply elem_of_np_unique in Hk2.
  destruct (map (fun k => times_of k rows) (np_unique (map fst rows)))
    as [|first rest] eqn:Hdata.
  { apply fmap_nil_inv in Hdata. rewrite Hdata in Hk1.
    by apply elem_of_nil in Hk1. }
  destruct (forallb _ _) eqn:Hall; [|done].
  exfalso. apply Hne.
  assert (Hall' : Forall (fun x => x = first) (first :: rest)).
  { apply Is_true_true_2, forallb_True in Hall.
    eapply Forall_impl; [exact Hall|].
    intros x Hx. by apply bool_decide_unpack in Hx. }
  rewrite <- Hdata in Hall'. rewrite Forall_forall in Hall'.
  transitivity first.
  - apply Hall'. apply list_elem_of_fmap. by exists k1.
  - symmetry. apply Hall'. apply list_elem_of_fmap. by exists k2.
Qed.

(** C2: a panel in which two instances do not have the same sequence
    of time points (for one, time indexes of different lengths) makes
    predict raise, and no call of the pipeline is logged: the log is
    as it was.  With a stored seed that numpy accepts (0 to 2**32 - 1)
    the exception is the assertion error of the reshaping step; with
    any other seed the call has failed before, at [set_seed]. *)
Theorem mismatched_panel_fails_before_pipeline w fh y X df rows k1 k2 c :
  input_frame w y = Some df ->
  df_index df = MultiIndex rows ->
  k1 ∈ map fst rows -> k2 ∈ map fst rows ->
  times_of k1 rows ≠ times_of k2 rows ->
  _cutoff (self w) = Some c ->
  match fh with Some h => fh_values h ≠ [] | None => True end ->
  (exists e, (_predict fh y X w).1 = inl e) /\
  trace (_predict fh y X w).2 = trace w /\
  ((0 <= _seed (self w) < 2 ^ 32)%Z ->
   (_predict fh y X w).1 = inl AssertionError) /\
  (¬ (0 <= _seed (self w) < 2 ^ 32)%Z ->
   (_predict fh y X w).1 = inl ValueError).
Proof.
  intros Hin Hix Hk1 Hk2 Hne Hc Hfh.
  destruct (decide (0 <= _seed (self w) < 2 ^ 32)%Z) as [Hseed|Hseed].
  2:{ rewrite _predict_refused_seed by done. cbn [fst snd].
      split; [by eexists|]. done. }
  destruct (_predict_run w fh y X df Hseed Hin) as (h' & _ & ->). cbv zeta.
  assert (Hn : exists n, prediction_length_of (self w) fh = inr n).
  { unfold prediction_length_of. destruct fh as [h|]; [|by eexists].
    rewrite Hc. cbn [require and_then]. apply py_max_nonempty.
    unfold to_relative. destruct (is_relative h); [done|].
    intros Hnil. by apply fmap_nil_inv in Hnil. }
  destruct Hn as [n ->].
  unfold reshaped, _frame2numpy. rewrite Hix.
  rewrite (_same_index_mismatch df rows k1 k2) by done.
  cbn [fst snd]. split; [by eexists|]. done.
Qed.

(** *** A flat series *)

(** C3: for a flat series with one value column and a horizon of H
    distinct future time points in ascending order, on an adapter
    whose stored seed numpy accepts (0 to 2**32 - 1), when the pipeline
    answers the one call made with samples of at least the requested
    number of steps, predict returns a table whose index is the
    requested time points, in ascending order, so H rows; it has the
    columns of the input and one cell per row, the median forecast of
    the step that the time point of the row stands for. *)
Theorem flat_forecast_has_one_row_per_time_point
    w h y X df ts col c n p ns t k tp batches samples :
  (0 <= _seed (self w) < 2 ^ 32)%Z ->
  input_frame w y = Some df ->
  df_index df = Index ts ->
  df_columns df = [col] ->
  _cutoff (self w) = Some c ->
  StronglySorted Z.lt (fh_values h) ->
  Forall (fun k => (1 <= k)%Z) (to_relative h c) ->
  is_max n (to_relative h c) ->
  model_pipeline (self w) = Some p ->
  _config (self w) !! "num_samples" = Some ns ->
  _config (self w) !! "temperature" = Some t ->
  _config (self w) !! "top_k" = Some k ->
  _config (self w) !! "top_p" = Some tp ->
  (pipeline_predict p
     (map float32
        (py_slice_from (- context_length p) (concat (df_values df))))
     n ns t k tp false (seed_state (_seed (self w)))).1 = inr batches ->
  batches !! 0 = Some samples ->
  Z.to_nat n <= ncols samples ->
  exists tbl,
    (_predict (Some h) y X w).1 = inr tbl /\
    df_index tbl = Index (to_absolute h c) /\
    StronglySorted Z.lt (to_absolute h c) /\
    length (df_values tbl) = length (fh_values h) /\
    df_columns tbl = df_columns df /\
    df_index_names tbl = df_index_names df /\
    df_values tbl
    = map (fun a =>
             [np_median_1d (column (Z.to_nat (a - c - 1)) samples)])
          (to_absolute h c).
Proof.
  intros Hseed Hin Hix Hcol Hc Hsorted Hfuture Hmax Hp H1 H2 H3 H4 Hcall
    Hb Hn.
  pose proof (readiness_inr _ _ _ _ _ _ Hp H1 H2 H3 H4) as Hr.
  destruct (_predict_run w (Some h) y X df Hseed Hin) as (h' & _ & ->).
  cbv zeta. unfold prediction_length_of. rewrite Hc.
  cbn [require and_then]. rewrite (py_max_is_max _ _ Hmax).
  unfold reshaped. rewrite Hix.
  unfold loop_model. rewrite Hr. cbn [sample_groups rng set_rng].
  unfold history_of at 1 2. rewrite column_0_singletons.
  rewrite Hcall. cbn [forecast_of]. rewrite Hb. cbn [fst snd and_then].
  set (med := np_median_axis0 samples).
  set (T := ncols samples) in *.
  assert (Hlen : length med = T) by apply length_np_median_axis0.
  unfold table_of. rewrite np_stack_axis1_single. cbn [and_then].
  rewrite length_map, Hlen.
  unfold index_of. rewrite Hix. cbn [require and_then].
  rewrite concat_singletons.
  unfold pd_DataFrame.
  destruct (decide _) as [_|Hbad].
  2:{ exfalso. apply Hbad. rewrite Hcol. split; [|split].
      - cbn [index_length]. rewrite length_map, Hlen.
        by rewrite to_absolute_fh_range, length_map, length_seq.
      - done.
      - apply Forall_forall. intros r Hr'.
        by apply list_elem_of_fmap in Hr' as (v & -> & _). }
  cbn [and_then get_level_values_last df_index].
  assert (Hsa : StronglySorted Z.lt (to_absolute h c))
    by by apply StronglySorted_to_absolute.
  assert (Hfilter :
    mask_filter
      (map (fun x => bool_decide (x ∈ get_expected_pred_idx h c))
           (to_absolute (fh_range T) c))
      (to_absolute (fh_range T) c) = to_absolute h c).
  { rewrite mask_filter_map. unfold get_expected_pred_idx.
    trans (filter (fun x => x ∈ to_absolute h c)
                  (to_absolute (fh_range T) c));
      [|apply filter_elem_of_sorted].
    - apply list_filter_iff. intros x. apply bool_decide_spec.
    - apply StronglySorted_to_absolute_fh_range.
    - done.
    - intros a Ha. apply elem_of_to_absolute_fh_range.
      assert (Hrel : (a - c)%Z ∈ to_relative h c).
      { rewrite to_relative_to_absolute. apply list_elem_of_fmap. eauto. }
      rewrite Forall_forall in Hfuture.
      specialize (Hfuture _ Hrel). destruct Hmax as [_ Hub].
      specialize (Hub _ Hrel). lia. }
  eexists. split; [reflexivity|].
  cbn [loc_mask set_index_names df_index df_values df_columns
       df_index_names index_mask].
  assert (Hvals :
    mask_filter
      (map (fun x => bool_decide (x ∈ get_expected_pred_idx h c))
           (to_absolute (fh_range T) c))
      (map (fun v => [v]) med)
    = map (fun a =>
             [np_median_1d (column (Z.to_nat (a - c - 1)) samples)])
          (to_absolute h c)).
  { rewrite <- Hfilter at 1. rewrite <- mask_filter_fmap. f_equal.
    rewrite to_absolute_fh_range, map_map.
    unfold med, np_median_axis0. fold T. rewrite map_map.
    apply map_ext. intros j. do 3 f_equal. lia. }
  rewrite Hfilter, Hvals.
  repeat split; try done.
  rewrite length_map. unfold to_absolute.
  destruct (is_relative h); [by rewrite length_map|done].
Qed.

(** *** More on predict: failures, side effects, the returned table *)

(** A call of predict, whatever the world, as one expression: the
    failures before the loop, then the loop and the table. *)
Lemma _predict_unfold w fh y X :
  (0 <= _seed (self w) < 2 ^ 32)%Z ->
  _predict fh y X w
  = let w0 := set_rng (seed_state (_seed (self w))) w in
    match prediction_length_of (self w) fh with
    | inl e => (inl e, w0)
    | inr n =>
        match _y (self w) with
        | None => (inl AttributeError, w0)
        | Some stored =>
            match heap w !! stored with
            | None => (inl ReferenceError, w0)
            | Some df0 =>
                let h1 := <[fresh (dom (heap w)) := df0]> (heap w) in
                match
                  match y with
                  | Some ly =>
                      match h1 !! ly with
                      | Some df => inr (df, <[fresh (dom h1) := df]> h1)
                      | None => inl ReferenceError
                      end
                  | None => inr (df0, h1)
                  end
                with
                | inl e => (inl e, set_heap h1 w0)
                | inr (df, h') =>
                    match reshaped df with
                    | inl e => (inl e, set_heap h' w0)
                    | inr gs =>
                        let m := loop_model (self w) n gs (rng w0) in
                        (and_then m.1.1 (table_of (_fh (self w)) (_cutoff (self w)) fh df),
                         advance m.1.2 m.2 (set_heap h' w0))
                    end
                end
            end
        end
    end.
Proof.
  intros Hseed. unfold _predict. mstep. mstep.
  set (w0 := set_rng (seed_state (_seed (self w))) w).
  rewrite run_bind, run_prediction_length.
  change (self w0) with (self w). cbv zeta.
  destruct (prediction_length_of (self w) fh) as [e|n] eqn:Hn; [done|].
  rewrite run_bind, run_bind, run_getattr. cbv beta iota.
  rewrite run_not_none. change (self w0) with (self w).
  destruct (_y (self w)) as [stored|]; cbn [require]; [|done].
  rewrite run_bind. unfold copy at 1. change (heap w0) with (heap w).
  destruct (heap w !! stored) as [df0|] eqn:H0; [|done].
  set (l1 := fresh (dom (heap w))).
  set (h1 := <[l1 := df0]> (heap w)).
  set (w1 := set_heap h1 w0).
  rewrite run_bind.
  assert (Hcopy :
    (match y with Some y0 => copy y0 | None => mret l1 end : M loc) w1
    = match
        match y with
        | Some ly =>
            match h1 !! ly with
            | Some df => inr (fresh (dom h1), df, <[fresh (dom h1) := df]> h1)
            | None => inl ReferenceError
            end
        | None => inr (l1, df0, h1)
        end
      with
      | inl e => (inl e, w1)
      | inr (l, _, h') => (inr l, set_heap h' w0)
      end).
  { destruct y as [ly|]; [|done].
    unfold copy. change (heap w1) with h1. by destruct (h1 !! ly). }
  rewrite Hcopy. clear Hcopy.
  assert (Hrest : forall l df h',
    h' !! l = Some df ->
    ((frame_at l : M _) ≫= (fun _y_df : DataFrame V =>
       let index_names := df_index_names _y_df in
       _y ← lift (match df_index _y_df with
                  | MultiIndex _ => _frame2numpy _y_df
                  | Index _ =>
                      inr [map (fun v => [v]) (concat (df_values _y_df))]
                  end);
       results ← for_each (forecast_group n) _y;
       pred ← lift (np_stack_axis1 results);
       let shape0 := length pred in
       let shape1 := length results in
       index ← forecast_index _y_df shape0 shape1;
       pred_out ← (match fh with
                   | Some fh =>
                       cutoff ← (getattr _cutoff ≫= not_none TypeError);
                       mret (get_expected_pred_idx fh cutoff)
                   | None => raise AttributeError
                   end : M (list Z));
       pred ← lift (pd_DataFrame (map (fun v => [v]) (concat pred)) 1 index
                      (df_index_names _y_df) (df_columns _y_df));
       let dateindex :=
         map (fun x => bool_decide (x ∈ pred_out))
             (get_level_values_last (df_index pred)) in
       let pred := set_index_names index_names pred in
       mret (loc_mask pred dateindex))) (set_heap h' w0)
    = match reshaped df with
      | inl e => (inl e, set_heap h' w0)
      | inr gs =>
          let m := loop_model (self w) n gs (rng w0) in
          (and_then m.1.1 (table_of (_fh (self w)) (_cutoff (self w)) fh df),
           advance m.1.2 m.2 (set_heap h' w0))
      end).
  { intros l df h' Hl.
    rewrite run_bind, (run_frame_at l df) by done. cbv zeta.
    mstep. fold (reshaped df).
    destruct (reshaped df) as [e|gs] eqn:Hgs; [done|].
    rewrite run_bind, for_each_forecast_group.
    change (self (set_heap h' w0)) with (self w).
    change (rng (set_heap h' w0)) with (rng w0).
    destruct (loop_model (self w) n gs (rng w0)) as [[[e|results] g] evs];
      cbn [fst snd and_then]; [done|].
    unfold table_of.
    mstep.
    destruct (np_stack_axis1 results) as [e|pred]; cbn [and_then]; [done|].
    rewrite run_bind, run_forecast_index.
    change (self (advance g evs (set_heap h' w0))) with (self w).
    destruct (index_of _ _ _ _ _) as [e|index]; cbn [and_then]; [done|].
    rewrite run_bind.
    destruct fh as [h|]; [|done].
    rewrite run_bind, run_bind, run_getattr. cbv beta iota.
    rewrite run_not_none.
    change (self (advance g evs (set_heap h' w0))) with (self w).
    destruct (_cutoff (self w)) as [c|]; cbn [require and_then]; [|done].
    rewrite run_ret. mstep.
    destruct (pd_DataFrame _ _ _ _ _) as [e|tbl]; cbn [and_then]; done. }
  destruct y as [ly|].
  - destruct (h1 !! ly) as [df|] eqn:Hly; [|done].
    apply Hrest. by rewrite lookup_insert_eq.
  - apply Hrest. unfold h1. by rewrite lookup_insert_eq.
Qed.

(** A call of predict fails before the loop with the log as it was,
    or it reaches the loop with some frame [df]. *)
Lemma _predict_cases w fh y X :
  (exists e w',
     _predict fh y X w = (inl e, w') /\ trace w' = trace w /\
     self w' = self w)
  \/ (exists df h' n gs,
        prediction_length_of (self w) fh = inr n /\
        reshaped df = inr gs /\
        _predict fh y X w
        = let w0 := set_rng (seed_state (_seed (self w))) w in
          let m := loop_model (self w) n gs (rng w0) in
          (and_then m.1.1 (table_of (_fh (self w)) (_cutoff (self w)) fh df),
           advance m.1.2 m.2 (set_heap h' w0))).
Proof.
  destruct (decide (0 <= _seed (self w) < 2 ^ 32)%Z) as [Hseed|Hseed].
  2:{ left. rewrite _predict_refused_seed by done. by eexists _, _. }
  rewrite _predict_unfold by done. cbv zeta.
  destruct (prediction_length_of (self w) fh) as [e|n] eqn:Hn.
  { left. by eexists _, _. }
  destruct (_y (self w)) as [stored|]; [|left; by eexists _, _].
  destruct (heap w !! stored) as [df0|]; [|left; by eexists _, _].
  destruct (match y with Some _ => _ | None => _ end) as [e|[df h']].
  { left. by eexists _, _. }
  destruct (reshaped df) as [e|gs] eqn:Hgs; [left; by eexists _, _|].
  right. by exists df, h', n, gs.
Qed.

Lemma table_of_no_horizon stored cutoff (df : DataFrame V) results :
  exists e, table_of stored cutoff None df results = inl e.
Proof.
  unfold table_of.
  destruct (np_stack_axis1 results) as [e|pred]; cbn [and_then];
    [by eexists|].
  destruct (index_of _ _ _ _ _) as [e|index]; cbn [and_then]; by eexists.
Qed.

(** X1: a call of predict without a horizon never returns a table:
    the prediction length defaults to one step, but the horizon is
    used again after the loop, so the call raises whatever the world
    and the input. *)
Theorem predict_without_horizon_raises w y X :
  exists e, (_predict None y X w).1 = inl e.
Proof.
  destruct (_predict_cases w None y X)
    as [(e & w' & -> & _)|(df & h' & n & gs & _ & _ & ->)].
  { by exists e. }
  cbv zeta. cbn [fst].
  destruct (loop_model _ _ _ _).1.1 as [e|results]; cbn [and_then].
  { by exists e. }
  apply table_of_no_horizon.
Qed.

Lemma loop_model_unloaded (s : ChronosForecaster pipeline) n gs g :
  model_pipeline s = None ->
  loop_model s n gs g
  = (match gs with [] => inr [] | _ :: _ => inl AttributeError end, g, []).
Proof. intros Hp. unfold loop_model, readiness. by rewrite Hp. Qed.

(** X2: on an adapter with no pipeline loaded, a call of predict
    raises and logs no call of a pipeline. *)
Theorem predict_without_pipeline_raises w fh y X :
  model_pipeline (self w) = None ->
  (exists e, (_predict fh y X w).1 = inl e) /\
  trace (_predict fh y X w).2 = trace w.
Proof.
  intros Hp.
  destruct (_predict_cases w fh y X)
    as [(e & w' & -> & Ht & _)|(df & h' & n & gs & _ & _ & ->)].
  { split; [by exists e|done]. }
  cbv zeta. rewrite (loop_model_unloaded _ _ _ _ Hp). cbn [fst snd].
  split.
  - destruct gs as [|x gs]; cbn [and_then]; [|by eexists].
    unfold table_of. cbn. by eexists.
  - cbn. by rewrite app_nil_r.
Qed.

Lemma sample_groups_inl p ns t k tp n gs g e :
  (sample_groups p ns t k tp n gs g).1.1 = inl e ->
  exists i x gi,
    gs !! i = Some x /\
    length (sample_groups p ns t k tp n gs g).2 = S i /\
    last (sample_groups p ns t k tp n gs g).2
    = Some (predict_call p (history_of p x) n ns t k tp false) /\
    forecast_of (pipeline_predict p (history_of p x) n ns t k tp false gi).1
    = inl e.
Proof.
  revert g. induction gs as [|x gs IH]; intros g; [done|].
  cbn [sample_groups].
  destruct (forecast_of _) as [e'|v] eqn:Hf.
  - cbn [fst snd]. intros [= ->]. by exists 0, x, g.
  - specialize
      (IH (pipeline_predict p (history_of p x) n ns t k tp false g).2).
    destruct (sample_groups p ns t k tp n gs _) as [[[e'|vs] g'] evs];
      cbn [fst snd] in *; [|done].
    intros [= ->].
    destruct (IH eq_refl) as (i & x' & gi & Hx & Hlen & Hlast & Hfail).
    exists (S i), x', gi. repeat split; try done.
    + cbn [length]. by rewrite Hlen.
    + destruct evs; [done|]. by rewrite last_cons, Hlast.
Qed.

(** X3: when the loop of predict raises on an adapter that has its
    pipeline and sampling parameters, the exception is the one the
    pipeline raised for the last call logged (or the index error of an
    empty batch it returned), and no call was made for a later
    group: a failure of the pipeline is passed on unchanged, without
    a retry. *)
Theorem pipeline_failure_stops_loop n gs w e w' p ns t k tp :
  readiness (self w) = inr (p, (ns, t, k, tp)) ->
  for_each (forecast_group n) gs w = (inl e, w') ->
  exists i x gi evs,
    gs !! i = Some x /\
    trace w' = trace w ++ evs /\
    length evs = S i /\
    last evs = Some (predict_call p (history_of p x) n ns t k tp false) /\
    ((pipeline_predict p (history_of p x) n ns t k tp false gi).1 = inl e
     \/ ((pipeline_predict p (history_of p x) n ns t k tp false gi).1
         = inr [] /\ e = IndexError)).
Proof.
  intros Hr. rewrite for_each_forecast_group. unfold loop_model.
  rewrite Hr. intros [= He <-].
  destruct (sample_groups_inl _ _ _ _ _ _ _ _ _ He)
    as (i & x & gi & Hx & Hlen & Hlast & Hfail).
  exists i, x, gi, (sample_groups p ns t k tp n gs (rng w)).2.
  repeat split; try done.
  unfold forecast_of in Hfail.
  destruct (pipeline_predict p (history_of p x) n ns t k tp false gi).1
    as [e'|[|b bs]]; [left; congruence|right|done].
  by injection Hfail as <-.
Qed.

(** X4: on an adapter whose stored seed numpy accepts (0 to
    2**32 - 1), a call of predict overwrites the state of the
    process-wide random generators: the state it leaves depends on
    the adapter, the horizon and the input series only, not on the
    state the generators were in before the call. *)
Theorem predict_overwrites_generator_state w1 w2 fh y X df :
  (0 <= _seed (self w1) < 2 ^ 32)%Z ->
  self w1 = self w2 ->
  input_frame w1 y = Some df ->
  input_frame w2 y = Some df ->
  rng (_predict fh y X w1).2 = rng (_predict fh y X w2).2.
Proof.
  intros Hseed Hs H1 H2.
  destruct (_predict_run w1 fh y X df Hseed H1) as (h1 & _ & ->).
  destruct (_predict_run w2 fh y X df) as (h2 & _ & ->);
    [by rewrite <- Hs|done|].
  cbv zeta. rewrite Hs. cbn [rng set_rng].
  destruct (prediction_length_of (self w2) fh) as [e|n]; [done|].
  destruct (reshaped df) as [e|gs]; done.
Qed.

(** X5: a table that predict returns for a live input is well formed
    and holds requested time points only: it has the columns and the
    index names of the input and an index of the same kind, as many
    rows of cells as labels, one cell per row, and the time point of
    every row is a point of the horizon. *)
Theorem returned_table_is_well_formed w fh y X df tbl :
  input_frame w y = Some df ->
  (_predict fh y X w).1 = inr tbl ->
  df_columns tbl = df_columns df /\
  df_index_names tbl = df_index_names df /\
  match df_index df, df_index tbl with
  | Index _, Index _ | MultiIndex _, MultiIndex _ => True
  | _, _ => False
  end /\
  length (df_values tbl) = index_length (df_index tbl) /\
  Forall (fun r => length r = 1) (df_values tbl) /\
  exists h c,
    fh = Some h /\ _cutoff (self w) = Some c /\
    forall a,
      a ∈ get_level_values_last (df_index tbl) -> a ∈ to_absolute h c.
Proof.
  intros Hin.
  intros Hret. pose proof (returned_with_seed _ _ _ _ _ Hret) as Hseed.
  revert Hret.
  destruct (_predict_run w fh y X df Hseed Hin) as (h' & _ & ->). cbv zeta.
  destruct (prediction_length_of (self w) fh) as [e|n]; [done|].
  destruct (reshaped df) as [e|gs]; [done|]. cbn [fst].
  destruct (loop_model _ _ _ _).1.1 as [e|results]; [done|].
  cbn [and_then]. unfold table_of.
  destruct (np_stack_axis1 results) as [e|pred]; [done|]. cbn [and_then].
  destruct (index_of _ _ _ _ _) as [e|index] eqn:Hix; [done|].
  cbn [and_then].
  destruct fh as [h|]; [|done].
  destruct (_cutoff (self w)) as [c|] eqn:Hc; [|done].
  cbn [require and_then].
  unfold pd_DataFrame.
  destruct (decide _) as [(Hlen & Hwidth & Hrows)|]; [|done].
  cbn [and_then]. intros [= <-].
  cbn [loc_mask set_index_names df_index df_values df_columns
       df_index_names].
  split; [done|]. split; [done|]. split.
  { unfold index_of in Hix.
    destruct (df_index df); cbn [require and_then] in Hix.
    - injection Hix as <-. done.
    - destruct (_fh (self w)); cbn [require and_then] in Hix; [|done].
      unfold MultiIndex_from_arrays in Hix.
      destruct (decide _); [|done]. injection Hix as <-. done. }
  split.
  { destruct index as [ts|rows]; cbn [index_mask index_length] in *;
      by apply length_mask_filter. }
  split.
  { apply Forall_forall. intros r Hr.
    apply elem_of_mask_filter, list_elem_of_fmap in Hr as (v & -> & _).
    done. }
  exists h, c. split; [done|]. split; [done|].
  intros a Ha. unfold get_expected_pred_idx in Ha.
  destruct index as [ts|rows];
    cbn [index_mask get_level_values_last] in Ha.
  - rewrite (mask_filter_map
               (fun x => bool_decide (x ∈ to_absolute h c))) in Ha.
    apply list_elem_of_filter in Ha as [Ha _].
    by apply bool_decide_unpack in Ha.
  - rewrite (mask_filter_fmap_mask
               (fun x => bool_decide (x ∈ to_absolute h c)) snd) in Ha.
    apply list_elem_of_fmap in Ha as (r & -> & Hr).
    apply list_elem_of_filter in Hr as [Hr _].
    by apply bool_decide_unpack in Hr.
Qed.

(** X6: for a flat series with one value column, on an adapter whose
    stored seed numpy accepts (0 to 2**32 - 1), whatever the order
    of the horizon and however many steps the pipeline returns, the
    rows of the returned table are the points of the horizon that lie
    among the generated steps, each once, in ascending order, each
    with the median forecast of its step: a point of the horizon at
    or before the cutoff, or beyond the last generated step, is left
    out without an error. *)
Theorem flat_rows_are_generated_horizon_points
    w h y X df ts col c n p ns t k tp batches samples :
  (0 <= _seed (self w) < 2 ^ 32)%Z ->
  input_frame w y = Some df ->
  df_index df = Index ts ->
  df_columns df = [col] ->
  _cutoff (self w) = Some c ->
  py_max (to_relative h c) = inr n ->
  model_pipeline (self w) = Some p ->
  _config (self w) !! "num_samples" = Some ns ->
  _config (self w) !! "temperature" = Some t ->
  _config (self w) !! "top_k" = Some k ->
  _config (self w) !! "top_p" = Some tp ->
  (pipeline_predict p
     (map float32
        (py_slice_from (- context_length p) (concat (df_values df))))
     n ns t k tp false (seed_state (_seed (self w)))).1 = inr batches ->
  batches !! 0 = Some samples ->
  exists tbl rows,
    (_predict (Some h) y X w).1 = inr tbl /\
    df_index tbl = Index rows /\
    StronglySorted Z.lt rows /\
    (forall a,
       a ∈ rows <->
       a ∈ to_absolute h c /\ (c < a <= c + Z.of_nat (ncols samples))%Z) /\
    df_values tbl
    = map (fun a =>
             [np_median_1d (column (Z.to_nat (a - c - 1)) samples)])
          rows.
Proof.
  intros Hseed Hin Hix Hcol Hc Hmax Hp H1 H2 H3 H4 Hcall Hb.
  pose proof (readiness_inr _ _ _ _ _ _ Hp H1 H2 H3 H4) as Hr.
  destruct (_predict_run w (Some h) y X df Hseed Hin) as (h' & _ & ->).
  cbv zeta. unfold prediction_length_of. rewrite Hc.
  cbn [require and_then]. rewrite Hmax.
  unfold reshaped. rewrite Hix.
  unfold loop_model. rewrite Hr. cbn [sample_groups rng set_rng].
  unfold history_of at 1 2. rewrite column_0_singletons.
  rewrite Hcall. cbn [forecast_of]. rewrite Hb. cbn [fst snd and_then].
  set (med := np_median_axis0 samples).
  set (T := ncols samples) in *.
  assert (Hlen : length med = T) by apply length_np_median_axis0.
  unfold table_of. rewrite np_stack_axis1_single. cbn [and_then].
  rewrite length_map, Hlen.
  unfold index_of. rewrite Hix. cbn [require and_then].
  rewrite concat_singletons.
  unfold pd_DataFrame.
  destruct (decide _) as [_|Hbad].
  2:{ exfalso. apply Hbad. rewrite Hcol. split; [|split].
      - cbn [index_length]. rewrite length_map, Hlen.
        by rewrite to_absolute_fh_range, length_map, length_seq.
      - done.
      - apply Forall_forall. intros r Hr'.
        by apply list_elem_of_fmap in Hr' as (v & -> & _). }
  cbn [and_then get_level_values_last df_index].
  set (times := to_absolute (fh_range T) c).
  set (rows := filter (fun x => x ∈ to_absolute h c) times).
  assert (Hfilter :
    mask_filter
      (map (fun x => bool_decide (x ∈ get_expected_pred_idx h c)) times)
      times = rows).
  { rewrite mask_filter_map. unfold get_expected_pred_idx.
    apply list_filter_iff. intros x. apply bool_decide_spec. }
  eexists _, rows. split; [reflexivity|].
  cbn [loc_mask set_index_names df_index df_values df_columns
       df_index_names index_mask].
  rewrite Hfilter. split; [done|]. split.
  { apply StronglySorted_filter, StronglySorted_to_absolute_fh_range. }
  split.
  { intros a. unfold rows. rewrite list_elem_of_filter.
    unfold times. rewrite elem_of_to_absolute_fh_range. tauto. }
  rewrite <- Hfilter at 1. rewrite <- mask_filter_fmap. f_equal.
  unfold times. rewrite to_absolute_fh_range, map_map.
  unfold med, np_median_axis0. fold T. rewrite map_map.
  apply map_ext. intros j. do 3 f_equal. lia.
Qed.

(** X7: the index of a table that predict returns for a panel is the
    cross product of the instance keys, in ascending order and each
    once, with the points of the horizon that lie among the generated
    steps, in ascending order: instance by instance, and as many rows
    of cells as there are instances times such points. *)
Theorem panel_index_is_cross_product w fh y X df rows0 tbl :
  input_frame w y = Some df ->
  df_index df = MultiIndex rows0 ->
  (_predict fh y X w).1 = inr tbl ->
  exists h c T times,
    fh = Some h /\ _cutoff (self w) = Some c /\
    StronglySorted Z.lt times /\
    (forall a,
       a ∈ times <->
       a ∈ to_absolute h c /\ (c < a <= c + Z.of_nat T)%Z) /\
    df_index tbl
    = MultiIndex (cross_index (np_unique (map fst rows0)) times) /\
    length (df_values tbl)
    = length (np_unique (map fst rows0)) * length times.
Proof.
  intros Hin Hpanel.
  intros Hret. pose proof (returned_with_seed _ _ _ _ _ Hret) as Hseed.
  revert Hret.
  destruct (_predict_run w fh y X df Hseed Hin) as (h' & _ & ->). cbv zeta.
  destruct (prediction_length_of (self w) fh) as [e|n]; [done|].
  destruct (reshaped df) as [e|gs]; [done|]. cbn [fst].
  destruct (loop_model _ _ _ _).1.1 as [e|results]; [done|].
  cbn [and_then]. unfold table_of.
  destruct (np_stack_axis1 results) as [e|pred]; [done|]. cbn [and_then].
  destruct (index_of _ _ _ _ _) as [e|index] eqn:Hix; [done|].
  cbn [and_then].
  destruct fh as [h|]; [|done].
  destruct (_cutoff (self w)) as [c|] eqn:Hc; [|done].
  cbn [require and_then].
  unfold pd_DataFrame.
  destruct (decide _) as [(Hlen & Hwidth & Hrows)|]; [|done].
  cbn [and_then]. intros [= <-].
  cbn [loc_mask set_index_names df_index df_values].
  set (T := length pred) in *.
  set (ks := np_unique (map fst rows0)).
  set (times0 := to_absolute (fh_range T) c).
  assert (HT : length times0 = T).
  { unfold times0. by rewrite to_absolute_fh_range, length_map, length_seq. }
  assert (Hindex : index = MultiIndex (cross_index ks times0)).
  { unfold index_of in Hix. rewrite Hpanel in Hix.
    destruct (_fh (self w)); cbn [require and_then] in Hix; [|done].
    unfold MultiIndex_from_arrays in Hix.
    fold ks times0 in Hix.
    destruct (decide _) as [Heq|]; [|done]. injection Hix as <-.
    f_equal. rewrite <- HT in Heq |- *. by apply zip_repeat_tile_any. }
  subst index.
  set (times := filter (fun a => a ∈ to_absolute h c) times0).
  assert (Hmask :
    mask_filter
      (map (fun x => bool_decide (x ∈ get_expected_pred_idx h c))
           (get_level_values_last (MultiIndex (cross_index ks times0))))
      (cross_index ks times0)
    = cross_index ks times).
  { cbn [get_level_values_last]. unfold get_expected_pred_idx.
    rewrite (mask_filter_fmap_mask
               (fun x => bool_decide (x ∈ to_absolute h c)) snd).
    unfold times.
    rewrite <- (filter_cross_index (fun a => a ∈ to_absolute h c)).
    apply list_filter_iff. intros r. apply bool_decide_spec. }
  exists h, c, T, times. split; [done|]. split; [done|]. split.
  { apply StronglySorted_filter, StronglySorted_to_absolute_fh_range. }
  split.
  { intros a. unfold times. rewrite list_elem_of_filter.
    unfold times0. rewrite elem_of_to_absolute_fh_range. tauto. }
  cbn [index_mask]. rewrite Hmask. split; [done|].
  rewrite <- length_cross_index, <- Hmask.
  apply length_mask_filter. exact Hlen.
Qed.

(** X8: on a panel with at least one row, [_same_index] returns a
    sequence of time points and a length exactly when every instance
    has that sequence of time points (in row order) and the length is
    its length; otherwise it raises the assertion error, and then two
    instances have different sequences. *)
Theorem _same_index_characterised (df : DataFrame V) rows :
  df_index df = MultiIndex rows ->
  rows ≠ [] ->
  (forall ts n,
     _same_index df = inr (ts, n) <->
     n = length ts /\
     forall k, k ∈ map fst rows -> times_of k rows = ts) /\
  (forall e,
     _same_index df = inl e ->
     e = AssertionError /\
     exists k1 k2,
       k1 ∈ map fst rows /\ k2 ∈ map fst rows /\
       times_of k1 rows ≠ times_of k2 rows).
Proof.
  intros Hix Hne. unfold _same_index. rewrite Hix.
  change (map (fun k => map snd (filter (fun r => r.1 = k) rows))
              (np_unique (map fst rows)))
    with (map (fun k => times_of k rows) (np_unique (map fst rows))).
  destruct (np_unique (map fst rows)) as [|k0 ks] eqn:Hks.
  { exfalso. destruct rows as [|r rows]; [done|].
    assert (Hr : r.1 ∈ np_unique (map fst (r :: rows))).
    { apply elem_of_np_unique. left. }
    rewrite Hks in Hr. by apply elem_of_nil in Hr. }
  assert (Hk0 : k0 ∈ map fst rows).
  { apply elem_of_np_unique. rewrite Hks. left. }
  assert (Hkeys : forall k, k ∈ map fst rows <-> k ∈ k0 :: ks).
  { intros k. by rewrite <- Hks, elem_of_np_unique. }
  cbn [map].
  set (first := times_of k0 rows).
  destruct (forallb _ _) eqn:Hall.
  - assert (Hsame : forall k, k ∈ map fst rows -> times_of k rows = first).
    { apply Is_true_true_2, forallb_True in Hall.
      rewrite Forall_forall in Hall. intros k Hk.
      apply Hkeys in Hk.
      assert (Hin : times_of k rows
                    ∈ first :: map (fun k => times_of k rows) ks).
      { change (first :: map (fun k => times_of k rows) ks)
          with (map (fun k => times_of k rows) (k0 :: ks)).
        apply list_elem_of_fmap. by exists k. }
      by apply Hall, bool_decide_unpack in Hin. }
    split; [|done].
    intros ts n. split.
    + intros [= <- <-]. done.
    + intros [-> Hts]. rewrite <- (Hts k0 Hk0). done.
  - assert (Hdiff : exists k, k ∈ map fst rows /\ times_of k rows ≠ first).
    { assert (Hnot : ¬ Forall (fun x => x = first)
                         (first :: map (fun k => times_of k rows) ks)).
      { intros HF. apply not_true_iff_false in Hall. apply Hall.
        apply Is_true_true_1, forallb_True.
        eapply Forall_impl; [exact HF|].
        intros x ->. by apply bool_decide_pack. }
      apply not_Forall_Exists in Hnot; [|apply _].
      apply Exists_exists in Hnot as (x & Hx & Hxne).
      change (first :: map (fun k => times_of k rows) ks)
        with (map (fun k => times_of k rows) (k0 :: ks)) in Hx.
      apply list_elem_of_fmap in Hx as (k & -> & Hk).
      exists k. split; [by apply Hkeys|done]. }
    destruct Hdiff as (k & Hk & Hkne).
    split.
    + intros ts n. split; [done|].
      intros [_ Hts]. exfalso. apply Hkne.
      rewrite (Hts k Hk). symmetry. apply (Hts k0 Hk0).
    + intros e [= <-]. split; [done|].
      exists k, k0. repeat split; done.
Qed.

(** A panel whose instances all have the time points [ts] passes the
    check of [_same_index]. *)
Lemma _same_index_agree (df : DataFrame V) rows ts :
  df_index df = MultiIndex rows ->
  rows ≠ [] ->
  (forall k, k ∈ map fst rows -> times_of k rows = ts) ->
  _same_index df = inr (ts, length ts).
Proof.
  intros Hix Hne Hts. unfold _same_index. rewrite Hix.
  change (map (fun k => map snd (filter (fun r => r.1 = k) rows))
              (np_unique (map fst rows)))
    with (map (fun k => times_of k rows) (np_unique (map fst rows))).
  assert (Hall : Forall (fun x => x = ts)
                   (map (fun k => times_of k rows)
                        (np_unique (map fst rows)))).
  { apply Forall_forall. intros x Hx.
    apply list_elem_of_fmap in Hx as (k & -> & Hk).
    by apply Hts, elem_of_np_unique. }
  destruct (np_unique (map fst rows)) as [|k0 ks] eqn:Hks.
  { exfalso. destruct rows as [|r rows]; [done|].
    assert (Hr : r.1 ∈ np_unique (map fst (r :: rows))).
    { apply elem_of_np_unique. left. }
    rewrite Hks in Hr. by apply elem_of_nil in Hr. }
  cbn [map] in *.
  apply Forall_cons in Hall as [-> Hall].
  destruct (forallb _ _) eqn:Hb; [done|].
  exfalso. apply not_true_iff_false in Hb. apply Hb.
  apply Is_true_true_1, forallb_True. constructor.
  - by apply bool_decide_pack.
  - eapply Forall_impl; [exact Hall|].
    intros x ->. by apply bool_decide_pack.
Qed.

Lemma cross_index_not_nil (ks ts : list Z) :
  ks ≠ [] -> ts ≠ [] -> cross_index ks ts ≠ [].
Proof.
  intros Hks Hts Hnil. apply (f_equal length) in Hnil.
  rewrite length_cross_index in Hnil.
  destruct ks, ts; simpl in *; done.
Qed.

Lemma _same_index_cross_index (df : DataFrame V) ks ts :
  df_index df = MultiIndex (cross_index ks ts) ->
  NoDup ks -> ks ≠ [] -> ts ≠ [] ->
  _same_index df = inr (ts, length ts).
Proof.
  intros Hix Hnd Hks Hts.
  apply (_same_index_agree df (cross_index ks ts)); [done| |].
  - by apply cross_index_not_nil.
  - intros k Hk. apply times_of_cross_index; [done|].
    by apply (elem_of_keys_cross_index ks ts k Hts).
Qed.

(** The groups that [_frame2numpy] cuts out of such a panel. *)
Lemma _frame2numpy_cross_index (df : DataFrame V) ks ts :
  df_index df = MultiIndex (cross_index ks ts) ->
  NoDup ks -> ks ≠ [] -> ts ≠ [] ->
  length (df_values df) = length ks * length ts ->
  df_columns df ≠ [] ->
  exists gs,
    _frame2numpy df = inr gs /\
    length gs = length ks /\
    forall i,
      i < length ks ->
      gs !! i
      = Some (map (map float32)
                (take (length ts) (drop (i * length ts) (df_values df)))).
Proof.
  intros Hix Hnd Hks Hts Hlen Hcols.
  unfold _frame2numpy.
  rewrite (_same_index_cross_index df ks ts) by done.
  unfold np_reshape3.
  rewrite length_map, Hlen.
  assert (HL : 0 < length ts) by (destruct ts; simpl; [done|lia]).
  assert (HC : 0 < length (df_columns df))
    by (destruct (df_columns df); simpl; [done|lia]).
  destruct (decide _) as [Hz|_]; [nia|].
  destruct (decide _) as [_|Hmod].
  2:{ exfalso. apply Hmod.
      replace (length ks * length ts * length (df_columns df))
        with (length ks * (length ts * length (df_columns df))) by lia.
      apply Nat.Div0.mod_mul. }
  rewrite Nat.div_mul by lia.
  eexists. split; [reflexivity|]. split; [apply length_chunks|].
  intros i Hi.
  rewrite lookup_chunks by done.
  by rewrite <- fmap_drop, <- fmap_take.
Qed.

(** X9: for a panel whose rows come instance by instance, every
    instance of [ks] (distinct, at least one) with the same time
    points [ts] (at least one), and that has as many rows of cells as
    labels and at least one column, [_same_index] returns [ts] and
    its length, and [_frame2numpy] returns one group per instance:
    group [i] is made of the rows of cells at the positions of the
    labels of the [i]-th instance, rounded to single precision. *)
Theorem _frame2numpy_groups_by_instance (df : DataFrame V) ks ts :
  df_index df = MultiIndex (cross_index ks ts) ->
  NoDup ks -> ks ≠ [] -> ts ≠ [] ->
  length (df_values df) = length ks * length ts ->
  df_columns df ≠ [] ->
  _same_index df = inr (ts, length ts) /\
  exists gs,
    _frame2numpy df = inr gs /\
    length gs = length ks /\
    forall i k,
      ks !! i = Some k ->
      take (length ts) (drop (i * length ts) (cross_index ks ts))
      = map (pair k) ts /\
      gs !! i
      = Some (map (map float32)
                (take (length ts) (drop (i * length ts) (df_values df)))).
Proof.
  intros Hix Hnd Hks Hts Hlen Hcols.
  split; [by apply (_same_index_cross_index df ks ts)|].
  destruct (_frame2numpy_cross_index df ks ts Hix Hnd Hks Hts Hlen Hcols)
    as (gs & Hgs & Hgl & Hgi).
  exists gs. split; [done|]. split; [done|].
  intros i k Hi. split; [by apply take_drop_cross_index|].
  apply Hgi. by eapply lookup_lt_Some.
Qed.

Lemma attributes_kept_by_calls cs w :
  _config (self (run_calls cs w)) = _config (self w) /\
  model_path (self (run_calls cs w)) = model_path (self w).
Proof.
  revert w. induction cs as [|c cs IH]; intros w; [done|].
  rewrite run_calls_cons. destruct (IH (run_call c w)) as [-> ->].
  destruct c as [y X fh|fh y X]; cbn [run_call].
  - destruct (frame__fit y X fh w) as (_ & Hc & Hm & _). by rewrite Hc, Hm.
  - destruct (frame__predict fh y X w) as (Hs & _). by rewrite Hs.
Qed.

Lemma lookup_merged_config cfg key :
  key ∈ documented_keys ->
  is_Some (dict_update _default_config cfg !! key).
Proof.
  intros Hkey. unfold dict_update.
  destruct (cfg !! key) as [v|] eqn:Hc.
  - exists v. by apply lookup_union_Some_l.
  - rewrite lookup_union_r by done.
    unfold documented_keys, _default_config in *.
    repeat (apply elem_of_cons in Hkey as [->|Hkey]; [by eexists|]).
    by apply elem_of_nil in Hkey.
Qed.

(** X10: on an adapter that was constructed, after any calls of fit
    and predict, the merged configuration still has its precision,
    device and sampling entries, so a call of fit never fails on a
    missing key: with a pipeline loaded it does nothing, and without
    one it calls the loader with the model identifier given to the
    constructor and either keeps the pipeline or raises the loader's
    own exception and stays without a pipeline, so that the next call
    of fit tries again. *)
Theorem fit_fails_only_with_loader mp cfg sd w0 cs y X fh :
  let w := run_calls cs (__init__ mp cfg sd w0).2 in
  exists d m sp,
    _config (self w) !! "torch_dtype" = Some d /\
    _config (self w) !! "device_map" = Some m /\
    sampling (self w) = inr sp /\
    match model_pipeline (self w) with
    | Some _ => _fit y X fh w = (inr tt, w)
    | None =>
        trace (_fit y X fh w).2
        = trace w ++ [from_pretrained_call mp d m] /\
        match (from_pretrained mp d m (env w)).1 with
        | inl e =>
            (_fit y X fh w).1 = inl e /\
            model_pipeline (self (_fit y X fh w).2) = None
        | inr p =>
            (_fit y X fh w).1 = inr tt /\
            model_pipeline (self (_fit y X fh w).2) = Some p
        end
    end.
Proof.
  intros w.
  destruct (attributes_kept_by_calls cs (__init__ mp cfg sd w0).2)
    as [Hcfg Hpath].
  fold w in Hcfg, Hpath.
  rewrite run___init__ in Hcfg, Hpath.
  cbv zeta in Hcfg, Hpath.
  cbn [snd self set_self _config model_path] in Hcfg, Hpath.
  assert (Hkey : forall key,
            key ∈ documented_keys -> is_Some (_config (self w) !! key)).
  { intros key Hkey. rewrite Hcfg. by apply lookup_merged_config. }
  destruct (Hkey "torch_dtype") as [d Hd];
    [unfold documented_keys; set_solver|].
  destruct (Hkey "device_map") as [m Hm];
    [unfold documented_keys; set_solver|].
  destruct (Hkey "num_samples") as [v1 H1];
    [unfold documented_keys; set_solver|].
  destruct (Hkey "temperature") as [v2 H2];
    [unfold documented_keys; set_solver|].
  destruct (Hkey "top_k") as [v3 H3];
    [unfold documented_keys; set_solver|].
  destruct (Hkey "top_p") as [v4 H4];
    [unfold documented_keys; set_solver|].
  exists d, m, (v1, v2, v3, v4).
  split; [done|]. split; [done|].
  split; [unfold sampling; by rewrite H1, H2, H3, H4|].
  destruct (model_pipeline (self w)) as [p|] eqn:Hp.
  { by apply (run__fit_loaded y X fh w p). }
  rewrite (run__fit_load y X fh w d m Hp Hd Hm). cbv zeta.
  rewrite Hpath.
  destruct (from_pretrained mp d m (env w)).1 as [e|p]; cbn; done.
Qed.

(** X11: when predict returns a table for a panel whose rows come
    instance by instance, every instance with the same time points,
    the pipeline has been called once per instance, in the order of
    the rows: the history of the [i]-th call is made of the most
    recent min(L, context length) values of the first column of the
    rows of the [i]-th instance, rounded to single precision. *)
Theorem panel_calls_pipeline_once_per_instance
    w fh y X df ks ts p ns t k tp tbl :
  input_frame w y = Some df ->
  df_index df = MultiIndex (cross_index ks ts) ->
  NoDup ks -> ks ≠ [] -> ts ≠ [] ->
  length (df_values df) = length ks * length ts ->
  df_columns df ≠ [] ->
  model_pipeline (self w) = Some p ->
  (0 < context_length p)%Z ->
  _config (self w) !! "num_samples" = Some ns ->
  _config (self w) !! "temperature" = Some t ->
  _config (self w) !! "top_k" = Some k ->
  _config (self w) !! "top_p" = Some tp ->
  (_predict fh y X w).1 = inr tbl ->
  exists evs n,
    trace (_predict fh y X w).2 = trace w ++ evs /\
    length evs = length ks /\
    forall i,
      i < length ks ->
      let series :=
        map float32
          (column 0 (take (length ts)
                       (drop (i * length ts) (df_values df)))) in
      evs !! i
      = Some (predict_call p
                (map float32
                   (most_recent
                      (Z.to_nat (Z.min (Z.of_nat (length series))
                                       (context_length p)))
                      series))
                n ns t k tp false).
Proof.
  intros Hin Hix Hnd Hks Hts Hlen Hcols Hp Hc H1 H2 H3 H4.
  pose proof (readiness_inr _ _ _ _ _ _ Hp H1 H2 H3 H4) as Hr.
  destruct (_frame2numpy_cross_index df ks ts Hix Hnd Hks Hts Hlen Hcols)
    as (gs & Hgs & Hgl & Hgi).
  intros Hret. pose proof (returned_with_seed _ _ _ _ _ Hret) as Hseed.
  revert Hret.
  destruct (_predict_run w fh y X df Hseed Hin) as (h' & _ & ->). cbv zeta.
  unfold reshaped. rewrite Hix, Hgs.
  destruct (prediction_length_of (self w) fh) as [e|n]; [done|].
  unfold loop_model. rewrite Hr. cbn [fst snd].
  set (g0 := rng _).
  destruct (sample_groups p ns t k tp n gs g0).1.1 as [e|rs] eqn:Hrs;
    [done|].
  intros _.
  destruct (sample_groups_inr _ _ _ _ _ _ _ _ _ Hrs) as (Hel & _ & _).
  exists (sample_groups p ns t k tp n gs g0).2, n.
  split; [done|]. split; [by rewrite Hel|].
  intros i Hi. cbv zeta.
  pose proof (Hgi i Hi) as Hg.
  destruct (lookup_lt_is_Some_2 (sample_groups p ns t k tp n gs g0).2 i)
    as [ev Hev]; [by rewrite Hel, Hgl|].
  rewrite Hev.
  destruct (sample_groups_events _ _ _ _ _ _ _ _ _ _ Hev) as (x & Hx & ->).
  rewrite Hg in Hx. injection Hx as <-.
  unfold history_of. rewrite column_fmap.
  by rewrite py_slice_from_recent.
Qed.

Lemma np_unique_single (k : Z) (keys : list Z) :
  keys ≠ [] -> (forall x, x ∈ keys -> x = k) -> np_unique keys = [k].
Proof.
  intros Hne Hall.
  assert (Hlen : length (np_unique keys) = length [k]).
  { apply length_np_unique_NoDup.
    - apply NoDup_singleton.
    - intros x. rewrite list_elem_of_singleton. split; [apply Hall|].
      intros ->. destruct keys as [|x keys]; [done|].
      rewrite (Hall x) by left. left. }
  destruct (np_unique keys) as [|x [|? ?]] eqn:Hu; try done.
  f_equal. apply Hall, elem_of_np_unique. rewrite Hu. left.
Qed.

(** X12: for a panel of a single instance with one value column, on
    an adapter whose stored seed numpy accepts (0 to 2**32 - 1) and
    on which the framework keeps a horizon (the one [self.fh]
    reads), the returned table holds, for that instance and every
    point of the horizon that lies among the generated steps, in
    ascending order, the median forecast of its step: with one
    group, the rows and the forecasts agree. *)
Theorem single_instance_panel_forecast
    w h h0 y X df k0 ts col c n p ns t k tp batches samples :
  (0 <= _seed (self w) < 2 ^ 32)%Z ->
  _fh (self w) = Some h0 ->
  input_frame w y = Some df ->
  df_index df = MultiIndex (cross_index [k0] ts) ->
  ts ≠ [] ->
  length (df_values df) = length ts ->
  df_columns df = [col] ->
  _cutoff (self w) = Some c ->
  py_max (to_relative h c) = inr n ->
  model_pipeline (self w) = Some p ->
  _config (self w) !! "num_samples" = Some ns ->
  _config (self w) !! "temperature" = Some t ->
  _config (self w) !! "top_k" = Some k ->
  _config (self w) !! "top_p" = Some tp ->
  (pipeline_predict p
     (history_of p (map (map float32) (df_values df)))
     n ns t k tp false (seed_state (_seed (self w)))).1 = inr batches ->
  batches !! 0 = Some samples ->
  exists tbl rows,
    (_predict (Some h) y X w).1 = inr tbl /\
    StronglySorted Z.lt rows /\
    (forall a,
       a ∈ rows <->
       a ∈ to_absolute h c /\ (c < a <= c + Z.of_nat (ncols samples))%Z) /\
    df_index tbl = MultiIndex (map (pair k0) rows) /\
    df_values tbl
    = map (fun a =>
             [np_median_1d (column (Z.to_nat (a - c - 1)) samples)])
          rows.
Proof.
  intros Hseed Hfh Hin Hix Hts Hlen Hcol Hc Hmax Hp H1 H2 H3 H4 Hcall Hb.
  pose proof (readiness_inr _ _ _ _ _ _ Hp H1 H2 H3 H4) as Hr.
  destruct (_frame2numpy_cross_index df [k0] ts Hix)
    as (gs & Hgs & Hgl & Hgi);
    [apply NoDup_singleton|done|done|simpl; lia|by rewrite Hcol|].
  pose proof (Hgi 0 ltac:(simpl; lia)) as Hg0.
  rewrite Nat.mul_0_l, drop_0, <- Hlen, firstn_all in Hg0.
  assert (gs = [map (map float32) (df_values df)]) as ->.
  { destruct gs as [|g [|? ?]]; try done. simpl in Hg0. congruence. }
  clear Hgl Hgi Hg0.
  destruct (_predict_run w (Some h) y X df Hseed Hin) as (h' & _ & ->).
  cbv zeta. unfold prediction_length_of. rewrite Hc.
  cbn [require and_then]. rewrite Hmax.
  unfold reshaped. rewrite Hix, Hgs.
  unfold loop_model. rewrite Hr. cbn [sample_groups rng set_rng].
  rewrite Hcall. cbn [forecast_of]. rewrite Hb. cbn [fst snd and_then].
  set (med := np_median_axis0 samples).
  set (T := ncols samples) in *.
  assert (HmedT : length med = T) by apply length_np_median_axis0.
  unfold table_of. rewrite np_stack_axis1_single. cbn [and_then].
  rewrite length_map, HmedT.
  unfold index_of. rewrite Hix, Hfh. cbn [require and_then length].
  assert (Hkeys : np_unique (map fst (cross_index [k0] ts)) = [k0]).
  { apply np_unique_single.
    - destruct ts; [done|]. done.
    - intros x Hx.
      apply (elem_of_keys_cross_index [k0] ts x Hts) in Hx.
      by apply list_elem_of_singleton in Hx. }
  rewrite Hkeys.
  set (times := to_absolute (fh_range T) c).
  assert (HT : length times = T).
  { unfold times. by rewrite to_absolute_fh_range, length_map, length_seq. }
  unfold MultiIndex_from_arrays.
  destruct (decide _) as [_|Hbad].
  2:{ exfalso. apply Hbad.
      rewrite length_np_repeat, length_py_list_mul. simpl. lia. }
  cbn [and_then].
  assert (Hzip :
    zip (np_repeat T [k0]) (py_list_mul times 1) = map (pair k0) times).
  { rewrite <- HT. change 1 with (length [k0]).
    rewrite zip_repeat_tile. unfold cross_index. simpl.
    by rewrite app_nil_r. }
  rewrite Hzip, concat_singletons.
  unfold pd_DataFrame.
  destruct (decide _) as [_|Hbad].
  2:{ exfalso. apply Hbad. rewrite Hcol. split; [|split].
      - cbn [index_length]. by rewrite !length_map, HmedT, HT.
      - done.
      - apply Forall_forall. intros r Hr'.
        by apply list_elem_of_fmap in Hr' as (v & -> & _). }
  cbn [and_then get_level_values_last df_index].
  set (rows := filter (fun x => x ∈ to_absolute h c) times).
  set (mask :=
         map (fun x => bool_decide (x ∈ get_expected_pred_idx h c))
             (map snd (map (pair k0) times))).
  assert (Hmask : mask
                  = map (fun x => bool_decide (x ∈ to_absolute h c)) times).
  { unfold mask, get_expected_pred_idx. f_equal.
    rewrite map_map. simpl. apply map_id. }
  assert (Hfilter : mask_filter mask times = rows).
  { rewrite Hmask, mask_filter_map.
    apply list_filter_iff. intros x. apply bool_decide_spec. }
  eexists _, rows. split; [reflexivity|].
  cbn [loc_mask set_index_names df_index df_values df_columns
       df_index_names index_mask].
  split.
  { apply StronglySorted_filter, StronglySorted_to_absolute_fh_range. }
  split.
  { intros a. unfold rows. rewrite list_elem_of_filter.
    unfold times. rewrite elem_of_to_absolute_fh_range. tauto. }
  split.
  { by rewrite mask_filter_fmap, Hfilter. }
  rewrite <- Hfilter. rewrite <- mask_filter_fmap. f_equal.
  unfold times. rewrite to_absolute_fh_range, map_map.
  unfold med, np_median_axis0. fold T. rewrite map_map.
  apply map_ext. intros j. do 3 f_equal. lia.
Qed.

(** X13: predict forecasts one value column only: a table it returns
    with at least one row comes from an input that has exactly one
    value column, whether flat or panel. *)
Theorem nonempty_forecast_needs_one_column w fh y X df tbl :
  input_frame w y = Some df ->
  (_predict fh y X w).1 = inr tbl ->
  df_values tbl ≠ [] ->
  length (df_columns df) = 1.
Proof.
  intros Hin.
  intros Hret. pose proof (returned_with_seed _ _ _ _ _ Hret) as Hseed.
  revert Hret.
  destruct (_predict_run w fh y X df Hseed Hin) as (h' & _ & ->). cbv zeta.
  destruct (prediction_length_of (self w) fh) as [e|n]; [done|].
  destruct (reshaped df) as [e|gs]; [done|]. cbn [fst].
  destruct (loop_model _ _ _ _).1.1 as [e|results]; [done|].
  cbn [and_then]. unfold table_of.
  destruct (np_stack_axis1 results) as [e|pred]; [done|]. cbn [and_then].
  destruct (index_of _ _ _ _ _) as [e|index]; [done|].
  cbn [and_then].
  destruct fh as [h|]; [|done].
  destruct (_cutoff (self w)) as [c|]; [|done].
  cbn [require and_then].
  unfold pd_DataFrame.
  destruct (decide _) as [(_ & Hwidth & Hrows)|]; [|done].
  cbn [and_then]. intros [= <-].
  cbn [loc_mask set_index_names df_values].
  intros Hne.
  destruct (mask_filter _ _) as [|r rs] eqn:Hr; [done|].
  assert (Hel : r ∈ mask_filter
                  (map (fun x => bool_decide (x ∈ get_expected_pred_idx h c))
                       (get_level_values_last index))
                  (map (fun v => [v]) (concat pred))).
  { cbn [df_index] in Hr. rewrite Hr. left. }
  apply elem_of_mask_filter in Hel.
  rewrite Forall_forall in Hrows. rewrite <- (Hrows r Hel).
  by apply list_elem_of_fmap in Hel as (v & -> & _).
Qed.

(** X14: a call of predict, whatever it returns or raises, changes no
    attribute of the adapter (seeds, configurations, model
    identifier, loaded pipeline, retained series, cutoff) and leaves
    the model store as it was; all it logs are calls of the
    pipeline's predict. *)
Theorem predict_leaves_adapter_unchanged w fh y X :
  self (_predict fh y X w).2 = self w /\
  env (_predict fh y X w).2 = env w /\
  exists evs,
    trace (_predict fh y X w).2 = trace w ++ evs /\
    Forall is_predict_call evs.
Proof.
  destruct (frame__predict fh y X w) as (Hs & He & _ & evs & Ht & Hall).
  split; [done|]. split; [done|].
  exists evs. split; [done|].
  eapply Forall_impl; [exact Hall|].
  intros [|] (n & _ & Hev); done.
Qed.

(** X15: on an adapter that retains no series, a call of predict
    raises without calling the pipeline and without copying a frame,
    also when the caller supplies a replacement series: the retained
    series is copied before the replacement is looked at.  Without a
    horizon, and with a stored seed that numpy accepts (0 to
    2**32 - 1), the exception is the attribute error of that copy;
    with any other seed it is the value error of [set_seed]. *)
Theorem predict_without_retained_series_raises w fh y X :
  _y (self w) = None ->
  (exists e, (_predict fh y X w).1 = inl e) /\
  (fh = None -> (0 <= _seed (self w) < 2 ^ 32)%Z ->
   (_predict fh y X w).1 = inl AttributeError) /\
  (¬ (0 <= _seed (self w) < 2 ^ 32)%Z ->
   (_predict fh y X w).1 = inl ValueError) /\
  trace (_predict fh y X w).2 = trace w /\
  heap (_predict fh y X w).2 = heap w.
Proof.
  intros Hy.
  destruct (decide (0 <= _seed (self w) < 2 ^ 32)%Z) as [Hseed|Hseed].
  2:{ rewrite _predict_refused_seed by done. cbn [fst snd].
      split; [by eexists|]. done. }
  rewrite _predict_unfold by done. cbv zeta. rewrite Hy.
  destruct (prediction_length_of (self w) fh) as [e|n] eqn:Hn.
  - split; [by exists e|]. split; [|done].
    intros ->. done.
  - split; [by eexists|]. done.
Qed.

(** X16: on an adapter with a stored seed that numpy accepts (0 to
    2**32 - 1), a loaded pipeline, a cutoff and its four sampling
    parameters, a call of predict for a flat series with one value
    column and a horizon that is not empty makes exactly one call of
    the pipeline and fails only through it: it raises the exception
    the pipeline raises, unchanged, or the index error of an empty
    batch, and otherwise it returns a table. *)
Theorem flat_predict_fails_only_through_pipeline
    w h y X df ts col c n p ns t k tp :
  (0 <= _seed (self w) < 2 ^ 32)%Z ->
  input_frame w y = Some df ->
  df_index df = Index ts ->
  df_columns df = [col] ->
  _cutoff (self w) = Some c ->
  is_max n (to_relative h c) ->
  model_pipeline (self w) = Some p ->
  sampling (self w) = inr (ns, t, k, tp) ->
  let hist :=
    map float32
      (py_slice_from (- context_length p) (concat (df_values df))) in
  trace (_predict (Some h) y X w).2
  = trace w ++ [predict_call p hist n ns t k tp false] /\
  match (pipeline_predict p hist n ns t k tp false
           (seed_state (_seed (self w)))).1 with
  | inl e => (_predict (Some h) y X w).1 = inl e
  | inr [] => (_predict (Some h) y X w).1 = inl IndexError
  | inr (_ :: _) => exists tbl, (_predict (Some h) y X w).1 = inr tbl
  end.
Proof.
  intros Hseed Hin Hix Hcol Hc Hmax Hp Hsp hist.
  assert (Hr : readiness (self w) = inr (p, (ns, t, k, tp))).
  { unfold readiness. by rewrite Hp, Hsp. }
  destruct (_predict_run w (Some h) y X df Hseed Hin) as (h' & _ & ->).
  cbv zeta. unfold prediction_length_of. rewrite Hc.
  cbn [require and_then]. rewrite (py_max_is_max _ _ Hmax).
  unfold reshaped. rewrite Hix.
  unfold loop_model. rewrite Hr. cbn [sample_groups rng set_rng].
  unfold history_of. rewrite column_0_singletons. fold hist.
  destruct (pipeline_predict p hist n ns t k tp false
              (seed_state (_seed (self w)))).1
    as [e|[|samples bs]]; cbn [forecast_of lookup list_lookup fst snd];
    [done|done|].
  cbn [and_then advance trace set_heap]. split; [done|].
  set (med := np_median_axis0 samples).
  unfold table_of. rewrite np_stack_axis1_single. cbn [and_then].
  rewrite length_map.
  unfold index_of. rewrite Hix. cbn [require and_then].
  rewrite concat_singletons.
  unfold pd_DataFrame.
  destruct (decide _) as [_|Hbad].
  2:{ exfalso. apply Hbad. rewrite Hcol. split; [|split].
      - cbn [index_length]. rewrite length_map.
        by rewrite to_absolute_fh_range, length_map, length_seq.
      - done.
      - apply Forall_forall. intros r Hr'.
        by apply list_elem_of_fmap in Hr' as (v & -> & _). }
  cbn [and_then]. by eexists.
Qed.

(** X17: how the forecasts of a panel reach the rows of the table,
    when every generated step is requested so that no row is
    dropped.  With [K] forecasts of [T] steps each, the table has
    [K * T] rows; the label of row [i * T + j] is instance [i] at
    step [j + 1] after the cutoff, and its cell is taken from the
    forecasts step by step: it holds step [(i * T + j) / K] of the
    forecast of group [(i * T + j) mod K]. *)
Theorem panel_cells_are_taken_step_by_step
    w h y X df rows0 gs c n results w' tbl :
  input_frame w y = Some df ->
  df_index df = MultiIndex rows0 ->
  _frame2numpy df = inr gs ->
  _cutoff (self w) = Some c ->
  py_max (to_relative h c) = inr n ->
  for_each (forecast_group n) gs
    (set_rng (seed_state (_seed (self w))) w) = (inr results, w') ->
  (forall a,
     (c < a <= c + Z.of_nat (ncols results))%Z -> a ∈ to_absolute h c) ->
  (_predict (Some h) y X w).1 = inr tbl ->
  let K := length results in
  let T := ncols results in
  exists rows,
    df_index tbl = MultiIndex rows /\
    length rows = K * T /\
    length (df_values tbl) = K * T /\
    forall i j,
      i < K -> j < T ->
      exists k fc v,
        np_unique (map fst rows0) !! i = Some k /\
        rows !! (i * T + j) = Some (k, (c + Z.of_nat (S j))%Z) /\
        results !! ((i * T + j) `mod` K) = Some fc /\
        fc !! ((i * T + j) `div` K) = Some v /\
        df_values tbl !! (i * T + j) = Some [v].
Proof.
  intros Hin Hix Hgs Hc Hmax Hloop Hall Htbl K T.
  pose proof (returned_with_seed _ _ _ _ _ Htbl) as Hseed. revert Htbl.
  destruct (_predict_run w (Some h) y X df Hseed Hin) as (h' & _ & ->).
  cbv zeta. unfold prediction_length_of. rewrite Hc.
  cbn [require and_then]. rewrite Hmax.
  unfold reshaped. rewrite Hix, Hgs.
  rewrite for_each_forecast_group in Hloop.
  cbn [self rng set_rng] in Hloop. injection Hloop as Hres _.
  cbn [rng set_rng fst]. rewrite Hres. cbn [and_then].
  unfold table_of.
  destruct (np_stack_axis1 results) as [e|pred] eqn:Hst; [done|].
  apply np_stack_axis1_inr in Hst as (Hne & Hlens & ->).
  fold T in Hlens |- *. cbn [and_then]. rewrite length_map, length_seq.
  fold K.
  set (pred := map (fun j => column j results) (seq 0 T)).
  assert (Hpred : Forall (fun r => length r = K) pred).
  { apply Forall_forall. intros r Hr.
    apply list_elem_of_fmap in Hr as (s & -> & Hs).
    apply elem_of_seq in Hs. apply (length_column results T); [done|lia]. }
  assert (Hcl : length (concat pred) = T * K).
  { rewrite (length_concat_uniform pred K Hpred).
    unfold pred. by rewrite length_map, length_seq. }
  unfold index_of. rewrite Hix.
  destruct (_fh (self w)); cbn [require and_then]; [|done].
  set (ks := np_unique (map fst rows0)).
  set (times0 := to_absolute (fh_range T) c).
  assert (HT : length times0 = T).
  { unfold times0. by rewrite to_absolute_fh_range, length_map, length_seq. }
  unfold MultiIndex_from_arrays.
  destruct (decide _) as [Heq|]; [|done]. cbn [and_then].
  rewrite <- HT in Heq at 1.
  assert (Hzip : zip (np_repeat T ks) (py_list_mul times0 K)
                 = cross_index ks times0).
  { rewrite <- HT at 1. by apply zip_repeat_tile_any. }
  rewrite Hzip. clear Heq Hzip.
  unfold pd_DataFrame.
  destruct (decide _) as [(Hlen & _ & _)|]; [|done].
  cbn [and_then]. intros [= <-].
  cbn [loc_mask set_index_names df_index df_values index_mask
       get_level_values_last].
  cbn [index_length] in Hlen.
  rewrite length_map, Hcl, length_cross_index, HT in Hlen.
  set (mask := map _ (map snd (cross_index ks times0))).
  assert (Hmask : Forall (fun b => b = true) mask).
  { apply Forall_forall. intros b Hb.
    apply list_elem_of_fmap in Hb as (a & -> & Ha).
    apply list_elem_of_fmap in Ha as ([k a'] & -> & Hka).
    apply elem_of_cross_index in Hka as [_ Ha].
    apply bool_decide_eq_true. unfold get_expected_pred_idx.
    apply Hall. by apply elem_of_to_absolute_fh_range in Ha. }
  assert (Hml : length mask = length (cross_index ks times0)).
  { unfold mask. by rewrite !length_map. }
  rewrite !mask_filter_all;
    [|done|by rewrite Hml, length_map, Hcl, length_cross_index, HT; lia
     |done|done].
  exists (cross_index ks times0).
  split; [done|]. rewrite length_cross_index, HT.
  split; [lia|]. rewrite length_map, Hcl. split; [lia|].
  intros i j Hi Hj.
  assert (HK : length ks = K) by nia.
  destruct (lookup_lt_is_Some_2 ks i) as [k Hk]; [lia|].
  set (r := i * T + j).
  assert (Hr : r < K * T) by (unfold r; nia).
  assert (Hg : r `mod` K < K) by (apply Nat.mod_upper_bound; lia).
  assert (Hs : r `div` K < T).
  { apply Nat.Div0.div_lt_upper_bound. lia. }
  destruct (lookup_lt_is_Some_2 results (r `mod` K) Hg) as [fc Hfc].
  assert (Hfl : length fc = T).
  { rewrite Forall_forall in Hlens. apply Hlens.
    by eapply list_elem_of_lookup_2. }
  destruct (lookup_lt_is_Some_2 fc (r `div` K)) as [v Hv]; [lia|].
  exists k, fc, v. split; [done|]. split.
  { unfold r. rewrite <- HT. apply lookup_cross_index; [done|].
    unfold times0. rewrite to_absolute_fh_range, list_lookup_fmap.
    by rewrite lookup_seq_lt. }
  split; [done|]. split; [done|].
  rewrite list_lookup_fmap.
  replace r with (r `div` K * K + r `mod` K) at 1
    by (pose proof (Nat.div_mod_eq r K); lia).
  rewrite (lookup_concat_uniform pred K) by done.
  unfold pred at 1. rewrite list_lookup_fmap, lookup_seq_lt by done.
  cbn [fmap option_fmap option_map mbind option_bind].
  rewrite (lookup_column results T) by done.
  rewrite Hfc. cbn. by rewrite Hv.
Qed.

(** X18: the constructor takes any integer as a seed, but numpy does
    not: on an adapter constructed with a seed outside 0 to
    2**32 - 1, after any calls of fit and predict, a call of predict
    raises the value error of [set_seed] at its first statement,
    before the input is looked at and before any call of the
    pipeline, and leaves the world as it was, the generators of
    numpy and torch included. *)
Theorem seed_out_of_range_is_refused_at_predict
    mp cfg s w0 cs fh y X :
  ¬ (0 <= s < 2 ^ 32)%Z ->
  let w := run_calls cs (__init__ mp cfg (Some s) w0).2 in
  _predict fh y X w = (inl ValueError, w).
Proof.
  intros Hs w. apply _predict_refused_seed.
  unfold w. rewrite seed_kept_by_calls, run___init__. exact Hs.
Qed.

(** X19: predict forecasts one value column only: for an input frame,
    flat or panel, with no value column or with more than one, a
    call of predict raises. *)
Theorem multicolumn_input_raises w fh y X df :
  input_frame w y = Some df ->
  length (df_columns df) ≠ 1 ->
  exists e, (_predict fh y X w).1 = inl e.
Proof.
  intros Hin Hcols.
  destruct (_predict fh y X w).1 as [e|tbl] eqn:Hret; [by exists e|].
  exfalso. apply Hcols.
  pose proof (returned_with_seed _ _ _ _ _ Hret) as Hseed.
  revert Hret.
  destruct (_predict_run w fh y X df Hseed Hin) as (h' & _ & ->).
  cbv zeta.
  destruct (prediction_length_of (self w) fh) as [e|n]; [done|].
  destruct (reshaped df) as [e|gs]; [done|]. cbn [fst].
  destruct (loop_model _ _ _ _).1.1 as [e|results]; [done|].
  cbn [and_then]. unfold table_of.
  destruct (np_stack_axis1 results) as [e|pred]; [done|]. cbn [and_then].
  destruct (index_of _ _ _ _ _) as [e|index]; [done|].
  cbn [and_then].
  destruct fh as [h|]; [|done].
  destruct (_cutoff (self w)) as [c|]; [|done].
  cbn [require and_then].
  unfold pd_DataFrame.
  destruct (decide _) as [(_ & Hwidth & _)|]; [|done].
  done.
Qed.

End Properties.

(** ** The properties at work on the concrete world *)

Import Toy.

Lemma predict_leaves_series_unchanged_witness :
  heap (_predict (Some (steps [1; 2]%Z)) (Some 2%positive) None
          (fitted 1%positive)).2 !! 2%positive = Some y_panel /\
  _y (self (_predict (Some (steps [1; 2]%Z)) (Some 2%positive) None
              (fitted 1%positive)).2)
  = _y (self (fitted 1%positive)).
Proof.
  apply (predict_leaves_series_unchanged (fitted 1%positive)).
  vm_compute. reflexivity.
Defined.

Lemma predict_is_reproducible_witness :
  (_predict (Some (steps [1; 2; 3]%Z)) None None (fitted 1%positive)).1
  = (_predict (Some (steps [1; 2; 3]%Z)) None None
       (_predict (Some (steps [2]%Z)) None None (fitted 1%positive)).2).1 /\
  (_predict (Some (steps [1; 2; 3]%Z)) None None
     (_predict (Some (steps [1; 2; 3]%Z)) None None (fitted 1%positive)).2).1
  = (_predict (Some (steps [1; 2; 3]%Z)) None None (fitted 1%positive)).1.
Proof.
  apply (predict_is_reproducible (fitted 1%positive)
           (_predict (Some (steps [2]%Z)) None None (fitted 1%positive)).2
           (Some (steps [1; 2; 3]%Z)) None None y_flat).
  - vm_compute. reflexivity.
  - vm_compute. reflexivity.
  - vm_compute. reflexivity.
Defined.

Lemma mismatched_panel_fails_before_pipeline_witness :
  (_predict (Some (steps [1; 2]%Z)) None None (fitted 3%positive)).1
  = inl AssertionError /\
  trace (_predict (Some (steps [1; 2]%Z)) None None (fitted 3%positive)).2
  = trace (fitted 3%positive).
Proof.
  destruct (mismatched_panel_fails_before_pipeline (fitted 3%positive)
              (Some (steps [1; 2]%Z)) None None y_ragged
              [(0, 0); (0, 1); (0, 2); (1, 0); (1, 1)]%Z 0%Z 1%Z 1%Z)
    as (_ & Htrace & Hassert & _).
  - vm_compute. reflexivity.
  - reflexivity.
  - simpl. repeat constructor.
  - simpl. repeat constructor.
  - vm_compute. discriminate.
  - vm_compute. reflexivity.
  - simpl. discriminate.
  - split; [|exact Htrace]. apply Hassert. by vm_compute.
Defined.


Lemma point_forecast_is_per_step_median_witness :
  length [[311; 321]; [3012; 3022]]%Z = 2 /\
  forall i x,
    [[[100]; [200]; [300]]; [[1000]; [2000]; [3000]]]%Z !! i = Some x ->
    exists p ns t k tp gi batches samples values,
      readiness (self (set_rng 42%Z (fitted 2%positive)))
      = inr (p, (ns, t, k, tp)) /\
      (pipeline_predict p (history_of p x) 2 ns t k tp false gi).1
      = inr batches /\
      batches !! 0 = Some samples /\
      [[311; 321]; [3012; 3022]]%Z !! i = Some values /\
      length values = ncols samples /\
      forall j,
        j < ncols samples ->
        values !! j = Some (np_median_1d (column j samples)) /\
        (NumericOrder Z ->
         existsb Vis_nan (column j samples) = false ->
         is_median (np_median_1d (column j samples)) (column j samples)).
Proof.
  apply (point_forecast_is_per_step_median 2%Z
           [[[100]; [200]; [300]]; [[1000]; [2000]; [3000]]]%Z
           (set_rng 42%Z (fitted 2%positive))
           [[311; 321]; [3012; 3022]]%Z
           (for_each (forecast_group 2%Z)
              [[[100]; [200]; [300]]; [[1000]; [2000]; [3000]]]%Z
              (set_rng 42%Z (fitted 2%positive))).2).
  vm_compute. reflexivity.
Defined.

Lemma flat_forecast_has_one_row_per_time_point_witness :
  exists tbl,
    (_predict (Some (steps [1; 2; 3]%Z)) None None (fitted 1%positive)).1
    = inr tbl /\
    df_index tbl = Index (to_absolute (steps [1; 2; 3]%Z) 3) /\
    StronglySorted Z.lt (to_absolute (steps [1; 2; 3]%Z) 3) /\
    length (df_values tbl) = length (fh_values (steps [1; 2; 3]%Z)) /\
    df_columns tbl = df_columns y_flat /\
    df_index_names tbl = df_index_names y_flat /\
    df_values tbl
    = map (fun a =>
             [np_median_1d
                (column (Z.to_nat (a - 3 - 1))
                   [[141; 151; 161]; [139; 149; 159]; [140; 150; 160]]%Z)])
          (to_absolute (steps [1; 2; 3]%Z) 3).
Proof.
  apply (flat_forecast_has_one_row_per_time_point (fitted 1%positive)
           (steps [1; 2; 3]%Z) None None y_flat [0; 1; 2; 3]%Z
           "passengers" 3%Z 3%Z 512%Z PyNone PyNone PyNone PyNone
           [[[141; 151; 161]; [139; 149; 159]; [140; 150; 160]]]%Z
           [[141; 151; 161]; [139; 149; 159]; [140; 150; 160]]%Z).
  - by vm_compute.
  - vm_compute. reflexivity.
  - reflexivity.
  - reflexivity.
  - vm_compute. reflexivity.
  - simpl. repeat constructor.
  - simpl. repeat constructor; lia.
  - split; [simpl; repeat constructor|].
    intros x Hx. simpl in Hx.
    repeat (apply elem_of_cons in Hx as [->|Hx]; [lia|]).
    by apply elem_of_nil in Hx.
  - vm_compute. reflexivity.
  - vm_compute. reflexivity.
  - vm_compute. reflexivity.
  - vm_compute. reflexivity.
  - vm_compute. reflexivity.
  - vm_compute. reflexivity.
  - reflexivity.
  - simpl. lia.
Defined.

Lemma fit_loads_pipeline_once_witness :
  (trace (_fit 1%positive None None
            (__init__ "amazon/chronos-t5-tiny" None (Some 42%Z) world0).2).2
   = trace (__init__ "amazon/chronos-t5-tiny" None (Some 42%Z) world0).2
     ++ [from_pretrained_call "amazon/chronos-t5-tiny"
           (PyDtype "bfloat16") (PyStr "cpu")] /\
   (_fit 1%positive None None
      (__init__ "amazon/chronos-t5-tiny" None (Some 42%Z) world0).2).1
   = inr tt) /\
  _fit 1%positive None None (fitted 1%positive) = (inr tt, fitted 1%positive).
Proof.
  split.
  - destruct (fit_loads_pipeline_once
                (__init__ "amazon/chronos-t5-tiny" None (Some 42%Z) world0).2
                1%positive None None) as [Hload _].
    destruct (Hload ltac:(vm_compute; reflexivity)
                (PyDtype "bfloat16") (PyStr "cpu")
                ltac:(vm_compute; reflexivity)
                ltac:(vm_compute; reflexivity)) as [Htrace Hok].
    split; [exact Htrace|].
    exact (proj1 (Hok 512%Z ltac:(vm_compute; reflexivity))).
  - destruct (fit_loads_pipeline_once (fitted 1%positive)
                1%positive None None) as [_ Hloaded].
    exact (proj1 (Hloaded 512%Z ltac:(vm_compute; reflexivity))).
Defined.

Lemma init_merges_config_and_keeps_seed_witness :
  _config (self (__init__ "amazon/chronos-t5-tiny"
                   (Some (<["num_samples" := PyInt 20]> ∅)) (Some 42%Z)
                   world0).2) !! "num_samples" = Some (PyInt 20) /\
  _config (self (__init__ "amazon/chronos-t5-tiny"
                   (Some (<["num_samples" := PyInt 20]> ∅)) (Some 42%Z)
                   world0).2) !! "device_map"
  = _default_config !! "device_map" /\
  _seed (self (__init__ "amazon/chronos-t5-tiny"
                 (Some (<["num_samples" := PyInt 20]> ∅)) (Some 42%Z)
                 world0).2) = 42%Z /\
  _seed (self (__init__ "amazon/chronos-t5-tiny" None None world0).2)
  = (np_random_randint 0 (2 ^ 31) (rng world0)).1.
Proof.
  destruct (init_merges_config_and_keeps_seed "amazon/chronos-t5-tiny"
              (Some (<["num_samples" := PyInt 20]> ∅)) (Some 42%Z) world0)
    as (Hsup & Hdef & Hseed & _ & _).
  destruct (init_merges_config_and_keeps_seed "amazon/chronos-t5-tiny"
              None None world0) as (_ & _ & _ & Hdraw & _).
  split; [apply Hsup; vm_compute; reflexivity|].
  split; [apply Hdef; vm_compute; reflexivity|].
  split; [by apply Hseed|by apply Hdraw].
Defined.

(** C1, on the panel of two instances and the horizon of the next two
    steps: the forecasts of instance 0 are 311 and 321 and those of
    instance 1 are 3012 and 3022, yet the row of instance 0 at the
    second step holds 3012, the first-step forecast of instance 1, and
    the row of instance 1 at the first step holds 321. *)
Theorem panel_forecasts_are_misplaced :
  (for_each (forecast_group 2%Z)
     [[[100]; [200]; [300]]; [[1000]; [2000]; [3000]]]%Z
     (set_rng (seed_state 42%Z) (fitted 2%positive))).1
  = inr [[311; 321]; [3012; 3022]]%Z /\
  (_predict (Some (steps [1; 2]%Z)) None None (fitted 2%positive)).1
  = inr {| df_index := MultiIndex [(0, 3); (0, 4); (1, 3); (1, 4)]%Z;
           df_index_names := [Some "instance"; Some "time"];
           df_columns := ["value"];
           df_values := [[311]; [3012]; [321]; [3022]]%Z |}.
Proof. split; vm_compute; reflexivity. Qed.

(** ** More of the properties at work, on both concrete worlds *)

Import Capped.

Lemma predict_without_pipeline_raises_witness :
  (exists e,
     (_predict (Some (steps [1; 2]%Z)) None None
        (Capped.unloaded 1%positive)).1 = inl e) /\
  trace (_predict (Some (steps [1; 2]%Z)) None None
           (Capped.unloaded 1%positive)).2
  = trace (Capped.unloaded 1%positive).
Proof.
  apply (predict_without_pipeline_raises (Capped.unloaded 1%positive)).
  vm_compute. reflexivity.
Defined.

Lemma pipeline_failure_stops_loop_witness :
  exists i x gi evs,
    [[[100]; [200]; [300]]; [[1000]; [2000]; [3000]]]%Z !! i = Some x /\
    trace (for_each (forecast_group 70%Z)
             [[[100]; [200]; [300]]; [[1000]; [2000]; [3000]]]%Z
             (Capped.fitted 2%positive)).2
    = trace (Capped.fitted 2%positive) ++ evs /\
    length evs = S i /\
    last evs
    = Some (predict_call 64%nat (history_of 64%nat x) 70%Z
              PyNone PyNone PyNone PyNone false) /\
    ((pipeline_predict 64%nat (history_of 64%nat x) 70%Z
        PyNone PyNone PyNone PyNone false gi).1 = inl ValueError
     \/ ((pipeline_predict 64%nat (history_of 64%nat x) 70%Z
            PyNone PyNone PyNone PyNone false gi).1 = inr []
         /\ ValueError = IndexError)).
Proof.
  apply (pipeline_failure_stops_loop 70%Z
           [[[100]; [200]; [300]]; [[1000]; [2000]; [3000]]]%Z
           (Capped.fitted 2%positive) ValueError
           (for_each (forecast_group 70%Z)
              [[[100]; [200]; [300]]; [[1000]; [2000]; [3000]]]%Z
              (Capped.fitted 2%positive)).2
           64%nat PyNone PyNone PyNone PyNone).
  - vm_compute. reflexivity.
  - vm_compute. reflexivity.
Defined.

Lemma predict_overwrites_generator_state_witness :
  rng (_predict (Some (steps [1; 2]%Z)) None None
         (Toy.fitted 1%positive)).2
  = rng (_predict (Some (steps [1; 2]%Z)) None None
           (set_rng 1000%Z (Toy.fitted 1%positive))).2.
Proof.
  apply (predict_overwrites_generator_state (Toy.fitted 1%positive)
           (set_rng 1000%Z (Toy.fitted 1%positive))
           (Some (steps [1; 2]%Z)) None None y_flat).
  - by vm_compute.
  - vm_compute. reflexivity.
  - vm_compute. reflexivity.
  - vm_compute. reflexivity.
Defined.

Lemma returned_table_is_well_formed_witness :
  let tbl :=
    {| df_index := MultiIndex [(0, 3); (0, 4); (1, 3); (1, 4)]%Z;
       df_index_names := [Some "instance"; Some "time"];
       df_columns := ["value"];
       df_values := [[311]; [3012]; [321]; [3022]]%Z |} in
  df_columns tbl = df_columns y_panel /\
  df_index_names tbl = df_index_names y_panel /\
  match df_index y_panel, df_index tbl with
  | Index _, Index _ | MultiIndex _, MultiIndex _ => True
  | _, _ => False
  end /\
  length (df_values tbl) = index_length (df_index tbl) /\
  Forall (fun r => length r = 1) (df_values tbl) /\
  exists h c,
    Some (steps [1; 2]%Z) = Some h /\
    _cutoff (self (Toy.fitted 2%positive)) = Some c /\
    forall a,
      a ∈ get_level_values_last (df_index tbl) -> a ∈ to_absolute h c.
Proof.
  apply (returned_table_is_well_formed (Toy.fitted 2%positive)
           (Some (steps [1; 2]%Z)) None None y_panel).
  - vm_compute. reflexivity.
  - vm_compute. reflexivity.
Defined.

Lemma flat_rows_are_generated_horizon_points_witness :
  exists tbl rows,
    (_predict (Some (steps [3; 1; 0]%Z)) None None
       (Toy.fitted 1%positive)).1 = inr tbl /\
    df_index tbl = Index rows /\
    StronglySorted Z.lt rows /\
    (forall a,
       a ∈ rows <->
       a ∈ to_absolute (steps [3; 1; 0]%Z) 3 /\
       (3 < a
        <= 3 + Z.of_nat
                 (ncols [[141; 151; 161]; [139; 149; 159];
                         [140; 150; 160]]%Z))%Z) /\
    df_values tbl
    = map (fun a =>
             [np_median_1d
                (column (Z.to_nat (a - 3 - 1))
                   [[141; 151; 161]; [139; 149; 159]; [140; 150; 160]]%Z)])
          rows.
Proof.
  apply (flat_rows_are_generated_horizon_points (Toy.fitted 1%positive)
           (steps [3; 1; 0]%Z) None None y_flat [0; 1; 2; 3]%Z
           "passengers" 3%Z 3%Z 512%Z PyNone PyNone PyNone PyNone
           [[[141; 151; 161]; [139; 149; 159]; [140; 150; 160]]]%Z
           [[141; 151; 161]; [139; 149; 159]; [140; 150; 160]]%Z).
  - by vm_compute.
  - vm_compute. reflexivity.
  - reflexivity.
  - reflexivity.
  - vm_compute. reflexivity.
  - vm_compute. reflexivity.
  - vm_compute. reflexivity.
  - vm_compute. reflexivity.
  - vm_compute. reflexivity.
  - vm_compute. reflexivity.
  - vm_compute. reflexivity.
  - vm_compute. reflexivity.
  - reflexivity.
Defined.

Lemma panel_index_is_cross_product_witness :
  let rows0 := [(0, 0); (0, 1); (0, 2); (1, 0); (1, 1); (1, 2)]%Z in
  let tbl :=
    {| df_index := MultiIndex [(0, 3); (0, 4); (1, 3); (1, 4)]%Z;
       df_index_names := [Some "instance"; Some "time"];
       df_columns := ["value"];
       df_values := [[311]; [3012]; [321]; [3022]]%Z |} in
  exists h c T times,
    Some (steps [1; 2]%Z) = Some h /\
    _cutoff (self (Toy.fitted 2%positive)) = Some c /\
    StronglySorted Z.lt times /\
    (forall a,
       a ∈ times <->
       a ∈ to_absolute h c /\ (c < a <= c + Z.of_nat T)%Z) /\
    df_index tbl
    = MultiIndex (cross_index (np_unique (map fst rows0)) times) /\
    length (df_values tbl)
    = length (np_unique (map fst rows0)) * length times.
Proof.
  apply (panel_index_is_cross_product (Toy.fitted 2%positive)
           (Some (steps [1; 2]%Z)) None None y_panel).
  - vm_compute. reflexivity.
  - reflexivity.
  - vm_compute. reflexivity.
Defined.

Lemma _same_index_characterised_witness :
  let rows := [(0, 0); (0, 1); (0, 2); (1, 0); (1, 1)]%Z in
  (forall ts n,
     _same_index y_ragged = inr (ts, n) <->
     n = length ts /\
     forall k, k ∈ map fst rows -> times_of k rows = ts) /\
  (forall e,
     _same_index y_ragged = inl e ->
     e = AssertionError /\
     exists k1 k2,
       k1 ∈ map fst rows /\ k2 ∈ map fst rows /\
       times_of k1 rows ≠ times_of k2 rows).
Proof.
  apply (_same_index_characterised y_ragged).
  - reflexivity.
  - discriminate.
Defined.

Lemma _frame2numpy_groups_by_instance_witness :
  _same_index y_panel = inr ([0; 1; 2]%Z, length [0; 1; 2]%Z) /\
  exists gs,
    _frame2numpy y_panel = inr gs /\
    length gs = length [0; 1]%Z /\
    forall i k,
      [0; 1]%Z !! i = Some k ->
      take (length [0; 1; 2]%Z)
        (drop (i * length [0; 1; 2]%Z)
           (cross_index [0; 1]%Z [0; 1; 2]%Z))
      = map (pair k) [0; 1; 2]%Z /\
      gs !! i
      = Some (map (map float32)
                (take (length [0; 1; 2]%Z)
                   (drop (i * length [0; 1; 2]%Z) (df_values y_panel)))).
Proof.
  apply (_frame2numpy_groups_by_instance y_panel [0; 1]%Z [0; 1; 2]%Z).
  - reflexivity.
  - apply (bool_decide_unpack _). vm_compute. exact I.
  - discriminate.
  - discriminate.
  - reflexivity.
  - discriminate.
Defined.

Lemma panel_calls_pipeline_once_per_instance_witness :
  exists evs n,
    trace (_predict (Some (steps [1; 2]%Z)) None None
             (Toy.fitted 2%positive)).2
    = trace (Toy.fitted 2%positive) ++ evs /\
    length evs = length [0; 1]%Z /\
    forall i,
      i < length [0; 1]%Z ->
      let series :=
        map float32
          (column 0 (take (length [0; 1; 2]%Z)
                       (drop (i * length [0; 1; 2]%Z)
                          (df_values y_panel)))) in
      evs !! i
      = Some (predict_call 512%Z
                (map float32
                   (most_recent
                      (Z.to_nat (Z.min (Z.of_nat (length series))
                                       (context_length 512%Z)))
                      series))
                n PyNone PyNone PyNone PyNone false).
Proof.
  apply (panel_calls_pipeline_once_per_instance (Toy.fitted 2%positive)
           (Some (steps [1; 2]%Z)) None None y_panel
           [0; 1]%Z [0; 1; 2]%Z 512%Z PyNone PyNone PyNone PyNone
           {| df_index := MultiIndex [(0, 3); (0, 4); (1, 3); (1, 4)]%Z;
              df_index_names := [Some "instance"; Some "time"];
              df_columns := ["value"];
              df_values := [[311]; [3012]; [321]; [3022]]%Z |}).
  - vm_compute. reflexivity.
  - reflexivity.
  - apply (bool_decide_unpack _). vm_compute. exact I.
  - discriminate.
  - discriminate.
  - reflexivity.
  - discriminate.
  - vm_compute. reflexivity.
  - reflexivity.
  - vm_compute. reflexivity.
  - vm_compute. reflexivity.
  - vm_compute. reflexivity.
  - vm_compute. reflexivity.
  - vm_compute. reflexivity.
Defined.

Lemma single_instance_panel_forecast_witness :
  exists tbl rows,
    (_predict (Some (steps [1; 2]%Z)) None None
       (Capped.fitted 4%positive)).1 = inr tbl /\
    StronglySorted Z.lt rows /\
    (forall a,
       a ∈ rows <->
       a ∈ to_absolute (steps [1; 2]%Z) 2 /\
       (2 < a
        <= 2 + Z.of_nat (ncols [[42; 52]; [40; 50]; [41; 51]]%Z))%Z) /\
    df_index tbl = MultiIndex (map (pair 5%Z) rows) /\
    df_values tbl
    = map (fun a =>
             [np_median_1d
                (column (Z.to_nat (a - 2 - 1))
                   [[42; 52]; [40; 50]; [41; 51]]%Z)])
          rows.
Proof.
  apply (single_instance_panel_forecast (Capped.fitted 4%positive)
           (steps [1; 2]%Z) (steps [1; 2]%Z) None None y_single 5%Z
           [0; 1; 2]%Z "value"
           2%Z 2%Z 64%nat PyNone PyNone PyNone PyNone
           [[[42; 52]; [40; 50]; [41; 51]]]%Z
           [[42; 52]; [40; 50]; [41; 51]]%Z).
  - by vm_compute.
  - vm_compute. reflexivity.
  - vm_compute. reflexivity.
  - reflexivity.
  - discriminate.
  - reflexivity.
  - reflexivity.
  - vm_compute. reflexivity.
  - vm_compute. reflexivity.
  - vm_compute. reflexivity.
  - vm_compute. reflexivity.
  - vm_compute. reflexivity.
  - vm_compute. reflexivity.
  - vm_compute. reflexivity.
  - vm_compute. reflexivity.
  - reflexivity.
Defined.

Lemma nonempty_forecast_needs_one_column_witness :
  length (df_columns y_flat) = 1.
Proof.
  apply (nonempty_forecast_needs_one_column (Toy.fitted 1%positive)
           (Some (steps [1; 2]%Z)) None None y_flat
           {| df_index := Index [4; 5]%Z;
              df_index_names := [None];
              df_columns := ["passengers"];
              df_values := [[140]; [150]]%Z |}).
  - vm_compute. reflexivity.
  - vm_compute. reflexivity.
  - discriminate.
Defined.

Lemma predict_without_retained_series_raises_witness :
  (exists e,
     (_predict None (Some 1%positive) None Toy.world0).1 = inl e) /\
  (@None ForecastingHorizon = None ->
   (0 <= _seed (self Toy.world0) < 2 ^ 32)%Z ->
   (_predict None (Some 1%positive) None Toy.world0).1
   = inl AttributeError) /\
  (¬ (0 <= _seed (self Toy.world0) < 2 ^ 32)%Z ->
   (_predict None (Some 1%positive) None Toy.world0).1
   = inl ValueError) /\
  trace (_predict None (Some 1%positive) None Toy.world0).2
  = trace Toy.world0 /\
  heap (_predict None (Some 1%positive) None Toy.world0).2
  = heap Toy.world0.
Proof.
  apply (predict_without_retained_series_raises Toy.world0).
  reflexivity.
Defined.

Lemma flat_predict_fails_only_through_pipeline_witness :
  let hist :=
    map float32
      (py_slice_from (- context_length 64%nat)
         (concat (df_values y_flat))) in
  trace (_predict (Some (steps [70]%Z)) None None
           (Capped.fitted 1%positive)).2
  = trace (Capped.fitted 1%positive)
    ++ [predict_call 64%nat hist 70%Z PyNone PyNone PyNone PyNone false] /\
  match (pipeline_predict 64%nat hist 70%Z PyNone PyNone PyNone PyNone
           false (seed_state (_seed (self (Capped.fitted 1%positive))))).1
  with
  | inl e =>
      (_predict (Some (steps [70]%Z)) None None
         (Capped.fitted 1%positive)).1 = inl e
  | inr [] =>
      (_predict (Some (steps [70]%Z)) None None
         (Capped.fitted 1%positive)).1 = inl IndexError
  | inr (_ :: _) =>
      exists tbl,
        (_predict (Some (steps [70]%Z)) None None
           (Capped.fitted 1%positive)).1 = inr tbl
  end.
Proof.
  apply (flat_predict_fails_only_through_pipeline
           (Capped.fitted 1%positive) (steps [70]%Z) None None y_flat
           [0; 1; 2; 3]%Z "passengers" 3%Z 70%Z 64%nat
           PyNone PyNone PyNone PyNone).
  - by vm_compute.
  - vm_compute. reflexivity.
  - reflexivity.
  - reflexivity.
  - vm_compute. reflexivity.
  - split; [simpl; repeat constructor|].
    intros x Hx. simpl in Hx.
    repeat (apply elem_of_cons in Hx as [->|Hx]; [lia|]).
    by apply elem_of_nil in Hx.
  - vm_compute. reflexivity.
  - vm_compute. reflexivity.
Defined.

Lemma panel_cells_are_taken_step_by_step_witness :
  let rows0 := [(0, 0); (0, 1); (0, 2); (1, 0); (1, 1); (1, 2)]%Z in
  let results := [[311; 321]; [3012; 3022]]%Z in
  let tbl :=
    {| df_index := MultiIndex [(0, 3); (0, 4); (1, 3); (1, 4)]%Z;
       df_index_names := [Some "instance"; Some "time"];
       df_columns := ["value"];
       df_values := [[311]; [3012]; [321]; [3022]]%Z |} in
  let K := length results in
  let T := ncols results in
  exists rows,
    df_index tbl = MultiIndex rows /\
    length rows = K * T /\
    length (df_values tbl) = K * T /\
    forall i j,
      i < K -> j < T ->
      exists k fc v,
        np_unique (map fst rows0) !! i = Some k /\
        rows !! (i * T + j) = Some (k, (2 + Z.of_nat (S j))%Z) /\
        results !! ((i * T + j) `mod` K) = Some fc /\
        fc !! ((i * T + j) `div` K) = Some v /\
        df_values tbl !! (i * T + j) = Some [v].
Proof.
  apply (panel_cells_are_taken_step_by_step (Toy.fitted 2%positive)
           (steps [1; 2]%Z) None None y_panel
           [(0, 0); (0, 1); (0, 2); (1, 0); (1, 1); (1, 2)]%Z
           [[[100]; [200]; [300]]; [[1000]; [2000]; [3000]]]%Z
           2%Z 2%Z [[311; 321]; [3012; 3022]]%Z
           (for_each (forecast_group 2%Z)
              [[[100]; [200]; [300]]; [[1000]; [2000]; [3000]]]%Z
              (set_rng (seed_state (_seed (self (Toy.fitted 2%positive))))
                 (Toy.fitted 2%positive))).2).
  - vm_compute. reflexivity.
  - reflexivity.
  - vm_compute. reflexivity.
  - vm_compute. reflexivity.
  - vm_compute. reflexivity.
  - vm_compute. reflexivity.
  - intros a Ha. simpl in Ha.
    assert (Hcases : a = 3%Z \/ a = 4%Z) by lia.
    destruct Hcases as [-> | ->]; simpl; repeat constructor.
  - vm_compute. reflexivity.
Defined.

Lemma seed_out_of_range_is_refused_at_predict_witness :
  let w :=
    run_calls [call_fit 1%positive None None]
      (__init__ "amazon/chronos-t5-tiny" None (Some (-1)%Z)
         Toy.world0).2 in
  _predict (Some (steps [1; 2]%Z)) (Some 1%positive) None w
  = (inl ValueError, w).
Proof.
  apply (seed_out_of_range_is_refused_at_predict
           "amazon/chronos-t5-tiny" None (-1)%Z Toy.world0
           [call_fit 1%positive None None]
           (Some (steps [1; 2]%Z)) (Some 1%positive) None).
  lia.
Defined.

Lemma multicolumn_input_raises_witness :
  exists e,
    (_predict (Some (steps [1; 2]%Z)) None None
       (Capped.fitted 5%positive)).1 = inl e.
Proof.
  apply (multicolumn_input_raises (Capped.fitted 5%positive)
           (Some (steps [1; 2]%Z)) None None y_wide).
  - vm_compute. reflexivity.
  - simpl. discriminate.
Defined.
